(** * The policy recommendation engine of ask_my_policy

    A shallow embedding of [backend/src/policy_recommender.py] (class
    [PolicyRecommender]) and the properties of its ranking pass.

    Modelling conventions.
    - A MongoDB document is a Python [dict]; its values are the tagged
      type [value] below.  Dictionaries are association lists in insertion
      order, because the order of [d.items()] decides the order of the text
      blob.
    - Python [int] and (finite) [float] are both [VNum], an exact rational:
      the arithmetic of the scores is carried out in [Q].
    - Strings are byte strings; [str.lower] is the ASCII case mapping.
    - A Python exception is the [Raise] branch of [result].
    - [print] is not modelled; a format specification that can raise is. *)

From Stdlib Require Import ZArith QArith Qround Bool List String Ascii Lia.
From Stdlib Require Import Permutation Sorted Lqa.
Import ListNotations.

Set Implicit Arguments.

(* ------------------------------------------------------------------ *)
(** * Exceptions *)

Inductive exn : Type :=
| TypeError
| AttributeError
| ValueError
| IndexError.

Inductive result (A : Type) : Type :=
| Ok (a : A)
| Raise (e : exn).

Arguments Ok {A} a.
Arguments Raise {A} e.

Definition bind {A B : Type} (c : result A) (k : A -> result B) : result B :=
  match c with
  | Ok a => k a
  | Raise e => Raise e
  end.

Declare Scope py_scope.
Delimit Scope py_scope with py.
Notation "x <- c ;; k" := (bind c (fun x => k))
  (at level 61, c at next level, right associativity) : py_scope.
Local Open Scope py_scope.

(** [try: c except: h] with a bare [except]. *)
Definition try_except {A : Type} (c : result A) (h : A) : A :=
  match c with
  | Ok a => a
  | Raise _ => h
  end.


(* ------------------------------------------------------------------ *)
(** * Strings *)

Module Str.
Local Open Scope string_scope.

Definition code (c : ascii) : N := N_of_ascii c.

Definition is_upper (c : ascii) : bool := ((65 <=? code c) && (code c <=? 90))%N.

Definition lower_char (c : ascii) : ascii :=
  if is_upper c then ascii_of_N (code c + 32) else c.

(** [s.lower()] *)
Fixpoint lower (s : string) : string :=
  match s with
  | EmptyString => EmptyString
  | String c s' => String (lower_char c) (lower s')
  end.

(** [needle in hay] *)
Fixpoint contains (needle hay : string) : bool :=
  prefix needle hay ||
  match hay with
  | EmptyString => false
  | String _ hay' => contains needle hay'
  end.

(** [s.replace(old, new)] for a one-character [old]. *)
Fixpoint replace_char (old : ascii) (new : string) (s : string) : string :=
  match s with
  | EmptyString => EmptyString
  | String c s' =>
      if Ascii.eqb c old then new ++ replace_char old new s'
      else String c (replace_char old new s')
  end.

(** [s.split(sep)] for a one-character [sep]. *)
Fixpoint split_char (sep : ascii) (s : string) : list string :=
  match s with
  | EmptyString => [EmptyString]
  | String c s' =>
      if Ascii.eqb c sep then EmptyString :: split_char sep s'
      else match split_char sep s' with
           | [] => [String c EmptyString]
           | p :: ps => String c p :: ps
           end
  end.

(** The ASCII characters for which [str.isspace] holds. *)
Definition is_space (c : ascii) : bool :=
  (((9 <=? code c) && (code c <=? 13)) || ((28 <=? code c) && (code c <=? 32)))%N.

Fixpoint lstrip (s : string) : string :=
  match s with
  | EmptyString => EmptyString
  | String c s' => if is_space c then lstrip s' else s
  end.

Fixpoint rstrip (s : string) : string :=
  match s with
  | EmptyString => EmptyString
  | String c s' =>
      match rstrip s' with
      | EmptyString => if is_space c then EmptyString else String c EmptyString
      | r => String c r
      end
  end.

(** [s.strip()] *)
Definition strip (s : string) : string := rstrip (lstrip s).

Definition digit_of (c : ascii) : option Z :=
  if ((48 <=? code c) && (code c <=? 57))%N
  then Some (Z.of_N (code c) - 48)%Z else None.

(** The digits of a decimal literal after its first digit: digits, with
    single underscores allowed between two digits. *)
Fixpoint int_digits (acc : Z) (s : string) : option Z :=
  match s with
  | EmptyString => Some acc
  | String c s' =>
      match digit_of c with
      | Some d => int_digits (10 * acc + d) s'
      | None =>
          if Ascii.eqb c "_" then
            match s' with
            | String c' s'' =>
                match digit_of c' with
                | Some d => int_digits (10 * acc + d) s''
                | None => None
                end
            | EmptyString => None
            end
          else None
      end
  end.

Definition int_unsigned (s : string) : option Z :=
  match s with
  | String c s' =>
      match digit_of c with
      | Some d => int_digits d s'
      | None => None
      end
  | EmptyString => None
  end.

Definition int_signed (s : string) : option Z :=
  match s with
  | String c s' =>
      if Ascii.eqb c "+" then int_unsigned s'
      else if Ascii.eqb c "-" then option_map Z.opp (int_unsigned s')
      else int_unsigned s
  | EmptyString => None
  end.

(** [int(s)]: surrounding white space, an optional sign, a decimal
    literal; [ValueError] on anything else. *)
Definition py_int (s : string) : result Z :=
  match int_signed (strip s) with
  | Some z => Ok z
  | None => Raise ValueError
  end.

(** [sep.join(l)] *)
Definition join (sep : string) (l : list string) : string := concat sep l.

(** The characters of [s], as Python iterates a string. *)
Fixpoint chars (s : string) : list string :=
  match s with
  | EmptyString => []
  | String c s' => String c EmptyString :: chars s'
  end.

(** [any(kw in text for kw in keywords)] *)
Definition any_in (keywords : list string) (text : string) : bool :=
  existsb (fun kw => contains kw text) keywords.

End Str.

(* ------------------------------------------------------------------ *)
(** * Document values *)

#[warnings="-register-all"] Inductive value : Type :=
| VNone
| VBool (b : bool)
| VNum (q : Q)
| VStr (s : string)
| VList (l : list value)
| VDict (d : list (string * value)).

(** A Python [dict] with string keys, in insertion order. *)
Definition dict : Type := list (string * value).

Definition Qltb (x y : Q) : bool := negb (Qle_bool y x).

Module Py.

Fixpoint lookup (d : dict) (k : string) : option value :=
  match d with
  | [] => None
  | (k', v) :: d' => if String.eqb k' k then Some v else lookup d' k
  end.

(** [d.get(k, default)] *)
Definition get (d : dict) (k : string) (default : value) : value :=
  match lookup d k with
  | Some v => v
  | None => default
  end.


(** [d[k] = v] *)
Fixpoint set (k : string) (v : value) (d : dict) : dict :=
  match d with
  | [] => [(k, v)]
  | (k', v') :: d' =>
      if String.eqb k' k then (k', v) :: d' else (k', v') :: set k v d'
  end.

(** [dict(items)] *)
Definition of_items (items : list (string * value)) : dict :=
  fold_left (fun d kv => set (fst kv) (snd kv) d) items [].

Definition is_dict (v : value) : bool :=
  match v with VDict _ => true | _ => false end.

Definition is_list (v : value) : bool :=
  match v with VList _ => true | _ => false end.

(** Truth value testing. *)
Definition truthy (v : value) : bool :=
  match v with
  | VNone => false
  | VBool b => b
  | VNum q => negb (Qeq_bool q 0)
  | VStr s => negb (String.eqb s EmptyString)
  | VList l => match l with [] => false | _ => true end
  | VDict d => match d with [] => false | _ => true end
  end.

(** The numeric value of an [int], [float] or [bool]. *)
Definition num (v : value) : option Q :=
  match v with
  | VNum q => Some q
  | VBool true => Some 1%Q
  | VBool false => Some 0%Q
  | _ => None
  end.

(** [a == b] *)
Fixpoint eq (a b : value) {struct a} : bool :=
  match a, b with
  | VNone, VNone => true
  | VStr s, VStr t => String.eqb s t
  | VList l, VList m =>
      (fix go (l m : list value) : bool :=
         match l, m with
         | [], [] => true
         | x :: l', y :: m' => eq x y && go l' m'
         | _, _ => false
         end) l m
  | VDict d, VDict e =>
      Nat.eqb (List.length d) (List.length e) &&
      (fix go (d : dict) : bool :=
         match d with
         | [] => true
         | (k, v) :: d' =>
             match lookup e k with
             | Some w => eq v w
             | None => false
             end && go d'
         end) d
  | VBool _, _ | VNum _, _ =>
      match num a, num b with
      | Some x, Some y => Qeq_bool x y
      | _, _ => false
      end
  | _, _ => false
  end.

(** [a < b]; [TypeError] where Python defines no order. *)
Fixpoint lt (a b : value) {struct a} : result bool :=
  match a, b with
  | VStr s, VStr t => Ok (String.ltb s t)
  | VList l, VList m =>
      (fix go (l m : list value) : result bool :=
         match l, m with
         | [], [] => Ok false
         | [], _ :: _ => Ok true
         | _ :: _, [] => Ok false
         | x :: l', y :: m' => if eq x y then go l' m' else lt x y
         end) l m
  | VBool _, _ | VNum _, _ =>
      match num a, num b with
      | Some x, Some y => Ok (Qltb x y)
      | _, _ => Raise TypeError
      end
  | _, _ => Raise TypeError
  end.

(** [a <= q] for a number [q]. *)
Definition le_num (a : value) (q : Q) : result bool :=
  match num a with
  | Some x => Ok (Qle_bool x q)
  | None => Raise TypeError
  end.

(** [for x in v]: the items Python iterates over. *)
Definition iter (v : value) : result (list value) :=
  match v with
  | VList l => Ok l
  | VStr s => Ok (map VStr (Str.chars s))
  | VDict d => Ok (map (fun kv => VStr (fst kv)) d)
  | _ => Raise TypeError
  end.

(** [v.lower()] *)
Definition lower (v : value) : result string :=
  match v with
  | VStr s => Ok (Str.lower s)
  | _ => Raise AttributeError
  end.

(** [l[i]] *)
Definition index {A : Type} (l : list A) (i : nat) : result A :=
  match nth_error l i with
  | Some x => Ok x
  | None => Raise IndexError
  end.

End Py.

(* ------------------------------------------------------------------ *)
(** * Premium resolver *)

(** [parse_age_bracket].  The argument is whatever [bracket.get('age', '')]
    returned; on a value that is not a string the first membership test or
    string method raises. *)
Definition parse_age_bracket (age_string : value) : result (Z * Z) :=
  match age_string with
  | VStr s =>
      if Str.contains "+" s then
        min_age <- Str.py_int (Str.strip (Str.replace_char "+" "" s)) ;;
        Ok (min_age, 999%Z)
      else if Str.contains "-" s then
        let parts := Str.split_char "-" s in
        p0 <- Py.index parts 0 ;;
        lo <- Str.py_int (Str.strip p0) ;;
        p1 <- Py.index parts 1 ;;
        hi <- Str.py_int (Str.strip p1) ;;
        Ok (lo, hi)
      else
        age <- Str.py_int (Str.strip s) ;;
        Ok (age, age)
  | VList _ | VDict _ => Raise AttributeError
  | _ => Raise TypeError
  end.

(** The entries of [best_matches]. *)
Record premium_info : Type := mk_premium_info {
  premium_amount : value;
  sum_insured : value;
  zone : value;
  composition : value;
  age_bracket : value
}.

(** Lines 293-305: the [try] block around one bracket.  [true] when the
    bracket parses and [min_age <= user_age <= max_age]; a bracket that
    raises is skipped by the bare [except]. *)
Definition bracket_applies (user_age : Z) (age_str : value) : bool :=
  try_except
    (r <- parse_age_bracket age_str ;;
     Ok ((fst r <=? user_age)%Z && (user_age <=? snd r)%Z))
    false.

Section Resolver.
Variable user_age : Z.
Variable user_city : string.
Variable policy_category : string.

(** The test of line 258 on one entry of [cities]. *)
Definition city_matches (city : value) : result bool :=
  c <- Py.lower city ;;
  Ok (String.eqb c (Str.lower user_city) || Str.contains (Str.lower user_city) c).

(** Lines 256-260: the loop that sets [city_found]. *)
Fixpoint city_found (cities : list value) : result bool :=
  match cities with
  | [] => Ok false
  | city :: rest =>
      m <- city_matches city ;;
      if m then Ok true else city_found rest
  end.

(** Lines 286-305. *)
Fixpoint scan_brackets (zone_name sum_ins compo : value)
    (brackets : list value) (best_matches : list premium_info)
    : list premium_info :=
  match brackets with
  | [] => best_matches
  | VDict bracket :: rest =>
      let age_str := Py.get bracket "age" (VStr "") in
      let amount := Py.get bracket "premiumAmount" (VNum 0) in
      if bracket_applies user_age age_str then
        scan_brackets zone_name sum_ins compo rest
          (best_matches ++ [mk_premium_info amount sum_ins zone_name compo age_str])
      else scan_brackets zone_name sum_ins compo rest best_matches
  | _ :: rest => scan_brackets zone_name sum_ins compo rest best_matches
  end.

(** Lines 275-305. *)
Fixpoint scan_options (zone_name sum_ins : value)
    (options : list value) (best_matches : list premium_info)
    : result (list premium_info) :=
  match options with
  | [] => Ok best_matches
  | VDict option :: rest =>
      let option_type := Py.get option "type" (VStr "") in
      if negb (Py.eq option_type (VStr policy_category)) then
        scan_options zone_name sum_ins rest best_matches
      else
        let compo := Py.get option "composition" (VStr "") in
        age_brackets <- Py.iter (Py.get option "ageBrackets" (VList [])) ;;
        scan_options zone_name sum_ins rest
          (scan_brackets zone_name sum_ins compo age_brackets best_matches)
  | _ :: rest => scan_options zone_name sum_ins rest best_matches
  end.

(** Lines 268-305. *)
Fixpoint scan_chart (zone_name : value)
    (premium_chart : list value) (best_matches : list premium_info)
    : result (list premium_info) :=
  match premium_chart with
  | [] => Ok best_matches
  | VDict chart_item :: rest =>
      let sum_ins := Py.get chart_item "sumInsured" (VNum 0) in
      premium_options <- Py.iter (Py.get chart_item "premiumOptions" (VList [])) ;;
      best' <- scan_options zone_name sum_ins premium_options best_matches ;;
      scan_chart zone_name rest best'
  | _ :: rest => scan_chart zone_name rest best_matches
  end.

(** Lines 251-305. *)
Fixpoint scan_zones (premiums : list value) (best_matches : list premium_info)
    : result (list premium_info) :=
  match premiums with
  | [] => Ok best_matches
  | VDict zone_data :: rest =>
      cities <- Py.iter (Py.get zone_data "cities" (VList [])) ;;
      found <- city_found cities ;;
      if negb found then scan_zones rest best_matches
      else
        let zone_name := Py.get zone_data "zoneName" (VStr "Unknown") in
        premium_chart <- Py.iter (Py.get zone_data "premiumChart" (VList [])) ;;
        best' <- scan_chart zone_name premium_chart best_matches ;;
        scan_zones rest best'
  | _ :: rest => scan_zones rest best_matches
  end.

(** [min(best_matches, key=lambda x: x['premium_amount'])] on a list that
    starts with [current]: a later item replaces the running minimum only
    when its key is strictly smaller. *)
Fixpoint min_by_premium (current : premium_info) (rest : list premium_info)
    : result premium_info :=
  match rest with
  | [] => Ok current
  | item :: rest' =>
      smaller <- Py.lt (premium_amount item) (premium_amount current) ;;
      min_by_premium (if smaller then item else current) rest'
  end.

(** [find_applicable_premium] *)
Definition find_applicable_premium (premiums : value)
    : result (option premium_info) :=
  if negb (Py.truthy premiums) || negb (Py.is_list premiums) then Ok None
  else
    match premiums with
    | VList zones =>
        best_matches <- scan_zones zones [] ;;
        match best_matches with
        | first :: rest =>
            best <- min_by_premium first rest ;;
            Ok (Some best)
        | [] => Ok None
        end
    | _ => Ok None
    end.

End Resolver.

(* ------------------------------------------------------------------ *)
(** * Coverage extraction, matching and summary *)

Record coverage_data : Type := mk_coverage_data {
  text : string;
  features : list string;
  special_coverages : list dict;
  addons : list dict;
  raw_coverage : value;
  raw_special : value;
  raw_addons : value
}.

Module KeywordMatch.
Record t : Type := mk {
  matched_features : list string;
  keyword_score : Z;
  total_keywords : Z;
  match_percentage : Q
}.
End KeywordMatch.

Module Recommendation.
Record t : Type := mk {
  policy_id : string;
  policy_name : value;
  insurer : value;
  policy_type : value;
  code : value;
  premium : value;
  sum_insured : value;
  zone : value;
  composition : value;
  age_bracket : value;
  nlp_score : Q;
  keyword_score : Q;
  combined_score : Q;
  matched_features : list string;
  coverage_summary : string
}.
End Recommendation.

(** [keyword_map] of [keyword_matching], in the order of its literal. *)
Definition keyword_map : list (string * list string) :=
  [ ("hiv", ["hiv"; "aids"; "hiv/aids"; "std"]);
    ("cancer", ["cancer"; "oncology"; "chemotherapy"; "malignancy"]);
    ("mental", ["mental"; "psychiatric"; "psychology"]);
    ("maternity", ["maternity"; "pregnancy"; "childbirth"; "delivery"]);
    ("hospitalization", ["hospitalization"; "inpatient"; "hospital"]);
    ("critical illness", ["critical illness"; "critical disease"]);
    ("accident", ["accident"; "accidental"; "injury"]);
    ("ambulance", ["ambulance"; "emergency transport"]);
    ("daycare", ["day care"; "daycare"; "day treatment"]);
    ("domiciliary", ["domiciliary"; "home treatment"]);
    ("cashless", ["cashless"; "network hospital"]);
    ("pre hospitalization", ["pre hospitalization"; "pre-hospitalization"]);
    ("post hospitalization", ["post hospitalization"; "post-hospitalization"])
  ]%string.

(** [coverage_checks] of [generate_coverage_summary]. *)
Definition coverage_checks : list (string * list string) :=
  [ ("HIV/AIDS", ["hiv"; "aids"]);
    ("Cancer", ["cancer"; "oncology"; "chemotherapy"]);
    ("Mental Illness", ["mental"; "psychiatric"]);
    ("Maternity", ["maternity"; "pregnancy"]);
    ("Critical Illness", ["critical illness"]);
    ("Accident", ["accident"; "accidental"]);
    ("Hospitalization", ["hospitalization"; "inpatient"])
  ]%string.

(** One turn of the loop of lines 127-134 on the state
    [(matched_features, keyword_score, total_keywords)]. *)
Definition keyword_step (user_req_lower coverage_text_lower : string)
    (st : list string * Z * Z) (entry : string * list string)
    : list string * Z * Z :=
  let '(matched, score, total) := st in
  let (category, keywords) := entry in
  if Str.any_in keywords user_req_lower then
    if Str.any_in keywords coverage_text_lower
    then (matched ++ [category], score + 1, total + 1)%Z
    else (matched, score, total + 1)%Z
  else st.

(** Line 136. *)
Definition percentage (keyword_score total_keywords : Z) : Q :=
  if (total_keywords >? 0)%Z
  then inject_Z keyword_score / inject_Z total_keywords * 100
  else 0.

(** [keyword_matching] *)
Definition keyword_matching (user_requirement : string) (cd : coverage_data)
    : KeywordMatch.t :=
  let user_req_lower := Str.lower user_requirement in
  let coverage_text_lower := Str.lower (text cd) in
  let '(matched, score, total) :=
    fold_left (keyword_step user_req_lower coverage_text_lower)
      keyword_map ([], 0%Z, 0%Z) in
  KeywordMatch.mk matched score total (percentage score total).

(** Line 370. *)
Definition combine (match_percentage nlp_score : Q) : Q :=
  match_percentage * (7 # 1000) + nlp_score * (3 # 10).

(** Rounding to the nearest integer, ties to the even one. *)
Definition round_half_even (x : Q) : Z :=
  let f := Qfloor x in
  match ((x - inject_Z f) ?= (1 # 2))%Q with
  | Lt => f
  | Gt => (f + 1)%Z
  | Eq => if Z.even f then f else (f + 1)%Z
  end.

(** [round(x, 4)] *)
Definition round4 (x : Q) : Q := Qmake (round_half_even (x * 10000)%Q) 10000.

(** [l[:n]], with Python's reading of a negative bound. *)
Definition slice_to {A : Type} (l : list A) (n : Z) : list A :=
  if (0 <=? n)%Z then firstn (Z.to_nat n) l
  else firstn (List.length l - Z.to_nat (- n)) l.

(** The numeric reading of a recommendation's premium.  A record is built
    only for a policy whose premium passed [premium_amount <= user_budget],
    so the premium is a number whenever the sort looks at it. *)
Definition premium_num (r : Recommendation.t) : Q :=
  match Py.num (Recommendation.premium r) with
  | Some q => q
  | None => 0
  end.

(** The order on the sort key [(-combined_score, premium)]: tuples compare
    on their first components unless these are equal. *)
Definition key_lt (a b : Recommendation.t) : bool :=
  if Qeq_bool (- Recommendation.combined_score a) (- Recommendation.combined_score b)
  then Qltb (premium_num a) (premium_num b)
  else Qltb (- Recommendation.combined_score a) (- Recommendation.combined_score b).

(** [list.sort] is stable: [x] goes before the first item that is not
    strictly smaller than it. *)
Fixpoint insert_by_key (x : Recommendation.t) (l : list Recommendation.t)
    : list Recommendation.t :=
  match l with
  | [] => [x]
  | y :: l' => if key_lt y x then y :: insert_by_key x l' else x :: y :: l'
  end.

Fixpoint sort_recommendations (l : list Recommendation.t) : list Recommendation.t :=
  match l with
  | [] => []
  | x :: l' => insert_by_key x (sort_recommendations l')
  end.

(** The format specification [:,] of [_display_recommendations]. *)
Definition format_thousands (v : value) : result unit :=
  match v with
  | VNum _ | VBool _ => Ok tt
  | VStr _ => Raise ValueError
  | _ => Raise TypeError
  end.

(** [_display_recommendations], for the exceptions it can raise. *)
Fixpoint _display_recommendations (recs : list Recommendation.t) : result unit :=
  match recs with
  | [] => Ok tt
  | r :: rest =>
      _ <- format_thousands (Recommendation.premium r) ;;
      _ <- format_thousands (Recommendation.sum_insured r) ;;
      _display_recommendations rest
  end.

(** The query [{"isActive": True}]: the field is the boolean [True], or an
    array with [True] among its items. *)
Definition is_active (policy : dict) : bool :=
  match Py.lookup policy "isActive" with
  | Some (VBool true) => true
  | Some (VList l) =>
      existsb (fun v => match v with VBool true => true | _ => false end) l
  | _ => false
  end.

(** [list(self.collection.find({"isActive": True}))] *)
Definition find_active (store : list dict) : list dict := filter is_active store.

(* ------------------------------------------------------------------ *)
(** * The engine *)

Section Engine.

(** [str(v)] for the values whose rendering is left open: numbers, lists
    and dictionaries. *)
Variable py_repr : value -> string.

(** The sentence-embedding model and scikit-learn's [cosine_similarity]
    are collaborators of the engine. *)
Variable embedding : Type.
Variable encode : string -> embedding.
Variable cosine_similarity : embedding -> embedding -> Q.

(** [str(v)], also the rendering of [v] in an f-string. *)
Definition str_of (v : value) : string :=
  match v with
  | VStr s => s
  | VNone => "None"
  | VBool true => "True"
  | VBool false => "False"
  | _ => py_repr v
  end.

(** Line 30. *)
Definition child_key (parent_key sep k : string) : string :=
  if negb (String.eqb parent_key "") then (parent_key ++ sep ++ k)%string else k.

(** [flatten_dict]: [flatten_value new_key sep v] is what one item
    [(k, v)] of the loop contributes under the key [new_key]; for a
    dictionary [v] it is [flatten_dict(v, new_key, sep).items()]. *)
Fixpoint flatten_value (new_key sep : string) (v : value) {struct v}
    : list (string * value) :=
  match v with
  | VDict d =>
      Py.of_items
        ((fix items (d : dict) : list (string * value) :=
            match d with
            | [] => []
            | (k, v') :: d' => flatten_value (child_key new_key sep k) sep v' ++ items d'
            end) d)
  | VList l =>
      if forallb Py.is_dict l then
        (fix each (l : list value) : list (string * value) :=
           match l with
           | [] => []
           | item :: l' => flatten_value new_key sep item ++ each l'
           end) l
      else [(new_key, VStr (Str.join ", " (map str_of l)))]
  | _ => [(new_key, v)]
  end.

Definition flatten_dict (d : dict) (parent_key sep : string) : dict :=
  flatten_value parent_key sep (VDict d).

(** Lines 62-66. *)
Definition coverage_features (policy : dict) : list string :=
  match Py.lookup policy "coverage" with
  | Some (VDict coverage) =>
      map (fun kv => (Str.replace_char "_" " " (fst kv) ++ ": " ++ str_of (snd kv))%string)
          (flatten_dict coverage "" " ")
  | _ => []
  end.

(** The dictionaries of a list field whose [flag] is truthy
    (lines 69-72 and 75-78). *)
Fixpoint selected (flag : string) (items : list value) : list dict :=
  match items with
  | [] => []
  | VDict d :: rest =>
      if Py.truthy (Py.get d flag VNone) then d :: selected flag rest
      else selected flag rest
  | _ :: rest => selected flag rest
  end.

Definition selected_of (policy : dict) (field flag : string) : list dict :=
  match Py.lookup policy field with
  | Some (VList items) => selected flag items
  | _ => []
  end.

(** Line 85. *)
Definition special_text (sc : dict) : string :=
  (str_of (Py.get sc "diseaseName" (VStr "")) ++ " " ++
   str_of (Py.get sc "details" (VStr "")) ++ " " ++
   str_of (Py.get sc "limit" (VStr "")))%string.

(** Line 88. *)
Definition addon_text (addon : dict) : string :=
  (str_of (Py.get addon "name" (VStr "")) ++ " " ++
   str_of (Py.get addon "details" (VStr "")))%string.

(** [extract_coverage_details] *)
Definition extract_coverage_details (policy : dict) : coverage_data :=
  let feats := coverage_features policy in
  let specials := selected_of policy "specialCoverages" "isCovered" in
  let adds := selected_of policy "addOns_OptionalBenefits" "isAvailable" in
  let all_text := feats ++ map special_text specials ++ map addon_text adds in
  {| text := Str.join " " all_text;
     features := feats;
     special_coverages := specials;
     addons := adds;
     raw_coverage := Py.get policy "coverage" (VDict []);
     raw_special := Py.get policy "specialCoverages" (VList []);
     raw_addons := Py.get policy "addOns_OptionalBenefits" (VList []) |}.

(** Lines 181-188: the limit of the first special coverage whose disease
    name carries one of the keywords, when that limit is truthy. *)
Fixpoint find_details (keywords : list string) (specials : list dict)
    : result (option value) :=
  match specials with
  | [] => Ok None
  | sc :: rest =>
      sc_name <- Py.lower (Py.get sc "diseaseName" (VStr "")) ;;
      if Str.any_in keywords sc_name then
        let limit := Py.get sc "limit" (VStr "") in
        Ok (if Py.truthy limit then Some limit else None)
      else find_details keywords rest
  end.

(** Lines 175-195 on the state [(coverage_responses, not_covered)]. *)
Fixpoint check_coverages (user_req_lower coverage_text_lower : string)
    (specials : list dict) (checks : list (string * list string))
    (responses not_covered : list string)
    : result (list string * list string) :=
  match checks with
  | [] => Ok (responses, not_covered)
  | (coverage_name, keywords) :: rest =>
      if Str.any_in keywords user_req_lower then
        if Str.any_in keywords coverage_text_lower then
          details <- find_details keywords specials ;;
          let response :=
            match details with
            | Some d => ("✓ Yes, " ++ coverage_name ++ " is covered (" ++ str_of d ++ ")")%string
            | None => ("✓ Yes, " ++ coverage_name ++ " is covered")%string
            end in
          check_coverages user_req_lower coverage_text_lower specials rest
            (responses ++ [response]) not_covered
        else
          check_coverages user_req_lower coverage_text_lower specials rest
            responses (not_covered ++ [coverage_name])
      else
        check_coverages user_req_lower coverage_text_lower specials rest
          responses not_covered
  end.

(** [sep.join(l)] on values: [TypeError] on an item that is not a string. *)
Fixpoint strings_of (l : list value) : result (list string) :=
  match l with
  | [] => Ok []
  | VStr s :: rest => ss <- strings_of rest ;; Ok (s :: ss)
  | _ :: _ => Raise TypeError
  end.

Definition boilerplate_summary : string :=
  ("This policy provides standard health insurance coverage including in-patient hospitalization, pre and post hospitalization expenses, day care procedures, and ambulance services. " ++
   "However, it may not specifically cover the exact features you mentioned. " ++
   "Please review the policy details or consider exploring riders and optional add-ons to customize your coverage.")%string.

(** Lines 207-213. *)
Definition covered_sentence (responses : list string) : string :=
  match responses with
  | [] => ""
  | [r] => r ++ ". "
  | [r1; r2] => r1 ++ " " ++ r2 ++ ". "
  | _ => Str.join " " (firstn 3 responses) ++ ". "
  end%string.

(** Lines 216-222. *)
Definition not_covered_sentence (not_covered : list string) : string :=
  match not_covered with
  | [] => ""
  | [n] =>
      "✗ However, " ++ n ++ " is not covered under the base policy. " ++
      "You may explore optional riders and add-ons to enhance your coverage for these features."
  | _ =>
      "✗ However, " ++ Str.join ", " (removelast not_covered) ++ " and " ++
      last not_covered "" ++ " are not covered under the base policy. " ++
      "You may explore optional riders and add-ons to enhance your coverage for these features."
  end%string.

(** Lines 225-228. *)
Definition addons_sentence (adds : list dict) : result string :=
  match adds with
  | [] => Ok ""%string
  | _ =>
      names <- strings_of (map (fun a => Py.get a "name" (VStr "")) (firstn 2 adds)) ;;
      Ok (" Available add-ons include " ++ Str.join ", " names ++ ".")%string
  end.

(** [generate_coverage_summary] *)
Definition generate_coverage_summary (user_requirement : string)
    (cd : coverage_data) (keyword_match : KeywordMatch.t) : result string :=
  let user_req_lower := Str.lower user_requirement in
  let coverage_text_lower := Str.lower (text cd) in
  st <- check_coverages user_req_lower coverage_text_lower
          (special_coverages cd) coverage_checks [] [] ;;
  let (responses, not_covered) := st in
  match responses, not_covered with
  | [], [] => Ok boilerplate_summary
  | _, _ =>
      tail <- addons_sentence (addons cd) ;;
      Ok (covered_sentence responses ++ not_covered_sentence not_covered ++ tail)%string
  end.

(** ** The ranking pass *)

Variable user_age : Z.
Variable user_budget : Q.
Variable user_city : string.
Variable policy_category : string.
Variable user_coverage_requirement : string.
Variable top_n : Z.

(** Lines 333-345.  The loop stores the resolved premium in the policy
    under the key ['premium_info'] and reads it back at line 377; no other
    key of the policy changes, so a filtered policy is the pair of the
    policy and its premium. *)
Fixpoint filter_policies (active_policies : list dict)
    : result (list (dict * premium_info)) :=
  match active_policies with
  | [] => Ok []
  | policy :: rest =>
      let premiums := Py.get policy "premiums" (VList []) in
      applicable <- find_applicable_premium user_age user_city policy_category premiums ;;
      match applicable with
      | Some info =>
          within <- Py.le_num (premium_amount info) user_budget ;;
          filtered <- filter_policies rest ;;
          Ok (if within then (policy, info) :: filtered else filtered)
      | None => filter_policies rest
      end
  end.

(** Lines 360-395: the body of the scoring loop. *)
Definition score_policy (user_embedding : embedding) (entry : dict * premium_info)
    : result Recommendation.t :=
  let (policy, info) := entry in
  let cd := extract_coverage_details policy in
  let policy_embedding := encode (text cd) in
  let nlp := cosine_similarity user_embedding policy_embedding in
  let keyword_match := keyword_matching user_coverage_requirement cd in
  let combined := combine (KeywordMatch.match_percentage keyword_match) nlp in
  summary <- generate_coverage_summary user_coverage_requirement cd keyword_match ;;
  Ok {| Recommendation.policy_id := str_of (Py.get policy "_id" (VStr "N/A"));
        Recommendation.policy_name := Py.get policy "policyName" (VStr "Unknown");
        Recommendation.insurer := Py.get policy "insurer" (VStr "Unknown");
        Recommendation.policy_type := Py.get policy "policyType" (VStr "N/A");
        Recommendation.code := Py.get policy "code" (VStr "N/A");
        Recommendation.premium := premium_amount info;
        Recommendation.sum_insured := sum_insured info;
        Recommendation.zone := zone info;
        Recommendation.composition := composition info;
        Recommendation.age_bracket := age_bracket info;
        Recommendation.nlp_score := round4 nlp;
        Recommendation.keyword_score := KeywordMatch.match_percentage keyword_match;
        Recommendation.combined_score := round4 combined;
        Recommendation.matched_features := KeywordMatch.matched_features keyword_match;
        Recommendation.coverage_summary := summary |}.

(** Lines 358-395. *)
Fixpoint score_policies (user_embedding : embedding)
    (filtered_policies : list (dict * premium_info))
    : result (list Recommendation.t) :=
  match filtered_policies with
  | [] => Ok []
  | entry :: rest =>
      r <- score_policy user_embedding entry ;;
      rs <- score_policies user_embedding rest ;;
      Ok (r :: rs)
  end.

(** Lines 353-404: scoring, sorting, truncation and display of the
    policies that passed the filter. *)
Definition rank_policies (filtered_policies : list (dict * premium_info))
    : result (list Recommendation.t) :=
  let user_embedding := encode user_coverage_requirement in
  recommendations <- score_policies user_embedding filtered_policies ;;
  let sorted := sort_recommendations recommendations in
  let top_recommendations := slice_to sorted top_n in
  _ <- _display_recommendations top_recommendations ;;
  Ok top_recommendations.

(** [get_recommendations], on the documents of the collection. *)
Definition get_recommendations (store : list dict) : result (list Recommendation.t) :=
  let active_policies := find_active store in
  match active_policies with
  | [] => Ok []
  | _ =>
      filtered_policies <- filter_policies active_policies ;;
      match filtered_policies with
      | [] => Ok []
      | _ => rank_policies filtered_policies
      end
  end.

End Engine.

(* ------------------------------------------------------------------ *)
(** * Specification-side notions *)

(** ** Decimal numerals *)

Definition is_digit (c : ascii) : bool :=
  match Str.digit_of c with
  | Some _ => true
  | None => false
  end.

Definition digit_value (c : ascii) : Z := Z.of_N (Str.code c) - 48.

Fixpoint all_digits (s : string) : bool :=
  match s with
  | EmptyString => true
  | String c s' => is_digit c && all_digits s'
  end.

(** A numeral: a string of decimal digits, at least one. *)
Definition numeral (s : string) : Prop := s <> EmptyString /\ all_digits s = true.

(** The number a numeral denotes in positional notation. *)
Fixpoint decimal (s : string) : Z :=
  match s with
  | EmptyString => 0
  | String c s' => digit_value c * 10 ^ Z.of_nat (String.length s') + decimal s'
  end.

(** [c] occurs in [s]. *)
Fixpoint has_char (c : ascii) (s : string) : bool :=
  match s with
  | EmptyString => false
  | String c' s' => Ascii.eqb c' c || has_char c s'
  end.

(** ** Keyword categories *)

(** A category is requested by a text when one of its triggers occurs in
    the lower-cased text. *)
Definition triggered (text : string) (entry : string * list string) : bool :=
  Str.any_in (snd entry) (Str.lower text).

(** The recognised categories the user's text requests. *)
Definition requested_categories (user_text : string) : list (string * list string) :=
  filter (triggered user_text) keyword_map.

Definition triggered_by_both (user_text policy_text : string)
    (entry : string * list string) : bool :=
  triggered user_text entry && triggered policy_text entry.

(** The recognised categories whose triggers appear in both texts. *)
Definition matched_categories (user_text policy_text : string)
    : list (string * list string) :=
  filter (triggered_by_both user_text policy_text) keyword_map.

Definition requested_count (user_text : string) : Z :=
  Z.of_nat (List.length (requested_categories user_text)).

Definition matched_count (user_text policy_text : string) : Z :=
  Z.of_nat (List.length (matched_categories user_text policy_text)).

(** ** The premium table, read declaratively *)

Definition is_str (v : value) : bool :=
  match v with VStr _ => true | _ => false end.

Definition is_num (v : value) : bool :=
  match Py.num v with Some _ => true | None => false end.

(** The items of a field that holds a list; nothing when the field is
    absent. *)
Definition list_field (d : dict) (k : string) : list value :=
  match Py.get d k (VList []) with
  | VList l => l
  | _ => []
  end.

(** A field, when present, satisfies [ok]. *)
Definition field_ok (d : dict) (k : string) (ok : value -> bool) : bool :=
  match Py.lookup d k with
  | Some v => ok v
  | None => true
  end.

Definition list_of (ok : value -> bool) (v : value) : bool :=
  match v with
  | VList l => forallb ok l
  | _ => false
  end.

(** An entry that is a dictionary satisfies [ok]; any other entry passes,
    since the loops skip it. *)
Definition on_dict (ok : dict -> bool) (v : value) : bool :=
  match v with
  | VDict d => ok d
  | _ => true
  end.

(** A premium table whose fields, where present, have the types of the
    data model: list fields hold lists, cities are strings, amounts and
    sums insured are numbers.  Fields may be missing, list entries need not
    be dictionaries, and the age of a bracket is unconstrained. *)
Definition bracket_ok (bracket : dict) : bool :=
  field_ok bracket "premiumAmount" is_num.

Definition option_ok (option : dict) : bool :=
  field_ok option "ageBrackets" (list_of (on_dict bracket_ok)).

Definition tier_ok (tier : dict) : bool :=
  field_ok tier "sumInsured" is_num &&
  field_ok tier "premiumOptions" (list_of (on_dict option_ok)).

Definition zone_ok (zone : dict) : bool :=
  field_ok zone "cities" (list_of is_str) &&
  field_ok zone "premiumChart" (list_of (on_dict tier_ok)).

Definition premiums_ok (premiums : value) : bool :=
  match premiums with
  | VList zones => forallb (on_dict zone_ok) zones
  | _ => true
  end.

(** The requested city matches a listed city: equal, or a substring of
    it, both in lower case. *)
Definition city_match (user_city : string) (city : value) : bool :=
  match city with
  | VStr c =>
      String.eqb (Str.lower c) (Str.lower user_city)
      || Str.contains (Str.lower user_city) (Str.lower c)
  | _ => false
  end.

(** The bracket parses to a range that holds the age. *)
Definition age_in_bracket (age : Z) (age_str : value) : Prop :=
  exists lo hi, parse_age_bracket age_str = Ok (lo, hi) /\ (lo <= age <= hi)%Z.

(** [applicable age city category premiums m]: [m] is the entry of one age
    bracket of the table that the user's age, city and category select. *)
Definition applicable (age : Z) (city category : string) (premiums : value)
    (m : premium_info) : Prop :=
  exists zones zone_data chart_item option bracket,
    premiums = VList zones /\
    In (VDict zone_data) zones /\
    (exists c, In c (list_field zone_data "cities") /\ city_match city c = true) /\
    In (VDict chart_item) (list_field zone_data "premiumChart") /\
    In (VDict option) (list_field chart_item "premiumOptions") /\
    Py.get option "type" (VStr "") = VStr category /\
    In (VDict bracket) (list_field option "ageBrackets") /\
    age_in_bracket age (Py.get bracket "age" (VStr "")) /\
    m = mk_premium_info
          (Py.get bracket "premiumAmount" (VNum 0))
          (Py.get chart_item "sumInsured" (VNum 0))
          (Py.get zone_data "zoneName" (VStr "Unknown"))
          (Py.get option "composition" (VStr ""))
          (Py.get bracket "age" (VStr "")).

(** The same entries as a comprehension, in the order of the table. *)
Definition dicts_of (l : list value) : list dict :=
  flat_map (fun v => match v with VDict d => [d] | _ => [] end) l.

Definition bracket_candidates (age : Z) (zone_name sum_ins compo : value)
    (brackets : list value) : list premium_info :=
  flat_map
    (fun b =>
       if bracket_applies age (Py.get b "age" (VStr ""))
       then [mk_premium_info (Py.get b "premiumAmount" (VNum 0)) sum_ins zone_name
               compo (Py.get b "age" (VStr ""))]
       else [])
    (dicts_of brackets).

Definition option_candidates (age : Z) (category : string)
    (zone_name sum_ins : value) (options : list value) : list premium_info :=
  flat_map
    (fun o =>
       if Py.eq (Py.get o "type" (VStr "")) (VStr category)
       then bracket_candidates age zone_name sum_ins
              (Py.get o "composition" (VStr "")) (list_field o "ageBrackets")
       else [])
    (dicts_of options).

Definition chart_candidates (age : Z) (category : string) (zone_name : value)
    (chart : list value) : list premium_info :=
  flat_map
    (fun t =>
       option_candidates age category zone_name (Py.get t "sumInsured" (VNum 0))
         (list_field t "premiumOptions"))
    (dicts_of chart).

Definition candidates (age : Z) (city category : string) (zones : list value)
    : list premium_info :=
  flat_map
    (fun z =>
       if existsb (city_match city) (list_field z "cities")
       then chart_candidates age category (Py.get z "zoneName" (VStr "Unknown"))
              (list_field z "premiumChart")
       else [])
    (dicts_of zones).

(** The numeric reading of a resolved premium; 0 stands for "no number"
    and is used only under [is_num]. *)
Definition amount (m : premium_info) : Q :=
  match Py.num (premium_amount m) with
  | Some q => q
  | None => 0
  end.

(** ** The order of the ranking *)

(** [a] may stand directly before [b]: a higher combined score, or the
    same score and a premium that is not higher. *)
Definition ranked_before (a b : Recommendation.t) : Prop :=
  Recommendation.combined_score b < Recommendation.combined_score a \/
  (Recommendation.combined_score a == Recommendation.combined_score b /\
   premium_num a <= premium_num b).

(** ** Records the pass must put up with *)



(** What the display can print: a premium and a sum insured that are
    numbers. *)
Definition printable (r : Recommendation.t) : Prop :=
  is_num (Recommendation.premium r) = true /\
  is_num (Recommendation.sum_insured r) = true.

(** ** A sample store *)

Module Sample.
Local Open Scope string_scope.

(** Collaborators for the examples: embeddings are the texts themselves
    and every pair of texts is similar to degree one half. *)
Definition repr (v : value) : string := "<value>".
Definition encode (s : string) : string := s.
Definition cosine (u p : string) : Q := 1 # 2.

Definition bracket (age : string) (amount : Z) : value :=
  VDict [("age", VStr age); ("premiumAmount", VNum (inject_Z amount))].

(** One zone for Mumbai and Pune with one tier of 500000 for individuals. *)
Definition premiums (brackets : list value) : value :=
  VList
    [VDict
       [("zoneName", VStr "Zone 1");
        ("cities", VList [VStr "Navi Mumbai"; VStr "Pune"]);
        ("premiumChart",
         VList
           [VDict
              [("sumInsured", VNum 500000);
               ("premiumOptions",
                VList
                  [VDict
                     [("type", VStr "Individual");
                      ("composition", VStr "1 Adult");
                      ("ageBrackets", VList brackets)]])]])]].

Definition policy (name : string) (active : bool) (cover : string)
    (brackets : list value) : dict :=
  [("_id", VStr name);
   ("policyName", VStr name);
   ("isActive", VBool active);
   ("coverage", VDict [("inpatient_care", VStr cover)]);
   ("premiums", premiums brackets)].

Definition care : dict :=
  policy "Care" true "cancer treatment covered up to 500000"
    [bracket "18-35" 8000; bracket "36-60" 12000; bracket "61+" 20000].

Definition shield : dict :=
  policy "Shield" true "cancer treatment covered up to 300000"
    [bracket "18-35" 4000; bracket "36+" 9000].

Definition legacy : dict :=
  policy "Legacy" false "cancer and maternity" [bracket "18-35" 1000].

Definition premium_plan : dict :=
  policy "Premium" true "cancer treatment, maternity" [bracket "18-35" 20000].

(** A record with fields missing, entries that are not dictionaries and
    age brackets that do not parse. *)
Definition broken : dict :=
  [("isActive", VBool true);
   ("specialCoverages", VList [VNone; VDict [("isCovered", VBool true)]]);
   ("addOns_OptionalBenefits", VStr "none");
   ("premiums",
    VList
      [VNum 7;
       VDict [("zoneName", VStr "No cities")];
       VDict
         [("cities", VList [VStr "Mumbai"]);
          ("premiumChart",
           VList
             [VStr "tier";
              VDict [("sumInsured", VNum 100000)];
              VDict
                [("premiumOptions",
                  VList
                    [VNone;
                     VDict [("composition", VStr "no type")];
                     VDict
                       [("type", VStr "Individual");
                        ("ageBrackets",
                         VList
                           [VStr "bracket";
                            VDict [("premiumAmount", VNum 1)];
                            VDict [("age", VStr "adult"); ("premiumAmount", VNum 2)];
                            VDict [("age", VNum 28); ("premiumAmount", VNum 3)];
                            VDict [("age", VStr "18-35")]])]])]])]])].

(** The request of the examples: age 28, budget 15000, Mumbai,
    Individual, "I need cancer coverage", five results. *)
Definition run (store : list dict) : result (list Recommendation.t) :=
  get_recommendations repr encode cosine 28 15000 "mumbai" "Individual"
    "I need cancer coverage" 5 store.

End Sample.

(** ** The exact scores of a policy *)

Section ExactScores.
Variable py_repr : value -> string.
Variable embedding : Type.
Variable encode : string -> embedding.
Variable cosine_similarity : embedding -> embedding -> Q.
Variable user_coverage_requirement : string.

(** The text blob of a policy. *)
Definition blob (policy : dict) : string :=
  text (extract_coverage_details py_repr policy).

(** The semantic score: the cosine similarity between the embedding of
    the user's requirement and the embedding of the policy's text blob. *)
Definition semantic_score (policy : dict) : Q :=
  cosine_similarity (encode user_coverage_requirement) (encode (blob policy)).

(** The keyword score: the share of the requested categories that the
    blob also triggers, in percent. *)
Definition keyword_share (policy : dict) : Q :=
  if (requested_count user_coverage_requirement =? 0)%Z then 0
  else inject_Z (matched_count user_coverage_requirement (blob policy))
       / inject_Z (requested_count user_coverage_requirement) * 100.

End ExactScores.

Module Close.
Local Open Scope string_scope.

(** Two policies whose semantic scores are 0.00015 and 0.0002. *)
Definition cosine (u p : string) : Q :=
  if Str.contains "alpha" p then 15 # 100000 else 2 # 10000.



Definition run (store : list dict) : result (list Recommendation.t) :=
  get_recommendations Sample.repr Sample.encode cosine 28 15000 "mumbai"
    "Individual" "wellness" 5 store.

End Close.

(* ------------------------------------------------------------------ *)
(** * Further notions used by the properties of the whole file *)

(** A string of white space only. *)
Fixpoint blank (s : string) : bool :=
  match s with
  | EmptyString => true
  | String c s' => Str.is_space c && blank s'
  end.


(** A value that is neither a dictionary nor a list. *)
Definition scalar (v : value) : bool := negb (Py.is_dict v || Py.is_list v).

(** [v <= budget] holds: [v] is a number not above the budget. *)
Definition within_budget (budget : Q) (v : value) : bool :=
  match Py.num v with
  | Some x => Qle_bool x budget
  | None => false
  end.

(* ------------------------------------------------------------------ *)
(** * The route: [routes/recommender.py] *)

(** What [x.item()] gives for a numpy scalar: a native Python scalar. *)
Inductive native : Type :=
| NBool (b : bool)
| NNum (q : Q)
| NStr (s : string).

(** A numpy array of a numeric dtype: an item (a 0-d array) or an axis of
    sub-arrays. *)
#[warnings="-register-all"] Inductive ndarray : Type :=
| Item (x : Q)
| Axis (rows : list ndarray).

(** The objects [convert_numpy_types] tells apart: numpy arrays, numpy
    scalars ([np.generic]), dictionaries, lists, and everything else;
    a tuple stands for the containers of the last kind. *)
#[warnings="-register-all"] Inductive obj : Type :=
| ONone
| OBool (b : bool)
| ONum (q : Q)
| OStr (s : string)
| OList (l : list obj)
| ODict (d : list (string * obj))
| OTuple (l : list obj)
| OScalar (x : native)
| OArray (a : ndarray).

Definition item (x : native) : obj :=
  match x with
  | NBool b => OBool b
  | NNum q => ONum q
  | NStr s => OStr s
  end.

(** [a.tolist()] *)
Fixpoint tolist (a : ndarray) : obj :=
  match a with
  | Item x => ONum x
  | Axis rows => OList (map tolist rows)
  end.

(** [convert_numpy_types] *)
Fixpoint convert_numpy_types (o : obj) : obj :=
  match o with
  | OArray a => tolist a
  | OScalar x => item x
  | ODict d => ODict (map (fun kv => (fst kv, convert_numpy_types (snd kv))) d)
  | OList l => OList (map convert_numpy_types l)
  | _ => o
  end.

(** No numpy value anywhere in the object. *)
Fixpoint numpy_free (o : obj) : bool :=
  match o with
  | OList l | OTuple l => forallb numpy_free l
  | ODict d => forallb (fun kv => numpy_free (snd kv)) d
  | OScalar _ | OArray _ => false
  | _ => true
  end.

(** Every numpy value of the object is reached through dictionaries and
    lists only: the tuples in it hold none. *)
Fixpoint numpy_in_reach (o : obj) : bool :=
  match o with
  | OList l => forallb numpy_in_reach l
  | ODict d => forallb (fun kv => numpy_in_reach (snd kv)) d
  | OTuple l => forallb numpy_free l
  | _ => true
  end.

(* ------------------------------------------------------------------ *)
(** * String primitives on examples *)

Example lower_ex : Str.lower "Navi Mumbai"%string = "navi mumbai"%string.
Proof. reflexivity. Qed.

Example contains_ex : Str.contains "mumbai" "navi mumbai" = true.
Proof. reflexivity. Qed.

Example split_ex : Str.split_char "-" "18-35" = ["18"; "35"]%string.
Proof. reflexivity. Qed.

Example strip_ex : Str.strip "  65 "%string = "65"%string.
Proof. reflexivity. Qed.

Example int_underscore : Str.py_int " 1_000 " = Ok 1000%Z.
Proof. reflexivity. Qed.

Example int_empty : Str.py_int "" = Raise ValueError.
Proof. reflexivity. Qed.

Example int_negative : Str.py_int "-5" = Ok (-5)%Z.
Proof. reflexivity. Qed.

Example int_double_underscore : Str.py_int "1__0" = Raise ValueError.
Proof. reflexivity. Qed.

(* ------------------------------------------------------------------ *)
(** * Sorting and truncation *)

Section SortFacts.

Lemma Qltb_iff (x y : Q) : Qltb x y = true <-> x < y.
Proof.
  unfold Qltb. rewrite negb_true_iff. split.
  - intros H. apply Qnot_le_lt. intros Hle. apply Qle_bool_iff in Hle. congruence.
  - intros H. destruct (Qle_bool y x) eqn:E; [|reflexivity].
    apply Qle_bool_iff in E. lra.
Qed.

Lemma key_lt_ranked (a b : Recommendation.t) : key_lt a b = true -> ranked_before a b.
Proof.
  unfold key_lt, ranked_before.
  destruct (Qeq_bool _ _) eqn:E; intros H; apply Qltb_iff in H.
  - apply Qeq_bool_iff in E. right. split; lra.
  - left. lra.
Qed.

Lemma key_not_lt_ranked (a b : Recommendation.t) :
  key_lt a b = false -> ranked_before b a.
Proof.
  unfold key_lt, ranked_before.
  destruct (Qeq_bool _ _) eqn:E; intros H.
  - apply Qeq_bool_iff in E. right.
    assert (~ premium_num a < premium_num b)
      by (intros Hlt; apply Qltb_iff in Hlt; congruence).
    split; lra.
  - apply Qeq_bool_neq in E.
    assert (~ - Recommendation.combined_score a < - Recommendation.combined_score b)
      by (intros Hlt; apply Qltb_iff in Hlt; congruence).
    left. lra.
Qed.

Lemma ranked_before_trans (a b c : Recommendation.t) :
  ranked_before a b -> ranked_before b c -> ranked_before a c.
Proof.
  unfold ranked_before. intros [H1|[H1 H1']] [H2|[H2 H2']].
  - left; lra.
  - left; lra.
  - left; lra.
  - right; split; lra.
Qed.

Lemma insert_by_key_perm (x : Recommendation.t) (l : list Recommendation.t) :
  Permutation (insert_by_key x l) (x :: l).
Proof.
  induction l as [|y l IH]; simpl; [reflexivity|].
  destruct (key_lt y x); [|reflexivity].
  rewrite IH. apply perm_swap.
Qed.

(** The sort rearranges its input. *)
Lemma sort_recommendations_perm (l : list Recommendation.t) :
  Permutation (sort_recommendations l) l.
Proof.
  induction l as [|x l IH]; simpl; [reflexivity|].
  rewrite insert_by_key_perm. now constructor.
Qed.

Lemma insert_by_key_sorted (x : Recommendation.t) (l : list Recommendation.t) :
  Sorted ranked_before l -> Sorted ranked_before (insert_by_key x l).
Proof.
  induction l as [|y l IH]; intros Hs; simpl.
  - repeat constructor.
  - apply Sorted_inv in Hs as [Hs Hhd].
    destruct (key_lt y x) eqn:E.
    + constructor; [now apply IH|].
      destruct l as [|z l]; simpl.
      * constructor. now apply key_lt_ranked.
      * destruct (key_lt z x); constructor;
          [now apply HdRel_inv in Hhd | now apply key_lt_ranked].
    + constructor; [now constructor|]. constructor. now apply key_not_lt_ranked.
Qed.

(** The sort puts its input in ranking order. *)
Lemma sort_recommendations_sorted (l : list Recommendation.t) :
  Sorted ranked_before (sort_recommendations l).
Proof.
  induction l as [|x l IH]; simpl; [constructor|]. now apply insert_by_key_sorted.
Qed.

Lemma sort_recommendations_strongly_sorted (l : list Recommendation.t) :
  StronglySorted ranked_before (sort_recommendations l).
Proof.
  apply Sorted_StronglySorted; [|apply sort_recommendations_sorted].
  intros a b c. apply ranked_before_trans.
Qed.

Lemma firstn_In {A : Type} (n : nat) (l : list A) (x : A) :
  In x (firstn n l) -> In x l.
Proof.
  revert n. induction l as [|y l IH]; intros [|n]; simpl; try tauto.
  intros [->|H]; [now left|right; now apply (IH n)].
Qed.

Lemma StronglySorted_firstn {A : Type} (R : A -> A -> Prop) (n : nat) (l : list A) :
  StronglySorted R l -> StronglySorted R (firstn n l).
Proof.
  revert n. induction l as [|x l IH]; intros n Hs.
  - destruct n; constructor.
  - destruct n; simpl; [constructor|].
    apply StronglySorted_inv in Hs as [Hs Hall].
    constructor; [now apply IH|].
    rewrite Forall_forall in *. intros y Hy. apply Hall.
    now apply firstn_In with n.
Qed.

Lemma StronglySorted_nth {A : Type} (R : A -> A -> Prop) (l : list A) :
  StronglySorted R l ->
  forall i j a b, (i < j)%nat ->
    nth_error l i = Some a -> nth_error l j = Some b -> R a b.
Proof.
  induction 1 as [|x l Hs IH Hall]; intros i j a b Hij Ha Hb.
  - destruct i; discriminate Ha.
  - destruct j as [|j]; [lia|]. simpl in Hb. destruct i as [|i].
    + simpl in Ha. injection Ha as <-.
      rewrite Forall_forall in Hall. apply Hall. now apply nth_error_In with j.
    + simpl in Ha. apply (IH i j); [lia|assumption|assumption].
Qed.

Lemma slice_to_firstn {A : Type} (l : list A) (n : Z) :
  (0 <= n)%Z -> slice_to l n = firstn (Z.to_nat n) l.
Proof.
  intros H. unfold slice_to. destruct (Z.leb_spec 0 n); [reflexivity|lia].
Qed.

Lemma slice_to_incl {A : Type} (l : list A) (n : Z) (x : A) :
  In x (slice_to l n) -> In x l.
Proof. unfold slice_to. destruct (0 <=? n)%Z; apply firstn_In. Qed.

Lemma slice_to_sorted {A : Type} (R : A -> A -> Prop) (l : list A) (n : Z) :
  StronglySorted R l -> StronglySorted R (slice_to l n).
Proof. unfold slice_to. destruct (0 <=? n)%Z; apply StronglySorted_firstn. Qed.

End SortFacts.

(* ------------------------------------------------------------------ *)
(** * The premium resolver *)

Section ResolverFacts.
Local Open Scope string_scope.
Local Open Scope list_scope.

Variable user_age : Z.
Variable user_city : string.
Variable policy_category : string.

Lemma iter_list_field (d : dict) (k : string) (ok : value -> bool) :
  field_ok d k (list_of ok) = true ->
  Py.iter (Py.get d k (VList [])) = Ok (list_field d k) /\
  forallb ok (list_field d k) = true.
Proof.
  unfold field_ok, list_field, Py.get.
  destruct (Py.lookup d k) as [v|]; [|split; reflexivity].
  destruct v; simpl; intros H; try discriminate H. split; [reflexivity|exact H].
Qed.

Lemma dicts_of_cons_dict (d : dict) (l : list value) :
  dicts_of (VDict d :: l) = d :: dicts_of l.
Proof. reflexivity. Qed.

Lemma dicts_of_cons_other (v : value) (l : list value) :
  Py.is_dict v = false -> dicts_of (v :: l) = dicts_of l.
Proof. destruct v; simpl; intros H; try discriminate H; reflexivity. Qed.

Lemma in_dicts_of (d : dict) (l : list value) :
  In d (dicts_of l) <-> In (VDict d) l.
Proof.
  unfold dicts_of. rewrite in_flat_map. split.
  - intros (v & Hin & Hd). destruct v; simpl in Hd; try contradiction.
    destruct Hd as [<-|[]]. exact Hin.
  - intros Hin. exists (VDict d). split; [exact Hin|left; reflexivity].
Qed.

(** The bracket loop appends the applicable brackets, in order. *)
Lemma scan_brackets_spec (zone_name sum_ins compo : value) (brackets : list value) :
  forall best,
    scan_brackets user_age zone_name sum_ins compo brackets best
    = best ++ bracket_candidates user_age zone_name sum_ins compo brackets.
Proof.
  induction brackets as [|b rest IH]; intros best.
  - simpl. now rewrite app_nil_r.
  - destruct b as [| | | | |bracket];
      try (cbn [scan_brackets]; rewrite IH; reflexivity).
    cbn [scan_brackets]. unfold bracket_candidates.
    rewrite dicts_of_cons_dict. cbn [flat_map].
    fold (bracket_candidates user_age zone_name sum_ins compo rest).
    destruct (bracket_applies user_age (Py.get bracket "age" (VStr "")));
      rewrite IH; [rewrite <- app_assoc|]; reflexivity.
Qed.

Lemma scan_options_spec (zone_name sum_ins : value) (options : list value) :
  forallb (on_dict option_ok) options = true ->
  forall best,
    scan_options user_age policy_category zone_name sum_ins options best
    = Ok (best ++ option_candidates user_age policy_category zone_name sum_ins options).
Proof.
  induction options as [|o rest IH]; intros Hok best.
  - simpl. now rewrite app_nil_r.
  - cbn [forallb] in Hok. apply andb_prop in Hok as [Ho Hrest].
    destruct o as [| | | | |option];
      try (cbn [scan_options]; rewrite (IH Hrest); reflexivity).
    cbn [scan_options]. unfold option_candidates.
    rewrite dicts_of_cons_dict. cbn [flat_map].
    fold (option_candidates user_age policy_category zone_name sum_ins rest).
    destruct (Py.eq (Py.get option "type" (VStr "")) (VStr policy_category)).
    + cbn [negb]. simpl in Ho. unfold option_ok in Ho.
      destruct (iter_list_field _ _ _ Ho) as [Hiter _].
      rewrite Hiter. cbn [bind]. rewrite scan_brackets_spec, (IH Hrest).
      now rewrite <- app_assoc.
    + cbn [negb]. now rewrite (IH Hrest).
Qed.

Lemma scan_chart_spec (zone_name : value) (chart : list value) :
  forallb (on_dict tier_ok) chart = true ->
  forall best,
    scan_chart user_age policy_category zone_name chart best
    = Ok (best ++ chart_candidates user_age policy_category zone_name chart).
Proof.
  induction chart as [|t rest IH]; intros Hok best.
  - simpl. now rewrite app_nil_r.
  - cbn [forallb] in Hok. apply andb_prop in Hok as [Ht Hrest].
    destruct t as [| | | | |tier];
      try (cbn [scan_chart]; rewrite (IH Hrest); reflexivity).
    cbn [scan_chart]. unfold chart_candidates.
    rewrite dicts_of_cons_dict. cbn [flat_map].
    fold (chart_candidates user_age policy_category zone_name rest).
    simpl in Ht. unfold tier_ok in Ht. apply andb_prop in Ht as [_ Ht].
    destruct (iter_list_field _ _ _ Ht) as [Hiter Hopts].
    rewrite Hiter. cbn [bind]. rewrite (scan_options_spec _ _ _ Hopts).
    cbn [bind]. rewrite (IH Hrest). now rewrite <- app_assoc.
Qed.

Lemma city_found_spec (cities : list value) :
  forallb is_str cities = true ->
  city_found user_city cities = Ok (existsb (city_match user_city) cities).
Proof.
  induction cities as [|c rest IH]; intros Hok; [reflexivity|].
  cbn [forallb] in Hok. apply andb_prop in Hok as [Hc Hrest].
  destruct c; try discriminate Hc.
  cbn [city_found city_matches Py.lower bind existsb city_match].
  destruct (_ || _); [reflexivity|]. now rewrite (IH Hrest).
Qed.

Lemma scan_zones_spec (zones : list value) :
  forallb (on_dict zone_ok) zones = true ->
  forall best,
    scan_zones user_age user_city policy_category zones best
    = Ok (best ++ candidates user_age user_city policy_category zones).
Proof.
  induction zones as [|z rest IH]; intros Hok best.
  - simpl. now rewrite app_nil_r.
  - cbn [forallb] in Hok. apply andb_prop in Hok as [Hz Hrest].
    destruct z as [| | | | |zone_data];
      try (cbn [scan_zones]; rewrite (IH Hrest); reflexivity).
    cbn [scan_zones]. unfold candidates.
    rewrite dicts_of_cons_dict. cbn [flat_map].
    fold (candidates user_age user_city policy_category rest).
    simpl in Hz. unfold zone_ok in Hz. apply andb_prop in Hz as [Hcities Hchart].
    destruct (iter_list_field _ _ _ Hcities) as [Hiter1 Hstr].
    destruct (iter_list_field _ _ _ Hchart) as [Hiter2 Htiers].
    rewrite Hiter1. cbn [bind]. rewrite (city_found_spec _ Hstr). cbn [bind].
    destruct (existsb (city_match user_city) (list_field zone_data "cities")).
    + cbn [negb]. rewrite Hiter2. cbn [bind].
      rewrite (scan_chart_spec _ _ Htiers). cbn [bind].
      rewrite (IH Hrest). now rewrite <- app_assoc.
    + cbn [negb]. now rewrite (IH Hrest).
Qed.

Lemma bracket_applies_iff (age_str : value) :
  bracket_applies user_age age_str = true <-> age_in_bracket user_age age_str.
Proof.
  unfold bracket_applies, age_in_bracket.
  destruct (parse_age_bracket age_str) as [[lo hi]|e]; cbn [bind try_except fst snd].
  - split.
    + intros H. apply andb_prop in H as [H1 H2]. exists lo, hi. split; [reflexivity|lia].
    + intros (lo' & hi' & Heq & Hr). injection Heq as <- <-.
      apply andb_true_intro. split; lia.
  - split; [discriminate|]. intros (lo & hi & Heq & _). discriminate Heq.
Qed.

Lemma eq_str_iff (v : value) (s : string) : Py.eq v (VStr s) = true <-> v = VStr s.
Proof.
  destruct v as [|[|]| | | |]; simpl; split; intros H; try discriminate H.
  - apply String.eqb_eq in H. now subst.
  - injection H as ->. apply String.eqb_refl.
Qed.

Lemma in_bracket_candidates (zone_name sum_ins compo : value)
    (brackets : list value) (m : premium_info) :
  In m (bracket_candidates user_age zone_name sum_ins compo brackets) <->
  exists bracket,
    In (VDict bracket) brackets /\
    age_in_bracket user_age (Py.get bracket "age" (VStr "")) /\
    m = mk_premium_info (Py.get bracket "premiumAmount" (VNum 0)) sum_ins zone_name
          compo (Py.get bracket "age" (VStr "")).
Proof.
  unfold bracket_candidates. rewrite in_flat_map. split.
  - intros (b & Hin & Hm). apply in_dicts_of in Hin.
    destruct (bracket_applies user_age (Py.get b "age" (VStr ""))) eqn:Happ;
      [|contradiction].
    destruct Hm as [<-|[]]. exists b. repeat split; [exact Hin|].
    now apply bracket_applies_iff.
  - intros (b & Hin & Hage & ->). exists b. split; [now apply in_dicts_of|].
    apply bracket_applies_iff in Hage. rewrite Hage. now left.
Qed.

Lemma in_option_candidates (zone_name sum_ins : value)
    (options : list value) (m : premium_info) :
  In m (option_candidates user_age policy_category zone_name sum_ins options) <->
  exists option bracket,
    In (VDict option) options /\
    Py.get option "type" (VStr "") = VStr policy_category /\
    In (VDict bracket) (list_field option "ageBrackets") /\
    age_in_bracket user_age (Py.get bracket "age" (VStr "")) /\
    m = mk_premium_info (Py.get bracket "premiumAmount" (VNum 0)) sum_ins zone_name
          (Py.get option "composition" (VStr "")) (Py.get bracket "age" (VStr "")).
Proof.
  unfold option_candidates. rewrite in_flat_map. split.
  - intros (o & Hin & Hm). apply in_dicts_of in Hin.
    destruct (Py.eq (Py.get o "type" (VStr "")) (VStr policy_category)) eqn:Hty;
      [|contradiction].
    apply eq_str_iff in Hty. apply in_bracket_candidates in Hm as (b & Hb & Hage & ->).
    exists o, b. auto.
  - intros (o & b & Hin & Hty & Hb & Hage & ->). exists o.
    split; [now apply in_dicts_of|].
    apply eq_str_iff in Hty. rewrite Hty. apply in_bracket_candidates.
    exists b. auto.
Qed.

Lemma in_chart_candidates (zone_name : value) (chart : list value) (m : premium_info) :
  In m (chart_candidates user_age policy_category zone_name chart) <->
  exists chart_item option bracket,
    In (VDict chart_item) chart /\
    In (VDict option) (list_field chart_item "premiumOptions") /\
    Py.get option "type" (VStr "") = VStr policy_category /\
    In (VDict bracket) (list_field option "ageBrackets") /\
    age_in_bracket user_age (Py.get bracket "age" (VStr "")) /\
    m = mk_premium_info (Py.get bracket "premiumAmount" (VNum 0))
          (Py.get chart_item "sumInsured" (VNum 0)) zone_name
          (Py.get option "composition" (VStr "")) (Py.get bracket "age" (VStr "")).
Proof.
  unfold chart_candidates. rewrite in_flat_map. split.
  - intros (t & Hin & Hm). apply in_dicts_of in Hin.
    apply in_option_candidates in Hm as (o & b & Ho & Hty & Hb & Hage & ->).
    exists t, o, b. auto 10.
  - intros (t & o & b & Hin & Ho & Hty & Hb & Hage & ->). exists t.
    split; [now apply in_dicts_of|].
    apply in_option_candidates. exists o, b. auto.
Qed.

(** The comprehension lists exactly the applicable entries. *)
Lemma in_candidates (zones : list value) (m : premium_info) :
  In m (candidates user_age user_city policy_category zones) <->
  applicable user_age user_city policy_category (VList zones) m.
Proof.
  unfold candidates, applicable. rewrite in_flat_map. split.
  - intros (z & Hin & Hm). apply in_dicts_of in Hin.
    destruct (existsb (city_match user_city) (list_field z "cities")) eqn:Hcity;
      [|contradiction].
    apply existsb_exists in Hcity.
    apply in_chart_candidates in Hm as (t & o & b & Ht & Ho & Hty & Hb & Hage & ->).
    exists zones, z, t, o, b. auto 12.
  - intros (zs & z & t & o & b & Heq & Hin & Hcity & Ht & Ho & Hty & Hb & Hage & ->).
    injection Heq as <-. exists z. split; [now apply in_dicts_of|].
    apply existsb_exists in Hcity. rewrite Hcity.
    apply in_chart_candidates. exists t, o, b. auto 10.
Qed.

Lemma applicable_only_lists (premiums : value) (m : premium_info) :
  applicable user_age user_city policy_category premiums m ->
  exists zones, premiums = VList zones.
Proof. intros (zs & _ & _ & _ & _ & Heq & _). now exists zs. Qed.

(** Under [premiums_ok] every applicable entry carries a number. *)
Lemma applicable_amount_is_num (premiums : value) (m : premium_info) :
  premiums_ok premiums = true ->
  applicable user_age user_city policy_category premiums m ->
  is_num (premium_amount m) = true.
Proof.
  intros Hok (zs & z & t & o & b & -> & Hz & _ & Ht & Ho & _ & Hb & _ & ->).
  cbn [premium_amount]. simpl in Hok.
  rewrite forallb_forall in Hok. specialize (Hok _ Hz). simpl in Hok.
  unfold zone_ok in Hok. apply andb_prop in Hok as [_ Hchart].
  destruct (iter_list_field _ _ _ Hchart) as [_ Htiers].
  rewrite forallb_forall in Htiers. specialize (Htiers _ Ht). simpl in Htiers.
  unfold tier_ok in Htiers. apply andb_prop in Htiers as [_ Hopts].
  destruct (iter_list_field _ _ _ Hopts) as [_ Hos].
  rewrite forallb_forall in Hos. specialize (Hos _ Ho). simpl in Hos.
  unfold option_ok in Hos.
  destruct (iter_list_field _ _ _ Hos) as [_ Hbs].
  rewrite forallb_forall in Hbs. specialize (Hbs _ Hb). simpl in Hbs.
  unfold bracket_ok, field_ok in Hbs. unfold Py.get.
  destruct (Py.lookup b "premiumAmount"); [exact Hbs|reflexivity].
Qed.


Lemma is_num_amount (m : premium_info) :
  is_num (premium_amount m) = true -> Py.num (premium_amount m) = Some (amount m).
Proof.
  unfold is_num, amount. destruct (Py.num (premium_amount m)); [reflexivity|discriminate].
Qed.

Lemma lt_on_numbers (a b : premium_info) :
  is_num (premium_amount a) = true -> is_num (premium_amount b) = true ->
  Py.lt (premium_amount a) (premium_amount b) = Ok (Qltb (amount a) (amount b)).
Proof.
  intros Ha Hb. pose proof (is_num_amount a Ha) as Ea.
  pose proof (is_num_amount b Hb) as Eb.
  destruct (premium_amount a) as [|ba|qa| | |]; try discriminate Ha;
    cbn [Py.lt]; rewrite Ea, Eb; reflexivity.
Qed.

Lemma Qltb_true (x y : Q) : Qltb x y = true -> x < y.
Proof.
  unfold Qltb. intros H. apply negb_true_iff in H.
  apply Qnot_le_lt. intros Hle. apply Qle_bool_iff in Hle. congruence.
Qed.

Lemma Qltb_false (x y : Q) : Qltb x y = false -> y <= x.
Proof.
  unfold Qltb. intros H. apply negb_false_iff in H. now apply Qle_bool_iff.
Qed.

(** [min] returns an item of the list that no item undercuts. *)
Lemma min_by_premium_spec (rest : list premium_info) :
  forall current,
    is_num (premium_amount current) = true ->
    Forall (fun m => is_num (premium_amount m) = true) rest ->
    exists best,
      min_by_premium current rest = Ok best /\
      In best (current :: rest) /\
      amount best <= amount current /\
      Forall (fun m => amount best <= amount m) rest.
Proof.
  induction rest as [|item rest IH]; intros current Hc Hrest.
  - exists current. repeat split; [now left|apply Qle_refl|constructor].
  - inversion Hrest as [|? ? Hi Hrest']; subst.
    cbn [min_by_premium]. rewrite (lt_on_numbers item current Hi Hc). cbn [bind].
    destruct (Qltb (amount item) (amount current)) eqn:Hlt.
    + apply Qltb_true in Hlt.
      destruct (IH item Hi Hrest') as (best & Heq & Hin & Hle & Hall).
      exists best. repeat split; [exact Heq| | |].
      * destruct Hin as [<-|Hin]; [right; now left|right; now right].
      * apply Qle_trans with (amount item); [exact Hle|now apply Qlt_le_weak].
      * constructor; assumption.
    + apply Qltb_false in Hlt.
      destruct (IH current Hc Hrest') as (best & Heq & Hin & Hle & Hall).
      exists best. repeat split; [exact Heq| |exact Hle|].
      * destruct Hin as [<-|Hin]; [now left|right; now right].
      * constructor; [|assumption]. now apply Qle_trans with (amount current).
Qed.

(** The resolver, on a table whose present fields are well typed: it
    returns none exactly when no entry is applicable, and otherwise an
    applicable entry of lowest amount. *)
Lemma find_applicable_premium_spec (premiums : value) :
  premiums_ok premiums = true ->
  exists r,
    find_applicable_premium user_age user_city policy_category premiums = Ok r /\
    match r with
    | None => forall m, ~ applicable user_age user_city policy_category premiums m
    | Some best =>
        applicable user_age user_city policy_category premiums best /\
        forall m, applicable user_age user_city policy_category premiums m ->
                  amount best <= amount m
    end.
Proof.
  intros Hok. unfold find_applicable_premium.
  destruct premiums as [| ? | ? | ? | zones | ?];
    try (exists None; split; [destruct (_ || _); reflexivity|];
         intros m Hm; apply applicable_only_lists in Hm as [zs Hzs]; discriminate Hzs).
  destruct zones as [|z zs].
  - exists None. split; [reflexivity|].
    intros m Hm. apply in_candidates in Hm. exact Hm.
  - cbn [Py.truthy Py.is_list negb orb].
    simpl in Hok. rewrite (scan_zones_spec (z :: zs) Hok). cbn [bind app].
    destruct (candidates user_age user_city policy_category (z :: zs))
      as [|first rest] eqn:Hc.
    + exists None. split; [reflexivity|].
      intros m Hm. apply in_candidates in Hm. rewrite Hc in Hm. exact Hm.
    + assert (Hnum : forall m, In m (first :: rest) -> is_num (premium_amount m) = true).
      { intros m Hm. rewrite <- Hc in Hm. apply in_candidates in Hm.
        now apply (applicable_amount_is_num (premiums := VList (z :: zs))). }
      destruct (@min_by_premium_spec rest first) as (best & Heq & Hin & Hle & Hall).
      { apply Hnum. now left. }
      { apply Forall_forall. intros m Hm. apply Hnum. now right. }
      rewrite Heq. cbn [bind]. exists (Some best). split; [reflexivity|]. split.
      * apply in_candidates. rewrite Hc. exact Hin.
      * intros m Hm. apply in_candidates in Hm. rewrite Hc in Hm.
        destruct Hm as [<-|Hm]; [exact Hle|].
        rewrite Forall_forall in Hall. now apply Hall.
Qed.

End ResolverFacts.

(* ------------------------------------------------------------------ *)
(** * Age brackets *)

Section AgeBrackets.
Local Open Scope string_scope.
Local Open Scope Z_scope.

Lemma digit_char_facts (c : ascii) :
  is_digit c = true ->
  Str.digit_of c = Some (digit_value c) /\
  Str.is_space c = false /\
  Ascii.eqb c "+" = false /\
  Ascii.eqb c "-" = false /\
  0 <= digit_value c <= 9.
Proof.
  destruct c as [[|] [|] [|] [|] [|] [|] [|] [|]];
    cbv; intros H; try discriminate H; repeat split; congruence.
Qed.

Lemma contains_char (c : ascii) (s : string) :
  Str.contains (String c "") s = has_char c s.
Proof.
  induction s as [|c' s IH]; simpl.
  - reflexivity.
  - rewrite IH. destruct (ascii_dec c c') as [->|Hne].
    + rewrite Ascii.eqb_refl. destruct s; reflexivity.
    + destruct (Ascii.eqb_spec c' c) as [->|_]; [contradiction|reflexivity].
Qed.

Lemma has_char_app (c : ascii) (s t : string) :
  has_char c (s ++ t) = has_char c s || has_char c t.
Proof.
  induction s as [|c' s IH]; simpl; [reflexivity|].
  rewrite IH. apply orb_assoc.
Qed.

Lemma digits_no_plus (s : string) : all_digits s = true -> has_char "+" s = false.
Proof.
  induction s as [|c s IH]; simpl; [reflexivity|].
  intros H. apply andb_prop in H as [Hc Hs].
  destruct (digit_char_facts c Hc) as (_ & _ & Hp & _).
  rewrite Hp. auto.
Qed.

Lemma digits_no_minus (s : string) : all_digits s = true -> has_char "-" s = false.
Proof.
  induction s as [|c s IH]; simpl; [reflexivity|].
  intros H. apply andb_prop in H as [Hc Hs].
  destruct (digit_char_facts c Hc) as (_ & _ & _ & Hm & _).
  rewrite Hm. auto.
Qed.

Lemma lstrip_digits (s : string) : all_digits s = true -> Str.lstrip s = s.
Proof.
  destruct s as [|c s]; simpl; [reflexivity|].
  intros H. apply andb_prop in H as [Hc _].
  destruct (digit_char_facts c Hc) as (_ & Hsp & _). now rewrite Hsp.
Qed.

Lemma rstrip_digits (s : string) : all_digits s = true -> Str.rstrip s = s.
Proof.
  induction s as [|c s IH]; simpl; [reflexivity|].
  intros H. apply andb_prop in H as [Hc Hs].
  rewrite (IH Hs).
  destruct (digit_char_facts c Hc) as (_ & Hsp & _).
  destruct s; [now rewrite Hsp | reflexivity].
Qed.

Lemma strip_digits (s : string) : all_digits s = true -> Str.strip s = s.
Proof.
  intros H. unfold Str.strip. rewrite (lstrip_digits s H). now apply rstrip_digits.
Qed.

Lemma int_digits_decimal (s : string) :
  all_digits s = true ->
  forall acc, Str.int_digits acc s = Some (acc * 10 ^ Z.of_nat (String.length s) + decimal s).
Proof.
  induction s as [|c s IH]; intros H acc.
  - simpl. f_equal. lia.
  - simpl in H. apply andb_prop in H as [Hc Hs].
    destruct (digit_char_facts c Hc) as (Hd & _).
    cbn [Str.int_digits]. rewrite Hd. rewrite (IH Hs).
    f_equal. cbn [decimal String.length].
    rewrite Nat2Z.inj_succ, Z.pow_succ_r by lia. ring.
Qed.

Lemma decimal_nonneg (s : string) : all_digits s = true -> 0 <= decimal s.
Proof.
  induction s as [|c s IH]; simpl; [lia|].
  intros H. apply andb_prop in H as [Hc Hs].
  destruct (digit_char_facts c Hc) as (_ & _ & _ & _ & Hr).
  specialize (IH Hs).
  assert (0 <= 10 ^ Z.of_nat (String.length s)) by (apply Z.pow_nonneg; lia).
  nia.
Qed.

(** [int] reads a numeral as the number it denotes. *)
Lemma py_int_numeral (s : string) : numeral s -> Str.py_int s = Ok (decimal s).
Proof.
  intros [Hne Hd]. unfold Str.py_int. rewrite (strip_digits s Hd).
  destruct s as [|c s]; [contradiction|].
  simpl in Hd. apply andb_prop in Hd as [Hc Hs].
  destruct (digit_char_facts c Hc) as (Hdig & _ & Hp & Hm & _).
  unfold Str.int_signed. rewrite Hp, Hm.
  unfold Str.int_unsigned. rewrite Hdig.
  rewrite (int_digits_decimal s Hs). cbn [decimal]. reflexivity.
Qed.

Lemma replace_plus_suffix (s : string) :
  has_char "+" s = false -> Str.replace_char "+" "" (s ++ "+") = s.
Proof.
  induction s as [|c s IH]; simpl; [reflexivity|].
  intros H. apply orb_false_elim in H as [Hc Hs].
  rewrite Hc. now rewrite (IH Hs).
Qed.

Lemma split_char_none (c : ascii) (s : string) :
  has_char c s = false -> Str.split_char c s = [s].
Proof.
  induction s as [|c' s IH]; simpl; [reflexivity|].
  intros H. apply orb_false_elim in H as [Hc Hs].
  rewrite Hc, (IH Hs). reflexivity.
Qed.

Lemma split_char_two (c : ascii) (s t : string) :
  has_char c s = false -> has_char c t = false ->
  Str.split_char c (s ++ String c t) = [s; t].
Proof.
  intros Hs Ht. induction s as [|c' s IH]; simpl.
  - rewrite Ascii.eqb_refl. now rewrite (split_char_none c t Ht).
  - simpl in Hs. apply orb_false_elim in Hs as [Hc Hs].
    rewrite Hc, (IH Hs). reflexivity.
Qed.

Lemma parse_plus (a : string) :
  numeral a -> parse_age_bracket (VStr (a ++ "+")) = Ok (decimal a, 999).
Proof.
  intros Ha. pose proof Ha as [_ Hd]. unfold parse_age_bracket.
  rewrite contains_char, has_char_app. simpl (has_char "+" "+").
  rewrite orb_true_r.
  rewrite (replace_plus_suffix a (digits_no_plus a Hd)).
  rewrite (strip_digits a Hd), (py_int_numeral Ha). reflexivity.
Qed.

Lemma parse_range (a b : string) :
  numeral a -> numeral b ->
  parse_age_bracket (VStr (a ++ "-" ++ b)) = Ok (decimal a, decimal b).
Proof.
  intros Ha Hb. pose proof Ha as [_ Hda]. pose proof Hb as [_ Hdb].
  unfold parse_age_bracket.
  rewrite !contains_char, !has_char_app.
  rewrite (digits_no_plus a Hda), (digits_no_plus b Hdb).
  simpl (has_char "+" "-"). simpl (has_char "-" "-").
  rewrite orb_true_r. simpl.
  change ("-" ++ b) with (String "-" b).
  rewrite (split_char_two "-" a b (digits_no_minus a Hda) (digits_no_minus b Hdb)).
  simpl. rewrite (strip_digits a Hda), (py_int_numeral Ha).
  simpl. rewrite (strip_digits b Hdb), (py_int_numeral Hb). reflexivity.
Qed.

Lemma parse_single (a : string) :
  numeral a -> parse_age_bracket (VStr a) = Ok (decimal a, decimal a).
Proof.
  intros Ha. pose proof Ha as [_ Hd]. unfold parse_age_bracket.
  rewrite !contains_char, (digits_no_plus a Hd), (digits_no_minus a Hd).
  rewrite (strip_digits a Hd), (py_int_numeral Ha). reflexivity.
Qed.

(** C3, as the code has it.  For numerals [a] and [b]: the bracket ["a+"]
    applies to exactly the ages from [a] to the sentinel upper bound 999,
    the bracket ["a-b"] to exactly the ages from [a] to [b], both included,
    and the bracket ["a"] to the age [a] alone. *)
Theorem age_bracket_forms (a b : string) (age : Z) :
  numeral a -> numeral b ->
  (parse_age_bracket (VStr (a ++ "+")) = Ok (decimal a, 999) /\
   (bracket_applies age (VStr (a ++ "+")) = true <-> decimal a <= age <= 999)) /\
  (parse_age_bracket (VStr (a ++ "-" ++ b)) = Ok (decimal a, decimal b) /\
   (bracket_applies age (VStr (a ++ "-" ++ b)) = true <-> decimal a <= age <= decimal b)) /\
  (parse_age_bracket (VStr a) = Ok (decimal a, decimal a) /\
   (bracket_applies age (VStr a) = true <-> age = decimal a)).
Proof.
  intros Ha Hb. unfold bracket_applies.
  rewrite (parse_plus Ha), (parse_range Ha Hb), (parse_single Ha).
  cbn [bind try_except fst snd].
  repeat match goal with
         | |- _ /\ _ => split
         | |- _ <-> _ => split
         | |- Ok _ = Ok _ => reflexivity
         end;
    intros H;
    try (apply andb_prop in H as [H1 H2]; lia);
    apply andb_true_intro; split; lia.
Qed.

Lemma age_bracket_forms_witness :
  (parse_age_bracket (VStr "18+") = Ok (18, 999) /\
   (bracket_applies 28 (VStr "18+") = true <-> 18 <= 28 <= 999)) /\
  (parse_age_bracket (VStr "18-35") = Ok (18, 35) /\
   (bracket_applies 28 (VStr "18-35") = true <-> 18 <= 28 <= 35)) /\
  (parse_age_bracket (VStr "18") = Ok (18, 18) /\
   (bracket_applies 28 (VStr "18") = true <-> 28 = 18)).
Proof.
  apply (age_bracket_forms (a := "18") (b := "35") 28);
    (split; [discriminate | reflexivity]).
Defined.

(** C3 as the specification words it fails: age 1000 is at least 65, and
    the bracket ["65+"] does not apply to it. *)
Lemma age_bracket_plus_is_bounded :
  parse_age_bracket (VStr "65+") = Ok (65, 999) /\
  65 <= 1000 /\
  bracket_applies 1000 (VStr "65+") = false.
Proof. repeat split; try reflexivity. discriminate. Qed.

Example age_bracket_65_plus : bracket_applies 70 (VStr "65+") = true.
Proof. reflexivity. Qed.

Example age_bracket_18_35 :
  map (fun age => bracket_applies age (VStr "18-35")) [17; 18; 35; 36]
  = [false; true; true; false].
Proof. reflexivity. Qed.

Example age_bracket_30 :
  map (fun age => bracket_applies age (VStr "30")) [29; 30; 31]
  = [false; true; false].
Proof. reflexivity. Qed.

Example age_bracket_malformed :
  map (bracket_applies 30) [VStr ""; VStr "adult"; VStr "5-"; VNum 30; VNone; VList []]
  = [false; false; false; false; false; false].
Proof. reflexivity. Qed.

End AgeBrackets.

(* ------------------------------------------------------------------ *)
(** * Rounding to four decimals *)

Lemma round_half_even_close (x : Q) :
  inject_Z (round_half_even x) - (1 # 2) <= x /\
  x <= inject_Z (round_half_even x) + (1 # 2).
Proof.
  unfold round_half_even.
  pose proof (Qfloor_le x) as Hlo. pose proof (Qlt_floor x) as Hhi.
  rewrite inject_Z_plus in Hhi. change (inject_Z 1) with 1 in Hhi.
  destruct (Qcompare_spec (x - inject_Z (Qfloor x)) (1 # 2)) as [He|Hl|Hg].
  - destruct (Z.even (Qfloor x));
      rewrite ?inject_Z_plus; change (inject_Z 1) with 1; split; lra.
  - split; lra.
  - rewrite inject_Z_plus. change (inject_Z 1) with 1. split; lra.
Qed.

(** [round4 x] is a multiple of one ten-thousandth, at most half of one
    ten-thousandth away from [x]. *)
Lemma round4_close (x : Q) :
  x - (1 # 20000) <= round4 x /\ round4 x <= x + (1 # 20000).
Proof.
  destruct (round_half_even_close (x * 10000)) as [H1 H2].
  assert (Hq : round4 x == inject_Z (round_half_even (x * 10000)) / 10000)
    by (unfold round4; apply Qmake_Qdiv).
  rewrite Hq. set (n := inject_Z (round_half_even (x * 10000))) in *.
  split.
  - apply Qle_shift_div_l; [reflexivity|]. lra.
  - apply Qle_shift_div_r; [reflexivity|]. lra.
Qed.

Example round4_down : round4 (45 # 1000000) == 0.
Proof. reflexivity. Qed.

Example round4_up : round4 (6 # 100000) == 1 # 10000.
Proof. reflexivity. Qed.

Example round4_tie_to_even : round4 (25 # 100000) == 2 # 10000.
Proof. reflexivity. Qed.

(* ------------------------------------------------------------------ *)
(** * Keyword matching *)

Section KeywordScore.
Local Open Scope Z_scope.

Variables user_text policy_text : string.

(** The loop of [keyword_matching] counts what the two filters select. *)
Lemma keyword_loop (table : list (string * list string)) :
  forall matched score total,
    fold_left (keyword_step (Str.lower user_text) (Str.lower policy_text))
      table (matched, score, total)
    = (matched ++ map fst (filter (triggered_by_both user_text policy_text) table),
       score + Z.of_nat (List.length (filter (triggered_by_both user_text policy_text) table)),
       total + Z.of_nat (List.length (filter (triggered user_text) table))).
Proof.
  induction table as [|[category keywords] table IH]; intros matched score total.
  - simpl. rewrite app_nil_r, !Z.add_0_r. reflexivity.
  - assert (Ht : triggered user_text (category, keywords)
                 = Str.any_in keywords (Str.lower user_text)) by reflexivity.
    assert (Hb : triggered_by_both user_text policy_text (category, keywords)
                 = Str.any_in keywords (Str.lower user_text)
                   && Str.any_in keywords (Str.lower policy_text)) by reflexivity.
    cbn [fold_left filter]. rewrite Hb, Ht. unfold keyword_step.
    destruct (Str.any_in keywords (Str.lower user_text));
      destruct (Str.any_in keywords (Str.lower policy_text));
      cbn [andb]; rewrite IH; cbn [map fst List.length];
      rewrite <- ?app_assoc; cbn [app]; rewrite ?Nat2Z.inj_succ;
      repeat (match goal with |- (_, _) = (_, _) => apply f_equal2 end);
      try reflexivity; lia.
Qed.

Lemma filter_both_le (table : list (string * list string)) :
  (List.length (filter (triggered_by_both user_text policy_text) table)
   <= List.length (filter (triggered user_text) table))%nat.
Proof.
  induction table as [|e table IH]; simpl; [lia|].
  unfold triggered_by_both at 1. destruct (triggered user_text e); simpl.
  - destruct (triggered policy_text e); simpl; lia.
  - exact IH.
Qed.

End KeywordScore.

Lemma matched_le_requested (user_text policy_text : string) :
  (0 <= matched_count user_text policy_text <= requested_count user_text)%Z.
Proof.
  unfold matched_count, requested_count, matched_categories, requested_categories.
  pose proof (filter_both_le user_text policy_text keyword_map). lia.
Qed.

Lemma percentage_range (score total : Z) :
  (0 <= score <= total)%Z -> 0 <= percentage score total <= 100.
Proof.
  intros H. unfold percentage.
  destruct (Z.gtb_spec total 0) as [Hpos|_]; [|split; discriminate].
  destruct total as [|t|t]; try lia.
  unfold Qle, Qdiv, Qmult, Qinv, inject_Z; simpl. split; nia.
Qed.

(** What [keyword_matching] returns, in terms of the two filters. *)
Lemma keyword_matching_counts (user_requirement : string) (cd : coverage_data) :
  let km := keyword_matching user_requirement cd in
  let requested := requested_count user_requirement in
  let matched := matched_count user_requirement (text cd) in
  KeywordMatch.total_keywords km = requested /\
  KeywordMatch.keyword_score km = matched /\
  KeywordMatch.matched_features km
    = map fst (matched_categories user_requirement (text cd)) /\
  KeywordMatch.match_percentage km
    = (if (requested =? 0)%Z then 0 else inject_Z matched / inject_Z requested * 100) /\
  0 <= KeywordMatch.match_percentage km <= 100.
Proof.
  intros km requested matched. subst km. unfold keyword_matching.
  rewrite keyword_loop. cbn [app Z.add].
  fold (matched_categories user_requirement (text cd)).
  fold (requested_categories user_requirement).
  fold (matched_count user_requirement (text cd)).
  fold (requested_count user_requirement).
  cbn [KeywordMatch.total_keywords KeywordMatch.keyword_score
       KeywordMatch.matched_features KeywordMatch.match_percentage].
  fold requested matched.
  pose proof (matched_le_requested user_requirement (text cd)) as Hle.
  fold requested matched in Hle.
  repeat split; try reflexivity.
  - unfold percentage.
    destruct (Z.eqb_spec requested 0) as [->|Hne]; [reflexivity|].
    destruct (Z.gtb_spec requested 0); [reflexivity|lia].
  - now apply percentage_range.
  - now apply percentage_range.
Qed.

(** C5.  The keyword score is the share, in percent, of the requested
    categories that the policy text also triggers; it is 0 when the user's
    text requests no recognised category, and it lies between 0 and 100. *)
Theorem keyword_score_is_matched_share (user_requirement : string) (cd : coverage_data) :
  let km := keyword_matching user_requirement cd in
  let requested := requested_count user_requirement in
  let matched := matched_count user_requirement (text cd) in
  KeywordMatch.total_keywords km = requested /\
  KeywordMatch.keyword_score km = matched /\
  KeywordMatch.matched_features km
    = map fst (matched_categories user_requirement (text cd)) /\
  KeywordMatch.match_percentage km
    = (if (requested =? 0)%Z then 0 else inject_Z matched / inject_Z requested * 100) /\
  0 <= KeywordMatch.match_percentage km <= 100.
Proof. exact (keyword_matching_counts user_requirement cd). Qed.

Example keyword_score_scenario :
  let cd := mk_coverage_data "Cancer treatment covered up to 500000"
              [] [] [] VNone VNone VNone in
  let km := keyword_matching "I need cancer coverage" cd in
  KeywordMatch.matched_features km = ["cancer"%string] /\
  KeywordMatch.match_percentage km = 100.
Proof. split; reflexivity. Qed.

Example keyword_score_nothing_requested :
  let cd := mk_coverage_data "cancer" [] [] [] VNone VNone VNone in
  KeywordMatch.match_percentage (keyword_matching "something cheap" cd) = 0.
Proof. reflexivity. Qed.

(* ------------------------------------------------------------------ *)
(** * The ranking pass *)

Section Ranking.
Local Open Scope string_scope.
Local Open Scope list_scope.

Variable py_repr : value -> string.
Variable embedding : Type.
Variable encode : string -> embedding.
Variable cosine_similarity : embedding -> embedding -> Q.
Variable user_age : Z.
Variable user_budget : Q.
Variable user_city : string.
Variable policy_category : string.
Variable user_coverage_requirement : string.
Variable top_n : Z.

Local Abbreviation resolve policy :=
  (find_applicable_premium user_age user_city policy_category
     (Py.get policy "premiums" (VList []))).
Local Abbreviation filter_them :=
  (filter_policies user_age user_budget user_city policy_category).
Local Abbreviation score :=
  (score_policy py_repr encode cosine_similarity user_coverage_requirement
     (encode user_coverage_requirement)).
Local Abbreviation score_all :=
  (score_policies py_repr encode cosine_similarity user_coverage_requirement
     (encode user_coverage_requirement)).
Local Abbreviation rank :=
  (rank_policies py_repr encode cosine_similarity user_coverage_requirement top_n).
Local Abbreviation run :=
  (get_recommendations py_repr encode cosine_similarity user_age user_budget
     user_city policy_category user_coverage_requirement top_n).

Lemma bind_ret {A : Type} (c : result A) : bind c (fun a => Ok a) = c.
Proof. destruct c; reflexivity. Qed.

(** The filter loop treats the policies one after the other. *)
Lemma filter_policies_app (l1 l2 : list dict) :
  filter_them (l1 ++ l2)
  = bind (filter_them l1) (fun f1 => bind (filter_them l2) (fun f2 => Ok (f1 ++ f2))).
Proof.
  induction l1 as [|p l1 IH].
  - cbn [app filter_policies bind]. now rewrite bind_ret.
  - cbn [app filter_policies].
    destruct (resolve p) as [[info|]|e]; cbn [bind]; [|exact IH|reflexivity].
    destruct (Py.le_num (premium_amount info) user_budget) as [within|e];
      cbn [bind]; [|reflexivity].
    rewrite IH. destruct (filter_them l1) as [f1|e]; cbn [bind]; [|reflexivity].
    destruct (filter_them l2) as [f2|e]; cbn [bind]; [|reflexivity].
    destruct within; reflexivity.
Qed.

(** A policy that the filter drops leaves no trace in the filtered list. *)
Lemma filter_policies_skip (l1 l2 : list dict) (p : dict) :
  filter_them [p] = Ok [] ->
  filter_them (l1 ++ p :: l2) = filter_them (l1 ++ l2).
Proof.
  intros Hp. rewrite (filter_policies_app l1 (p :: l2)), (filter_policies_app l1 l2).
  destruct (filter_them l1) as [f1|e]; cbn [bind]; [|reflexivity].
  change (p :: l2) with ([p] ++ l2).
  rewrite (filter_policies_app [p] l2), Hp. cbn [bind app].
  now rewrite bind_ret.
Qed.

Lemma filter_policies_sound (active : list dict) :
  forall filtered,
    filter_them active = Ok filtered ->
    Forall (fun entry =>
              In (fst entry) active /\
              resolve (fst entry) = Ok (Some (snd entry)) /\
              Py.le_num (premium_amount (snd entry)) user_budget = Ok true)
           filtered.
Proof.
  induction active as [|p active IH]; intros filtered H.
  - injection H as <-. constructor.
  - cbn [filter_policies] in H.
    assert (Hweak : forall f,
               Forall (fun entry =>
                         In (fst entry) active /\
                         resolve (fst entry) = Ok (Some (snd entry)) /\
                         Py.le_num (premium_amount (snd entry)) user_budget = Ok true) f ->
               Forall (fun entry =>
                         In (fst entry) (p :: active) /\
                         resolve (fst entry) = Ok (Some (snd entry)) /\
                         Py.le_num (premium_amount (snd entry)) user_budget = Ok true) f).
    { intros f. apply Forall_impl. intros e (H1 & H2 & H3).
      repeat split; [now right|assumption|assumption]. }
    destruct (resolve p) as [[info|]|e] eqn:Hres; cbn [bind] in H;
      [|now apply Hweak, IH|discriminate H].
    destruct (Py.le_num (premium_amount info) user_budget) as [within|e] eqn:Hle;
      cbn [bind] in H; [|discriminate H].
    destruct (filter_them active) as [f|e]; cbn [bind] in H; [|discriminate H].
    injection H as <-. specialize (IH f eq_refl). apply Hweak in IH.
    destruct within; [|exact IH].
    constructor; [|exact IH]. cbn [fst snd]. repeat split; [now left|assumption|assumption].
Qed.

Lemma score_policies_sound (filtered : list (dict * premium_info)) :
  forall scored,
    score_all filtered = Ok scored ->
    Forall2 (fun entry r => score entry = Ok r) filtered scored.
Proof.
  induction filtered as [|entry filtered IH]; intros scored H.
  - injection H as <-. constructor.
  - cbn [score_policies] in H.
    destruct (score entry) as [r|e] eqn:Hr; cbn [bind] in H; [|discriminate H].
    destruct (score_all filtered) as [rs|e]; cbn [bind] in H; [|discriminate H].
    injection H as <-. constructor; [exact Hr|now apply IH].
Qed.

Lemma rank_policies_sound (filtered : list (dict * premium_info))
    (recs : list Recommendation.t) :
  rank filtered = Ok recs ->
  exists scored,
    score_all filtered = Ok scored /\
    recs = slice_to (sort_recommendations scored) top_n.
Proof.
  unfold rank_policies. intros H.
  destruct (score_all filtered) as [scored|e]; cbn [bind] in H; [|discriminate H].
  destruct (_display_recommendations _); cbn [bind] in H; [|discriminate H].
  injection H as <-. now exists scored.
Qed.

Lemma rank_policies_nil : rank [] = Ok [].
Proof.
  unfold rank_policies. cbn [score_policies bind sort_recommendations].
  unfold slice_to. cbn [List.length Nat.sub]. rewrite firstn_nil.
  destruct (0 <=? top_n)%Z; reflexivity.
Qed.

(** The pass is the filter over the active policies followed by the
    ranking of what the filter kept. *)
Lemma get_recommendations_unfold (store : list dict) :
  run store = bind (filter_them (find_active store)) (fun filtered => rank filtered).
Proof.
  unfold get_recommendations.
  destruct (find_active store) as [|p active].
  - cbn [filter_policies bind]. now rewrite rank_policies_nil.
  - destruct (filter_them (p :: active)) as [[|entry filtered]|e]; cbn [bind];
      [now rewrite rank_policies_nil|reflexivity|reflexivity].
Qed.

Lemma score_policy_premium (entry : dict * premium_info) (r : Recommendation.t) :
  score entry = Ok r -> Recommendation.premium r = premium_amount (snd entry).
Proof.
  unfold score_policy. destruct entry as [policy info].
  destruct (generate_coverage_summary _ _ _ _); cbn [bind]; intros H;
    [|discriminate H].
  injection H as <-. reflexivity.
Qed.

Lemma le_num_true (v : value) (q : Q) :
  Py.le_num v q = Ok true -> exists x, Py.num v = Some x /\ x <= q.
Proof.
  unfold Py.le_num. destruct (Py.num v) as [x|]; intros H; [|discriminate H].
  injection H as H. exists x. split; [reflexivity|now apply Qle_bool_iff].
Qed.

(** What a returned list is made of: every entry is the score of an
    active policy of the store that passed the filter. *)
Lemma get_recommendations_inv (store : list dict) (recs : list Recommendation.t) :
  run store = Ok recs ->
  exists filtered scored,
    filter_them (find_active store) = Ok filtered /\
    score_all filtered = Ok scored /\
    recs = slice_to (sort_recommendations scored) top_n.
Proof.
  rewrite get_recommendations_unfold. intros H.
  destruct (filter_them (find_active store)) as [filtered|e] eqn:Hf;
    cbn [bind] in H; [|discriminate H].
  apply rank_policies_sound in H as (scored & Hs & ->).
  now exists filtered, scored.
Qed.

Lemma Forall2_In_r {A B : Type} (R : A -> B -> Prop) (l : list A) (l' : list B) (y : B) :
  Forall2 R l l' -> In y l' -> exists x, In x l /\ R x y.
Proof.
  induction 1 as [|a b l l' Hab _ IH]; intros Hin; [contradiction|].
  destruct Hin as [<-|Hin].
  - exists a. split; [now left|exact Hab].
  - destruct (IH Hin) as (x & Hx & Hr). exists x. split; [now right|exact Hr].
Qed.

Lemma get_recommendations_provenance (store : list dict) (recs : list Recommendation.t) :
  run store = Ok recs ->
  forall r, In r recs ->
    exists policy info,
      In policy store /\ is_active policy = true /\
      resolve policy = Ok (Some info) /\
      Py.le_num (premium_amount info) user_budget = Ok true /\
      score (policy, info) = Ok r.
Proof.
  intros H r Hr. apply get_recommendations_inv in H as (filtered & scored & Hf & Hs & ->).
  apply slice_to_incl in Hr.
  apply (Permutation_in _ (sort_recommendations_perm scored)) in Hr.
  apply score_policies_sound in Hs.
  destruct (@Forall2_In_r _ _ _ _ _ _ Hs Hr) as ([policy info] & Hin & Hscore).
  apply filter_policies_sound in Hf. rewrite Forall_forall in Hf.
  destruct (Hf _ Hin) as (Hact & Hres & Hle). cbn [fst snd] in *.
  unfold find_active in Hact. apply filter_In in Hact as [Hstore Hact].
  exists policy, info. auto.
Qed.

(** C6.  Every returned recommendation carries the premium that the
    resolver found for a policy of the store, and that premium is a number
    not above the user's budget. *)
Theorem recommendations_within_budget (store : list dict) (recs : list Recommendation.t) :
  run store = Ok recs ->
  Forall (fun r =>
            exists policy info q,
              In policy store /\
              resolve policy = Ok (Some info) /\
              Recommendation.premium r = premium_amount info /\
              Py.num (Recommendation.premium r) = Some q /\
              q <= user_budget)
         recs.
Proof.
  intros H. apply Forall_forall. intros r Hr.
  destruct (get_recommendations_provenance _ H r Hr)
    as (policy & info & Hin & _ & Hres & Hle & Hscore).
  apply score_policy_premium in Hscore. cbn [snd] in Hscore.
  apply le_num_true in Hle as (q & Hq & Hle).
  exists policy, info, q. rewrite Hscore. auto.
Qed.

Lemma find_active_app (l1 l2 : list dict) :
  find_active (l1 ++ l2) = find_active l1 ++ find_active l2.
Proof. apply filter_app. Qed.

(** C7.  A policy that the query for active policies does not select, so
    any policy whose [isActive] flag is false, has no part in the pass:
    the result is the one of the store without it, and every returned
    entry is the score of an active policy. *)
Theorem inactive_policy_never_recommended (l1 l2 : list dict) (p : dict) :
  is_active p = false ->
  run (l1 ++ p :: l2) = run (l1 ++ l2) /\
  forall recs r,
    run (l1 ++ p :: l2) = Ok recs -> In r recs ->
    exists policy info,
      In policy (l1 ++ l2) /\ is_active policy = true /\ score (policy, info) = Ok r.
Proof.
  intros Hp.
  assert (Heq : run (l1 ++ p :: l2) = run (l1 ++ l2)).
  { rewrite !get_recommendations_unfold, !find_active_app.
    unfold find_active at 2. cbn [filter]. rewrite Hp. reflexivity. }
  split; [exact Heq|].
  intros recs r H Hr. rewrite Heq in H.
  destruct (get_recommendations_provenance _ H r Hr)
    as (policy & info & Hin & Hact & _ & _ & Hscore).
  exists policy, info. auto.
Qed.

Lemma inactive_flag (p : dict) :
  Py.lookup p "isActive" = Some (VBool false) -> is_active p = false.
Proof. unfold is_active. now intros ->. Qed.

(** The filter keeps nothing of a list in which no policy resolves to a
    premium within the budget. *)
Lemma filter_policies_none (active : list dict) :
  Forall (fun policy =>
            resolve policy = Ok None \/
            exists info, resolve policy = Ok (Some info) /\
                         Py.le_num (premium_amount info) user_budget = Ok false)
         active ->
  filter_them active = Ok [].
Proof.
  induction 1 as [|p active Hp _ IH]; [reflexivity|].
  cbn [filter_policies].
  destruct Hp as [->|(info & -> & Hle)]; cbn [bind]; [exact IH|].
  rewrite Hle, IH. reflexivity.
Qed.

(** C9.  With no active policy in the store, or with no active policy
    whose resolved premium is within the budget, the pass returns the empty
    list. *)
Theorem empty_result_conditions (store : list dict) :
  find_active store = [] \/
  Forall (fun policy =>
            resolve policy = Ok None \/
            exists info, resolve policy = Ok (Some info) /\
                         Py.le_num (premium_amount info) user_budget = Ok false)
         (find_active store) ->
  run store = Ok [].
Proof.
  intros [H|H].
  - unfold get_recommendations. now rewrite H.
  - rewrite get_recommendations_unfold, (filter_policies_none H). cbn [bind].
    apply rank_policies_nil.
Qed.

(** C2.  On a premium table whose present fields are well typed the
    resolver returns none exactly when no bracket entry is applicable to
    the user's age, city and category, and otherwise an applicable entry
    whose amount no applicable entry undercuts; a policy for which it
    returns none has no part in the ranking. *)
Theorem resolver_picks_cheapest_applicable (l1 l2 : list dict) (policy : dict) :
  premiums_ok (Py.get policy "premiums" (VList [])) = true ->
  exists r,
    resolve policy = Ok r /\
    match r with
    | Some best =>
        applicable user_age user_city policy_category
          (Py.get policy "premiums" (VList [])) best /\
        forall m,
          applicable user_age user_city policy_category
            (Py.get policy "premiums" (VList [])) m ->
          is_num (premium_amount m) = true /\ amount best <= amount m
    | None =>
        (forall m, ~ applicable user_age user_city policy_category
                      (Py.get policy "premiums" (VList [])) m) /\
        run (l1 ++ policy :: l2) = run (l1 ++ l2)
    end.
Proof.
  intros Hok.
  destruct (find_applicable_premium_spec user_age user_city policy_category _ Hok)
    as (r & Hr & Hspec).
  exists r. split; [exact Hr|]. destruct r as [best|].
  - destruct Hspec as [Hbest Hmin]. split; [exact Hbest|].
    intros m Hm. split; [|now apply Hmin].
    now apply (applicable_amount_is_num Hok Hm).
  - split; [exact Hspec|].
    rewrite !get_recommendations_unfold, !find_active_app.
    unfold find_active at 2. cbn [filter].
    destruct (is_active policy); [|reflexivity].
    f_equal. apply filter_policies_skip. cbn [filter_policies].
    rewrite Hr. reflexivity.
Qed.

Lemma premium_num_of (r : Recommendation.t) (q : Q) :
  Py.num (Recommendation.premium r) = Some q -> premium_num r = q.
Proof. unfold premium_num. now intros ->. Qed.

Lemma recommendation_premium_is_num (store : list dict) (recs : list Recommendation.t) :
  run store = Ok recs ->
  forall r, In r recs -> Py.num (Recommendation.premium r) = Some (premium_num r).
Proof.
  intros H r Hr.
  destruct (get_recommendations_provenance _ H r Hr)
    as (policy & info & _ & _ & _ & Hle & Hscore).
  apply score_policy_premium in Hscore. cbn [snd] in Hscore.
  apply le_num_true in Hle as (q & Hq & _). rewrite <- Hscore in Hq.
  now rewrite (premium_num_of _ Hq).
Qed.

(** C1.  For a bound [top_n] that is not negative, the returned list is
    the first [top_n] entries of the sorted scored candidates, all of them
    when there are fewer; each entry stands before its successor in the
    ranking order: a higher combined score, or an equal score and a premium
    that is not higher. *)
Theorem recommendations_sorted_and_truncated
    (store : list dict) (recs : list Recommendation.t) :
  (0 <= top_n)%Z ->
  run store = Ok recs ->
  (forall i a b,
     nth_error recs i = Some a -> nth_error recs (S i) = Some b ->
     Recommendation.combined_score b < Recommendation.combined_score a \/
     (Recommendation.combined_score a == Recommendation.combined_score b /\
      premium_num a <= premium_num b)) /\
  (forall r, In r recs -> Py.num (Recommendation.premium r) = Some (premium_num r)) /\
  (Z.of_nat (List.length recs) <= top_n)%Z /\
  exists filtered scored,
    filter_them (find_active store) = Ok filtered /\
    score_all filtered = Ok scored /\
    Permutation (sort_recommendations scored) scored /\
    Sorted ranked_before (sort_recommendations scored) /\
    recs = firstn (Z.to_nat top_n) (sort_recommendations scored) /\
    List.length recs = Nat.min (Z.to_nat top_n) (List.length scored).
Proof.
  intros Hn H. pose proof (recommendation_premium_is_num _ H) as Hnum.
  destruct (get_recommendations_inv _ H) as (filtered & scored & Hf & Hs & Hrecs).
  rewrite (slice_to_firstn _ Hn) in Hrecs.
  assert (Hlen : List.length recs = Nat.min (Z.to_nat top_n) (List.length scored)).
  { rewrite Hrecs, length_firstn.
    now rewrite (Permutation_length (sort_recommendations_perm scored)). }
  split; [|split; [exact Hnum|split]].
  - intros i a b Ha Hb.
    assert (Hss : StronglySorted ranked_before recs).
    { rewrite Hrecs. apply StronglySorted_firstn.
      apply sort_recommendations_strongly_sorted. }
    apply (StronglySorted_nth Hss (i := i) (j := S i)); [lia|assumption|assumption].
  - lia.
  - exists filtered, scored.
    repeat split; try assumption.
    + apply sort_recommendations_perm.
    + apply sort_recommendations_sorted.
Qed.

Lemma score_policy_fields (policy : dict) (info : premium_info) (r : Recommendation.t) :
  score (policy, info) = Ok r ->
  Recommendation.keyword_score r
    = keyword_share py_repr user_coverage_requirement policy /\
  Recommendation.nlp_score r
    = round4 (semantic_score py_repr encode cosine_similarity
                user_coverage_requirement policy) /\
  Recommendation.combined_score r
    = round4 (keyword_share py_repr user_coverage_requirement policy * (7 # 1000)
              + semantic_score py_repr encode cosine_similarity
                  user_coverage_requirement policy * (3 # 10)).
Proof.
  unfold score_policy.
  destruct (generate_coverage_summary _ _ _ _); cbn [bind]; intros H;
    [|discriminate H].
  injection H as <-.
  cbn [Recommendation.keyword_score Recommendation.nlp_score
       Recommendation.combined_score].
  destruct (keyword_matching_counts user_coverage_requirement
              (extract_coverage_details py_repr policy)) as (_ & _ & _ & Hp & _).
  cbv zeta in Hp. unfold keyword_share, semantic_score, blob, combine.
  rewrite Hp. repeat split.
Qed.




(** ** Records with missing fields, stray entries and bad brackets *)












(** The filter keeps every policy whose premium is within the budget. *)
Lemma filter_policies_complete (active : list dict) :
  forall filtered,
    filter_them active = Ok filtered ->
    forall policy info,
      In policy active ->
      resolve policy = Ok (Some info) ->
      Py.le_num (premium_amount info) user_budget = Ok true ->
      In (policy, info) filtered.
Proof.
  induction active as [|p active IH]; intros filtered H policy info Hin Hres Hle;
    [contradiction|].
  cbn [filter_policies] in H.
  destruct (resolve p) as [[info'|]|e] eqn:Hp; cbn [bind] in H; [| |discriminate H].
  - destruct (Py.le_num (premium_amount info') user_budget) as [within|e] eqn:Hw;
      cbn [bind] in H; [|discriminate H].
    destruct (filter_them active) as [f|e]; cbn [bind] in H; [|discriminate H].
    injection H as <-. destruct Hin as [<-|Hin].
    + rewrite Hp in Hres. injection Hres as <-. rewrite Hw in Hle.
      injection Hle as ->. now left.
    + specialize (IH f eq_refl policy info Hin Hres Hle).
      destruct within; [now right|exact IH].
  - destruct Hin as [<-|Hin]; [rewrite Hp in Hres; discriminate Hres|].
    now apply (IH filtered H policy info).
Qed.









End Ranking.

(* ------------------------------------------------------------------ *)
(** * The pass on the sample store *)

Local Open Scope string_scope.
Local Open Scope list_scope.

Example sample_pass :
  option_map (map (fun r => (Recommendation.policy_name r, Recommendation.premium r)))
    (match Sample.run [Sample.care; Sample.legacy; Sample.premium_plan; Sample.shield] with
     | Ok recs => Some recs
     | Raise _ => None
     end)
  = Some [(VStr "Shield", VNum 4000); (VStr "Care", VNum 8000)].
Proof. vm_compute. reflexivity. Qed.

Example sample_broken_record :
  option_map (map (fun r => (Recommendation.policy_name r, Recommendation.premium r,
                             Recommendation.keyword_score r)))
    (match Sample.run [Sample.broken; Sample.care] with
     | Ok recs => Some recs
     | Raise _ => None
     end)
  = Some [(VStr "Care", VNum 8000, 100); (VStr "Unknown", VNum 0, 0)].
Proof. vm_compute. reflexivity. Qed.

Lemma recommendations_within_budget_witness :
  exists recs,
    Sample.run [Sample.care; Sample.premium_plan; Sample.shield] = Ok recs /\
    Forall (fun r =>
              exists policy info q,
                In policy [Sample.care; Sample.premium_plan; Sample.shield] /\
                find_applicable_premium 28 "mumbai" "Individual"
                  (Py.get policy "premiums" (VList [])) = Ok (Some info) /\
                Recommendation.premium r = premium_amount info /\
                Py.num (Recommendation.premium r) = Some q /\
                q <= 15000)
           recs.
Proof.
  eexists. split.
  - vm_compute. reflexivity.
  - apply (@recommendations_within_budget Sample.repr string Sample.encode
             Sample.cosine 28 15000 "mumbai" "Individual" "I need cancer coverage" 5
             [Sample.care; Sample.premium_plan; Sample.shield]).
    vm_compute. reflexivity.
Defined.

Lemma inactive_policy_never_recommended_witness :
  Sample.run ([Sample.care] ++ Sample.legacy :: [Sample.shield])
  = Sample.run ([Sample.care] ++ [Sample.shield]) /\
  forall recs r,
    Sample.run ([Sample.care] ++ Sample.legacy :: [Sample.shield]) = Ok recs ->
    In r recs ->
    exists policy info,
      In policy ([Sample.care] ++ [Sample.shield]) /\
      is_active policy = true /\
      score_policy Sample.repr Sample.encode Sample.cosine "I need cancer coverage"
        (Sample.encode "I need cancer coverage") (policy, info) = Ok r.
Proof.
  apply (@inactive_policy_never_recommended Sample.repr string Sample.encode
           Sample.cosine 28 15000 "mumbai" "Individual" "I need cancer coverage" 5
           [Sample.care] [Sample.shield] Sample.legacy).
  reflexivity.
Defined.

Lemma empty_result_conditions_witness :
  Sample.run [Sample.legacy; Sample.premium_plan] = Ok [].
Proof.
  apply (@empty_result_conditions Sample.repr string Sample.encode
           Sample.cosine 28 15000 "mumbai" "Individual" "I need cancer coverage" 5
           [Sample.legacy; Sample.premium_plan]).
  right. constructor; [|constructor].
  right. eexists. split; vm_compute; reflexivity.
Defined.

Lemma resolver_picks_cheapest_applicable_witness :
  exists r,
    find_applicable_premium 28 "mumbai" "Individual"
      (Py.get Sample.care "premiums" (VList [])) = Ok r /\
    match r with
    | Some best =>
        applicable 28 "mumbai" "Individual"
          (Py.get Sample.care "premiums" (VList [])) best /\
        forall m,
          applicable 28 "mumbai" "Individual"
            (Py.get Sample.care "premiums" (VList [])) m ->
          is_num (premium_amount m) = true /\ amount best <= amount m
    | None =>
        (forall m, ~ applicable 28 "mumbai" "Individual"
                      (Py.get Sample.care "premiums" (VList [])) m) /\
        Sample.run ([Sample.shield] ++ Sample.care :: []) = Sample.run ([Sample.shield] ++ [])
    end.
Proof.
  apply (@resolver_picks_cheapest_applicable Sample.repr string Sample.encode
           Sample.cosine 28 15000 "mumbai" "Individual" "I need cancer coverage" 5
           [Sample.shield] [] Sample.care).
  reflexivity.
Defined.

Lemma recommendations_sorted_and_truncated_witness :
  exists recs,
    Sample.run [Sample.care; Sample.premium_plan; Sample.shield] = Ok recs /\
    (forall i a b,
       nth_error recs i = Some a -> nth_error recs (S i) = Some b ->
       Recommendation.combined_score b < Recommendation.combined_score a \/
       (Recommendation.combined_score a == Recommendation.combined_score b /\
        premium_num a <= premium_num b)) /\
    (forall r, In r recs -> Py.num (Recommendation.premium r) = Some (premium_num r)) /\
    (Z.of_nat (List.length recs) <= 5)%Z /\
    exists filtered scored,
      filter_policies 28 15000 "mumbai" "Individual"
        (find_active [Sample.care; Sample.premium_plan; Sample.shield]) = Ok filtered /\
      score_policies Sample.repr Sample.encode Sample.cosine "I need cancer coverage"
        (Sample.encode "I need cancer coverage") filtered = Ok scored /\
      Permutation (sort_recommendations scored) scored /\
      Sorted ranked_before (sort_recommendations scored) /\
      recs = firstn (Z.to_nat 5) (sort_recommendations scored) /\
      List.length recs = Nat.min (Z.to_nat 5) (List.length scored).
Proof.
  eexists. split.
  - vm_compute. reflexivity.
  - apply (@recommendations_sorted_and_truncated Sample.repr string Sample.encode
             Sample.cosine 28 15000 "mumbai" "Individual" "I need cancer coverage" 5
             [Sample.care; Sample.premium_plan; Sample.shield]).
    + discriminate.
    + vm_compute. reflexivity.
Defined.





(** Outside that class a record can abort the pass: a city that is not a
    string, a list field that holds no list, a sum insured that is a text. *)
Example city_that_is_no_string_raises :
  Sample.run
    [[("isActive", VBool true);
      ("premiums", VList [VDict [("cities", VList [VNum 400001])]])]]
  = Raise AttributeError.
Proof. reflexivity. Qed.

Example null_cities_raise :
  Sample.run
    [[("isActive", VBool true);
      ("premiums", VList [VDict [("cities", VNone)]])]]
  = Raise TypeError.
Proof. reflexivity. Qed.

Example text_sum_insured_raises :
  Sample.run
    [[("isActive", VBool true);
      ("premiums",
       VList
         [VDict
            [("cities", VList [VStr "Mumbai"]);
             ("premiumChart",
              VList
                [VDict
                   [("sumInsured", VStr "5 Lakh");
                    ("premiumOptions",
                     VList
                       [VDict
                          [("type", VStr "Individual");
                           ("ageBrackets", VList [Sample.bracket "18-35" 5000])]])]])]])]]
  = Raise ValueError.
Proof. vm_compute. reflexivity. Qed.

(* ------------------------------------------------------------------ *)
(** * Substrings, case and white space *)

Unset Implicit Arguments.

Section StringFacts.
Local Open Scope string_scope.

Lemma prefix_iff (n h : string) :
  prefix n h = true <-> exists post, h = n ++ post.
Proof.
  revert h. induction n as [|a n IH]; intros h; simpl.
  - destruct h; split; intros _; try reflexivity; now eexists.
  - destruct h as [|b h]; simpl.
    + split; [discriminate|]. intros [post H]. discriminate H.
    + destruct (ascii_dec a b) as [->|Hne].
      * rewrite IH. split; intros [post H]; exists post; [now subst|].
        now injection H.
      * split; [discriminate|]. intros [post H]. simpl in H. congruence.
Qed.

Lemma append_assoc (a b c : string) : (a ++ b) ++ c = a ++ b ++ c.
Proof. induction a as [|x a IH]; simpl; [reflexivity|now rewrite IH]. Qed.

Lemma append_empty_r (a : string) : a ++ "" = a.
Proof. induction a as [|x a IH]; simpl; [reflexivity|now rewrite IH]. Qed.

Lemma contains_nil (n : string) : Str.contains n "" = prefix n "".
Proof. cbn [Str.contains]. apply orb_false_r. Qed.

Lemma contains_cons (n : string) (c : ascii) (h : string) :
  Str.contains n (String c h) = prefix n (String c h) || Str.contains n h.
Proof. reflexivity. Qed.

(** [needle in hay] holds exactly when [hay] is [pre ++ needle ++ post]. *)
Lemma contains_iff (n h : string) :
  Str.contains n h = true <-> exists pre post, h = pre ++ n ++ post.
Proof.
  induction h as [|c h IH].
  - rewrite contains_nil, prefix_iff. split.
    + intros [post H]. exists "", post. exact H.
    + intros (pre & post & H). destruct pre; simpl in H; [now exists post|discriminate H].
  - rewrite contains_cons, orb_true_iff, IH, prefix_iff. split.
    + intros [[post H]|(pre & post & ->)].
      * now exists "", post.
      * now exists (String c pre), post.
    + intros (pre & post & H). destruct pre as [|x pre]; simpl in H.
      * left. now exists post.
      * right. injection H as _ ->. now exists pre, post.
Qed.

Lemma contains_empty (h : string) : Str.contains "" h = true.
Proof. apply contains_iff. exists "", h. reflexivity. Qed.

Lemma contains_trans (a b c : string) :
  Str.contains a b = true -> Str.contains b c = true -> Str.contains a c = true.
Proof.
  rewrite !contains_iff. intros (p1 & q1 & ->) (p2 & q2 & ->).
  exists (p2 ++ p1), (q1 ++ q2). now rewrite !append_assoc.
Qed.

Lemma contains_inside (n t pre post : string) :
  Str.contains n t = true -> Str.contains n (pre ++ t ++ post) = true.
Proof.
  intros H. apply contains_trans with t; [exact H|].
  apply contains_iff. now exists pre, post.
Qed.

Lemma lower_app (a b : string) : Str.lower (a ++ b) = Str.lower a ++ Str.lower b.
Proof. induction a as [|x a IH]; simpl; [reflexivity|now rewrite IH]. Qed.

Lemma lower_char_idem (c : ascii) : Str.lower_char (Str.lower_char c) = Str.lower_char c.
Proof. destruct c as [[|] [|] [|] [|] [|] [|] [|] [|]]; reflexivity. Qed.

Lemma lower_idem (s : string) : Str.lower (Str.lower s) = Str.lower s.
Proof.
  induction s as [|c s IH]; simpl; [reflexivity|]. now rewrite lower_char_idem, IH.
Qed.

End StringFacts.

(* ------------------------------------------------------------------ *)
(** * Age brackets: white space, signs and extra parts *)

Section AgeBracketEdges.
Local Open Scope string_scope.
Local Open Scope Z_scope.

Lemma space_char_facts (c : ascii) :
  Str.is_space c = true ->
  Ascii.eqb c "+" = false /\ Ascii.eqb c "-" = false.
Proof.
  destruct c as [[|] [|] [|] [|] [|] [|] [|] [|]];
    cbv; intros H; try discriminate H; split; reflexivity.
Qed.

Lemma blank_no_char (c : ascii) (w : string) :
  (c = "+"%char \/ c = "-"%char) -> blank w = true -> has_char c w = false.
Proof.
  intros Hc. induction w as [|x w IH]; simpl; [reflexivity|].
  intros H. apply andb_prop in H as [Hx Hw].
  destruct (space_char_facts x Hx) as [Hp Hm].
  destruct Hc as [->| ->]; [rewrite Hp|rewrite Hm]; now apply IH.
Qed.

Lemma blank_app (v w : string) :
  blank v = true -> blank w = true -> blank (v ++ w) = true.
Proof.
  induction v as [|x v IH]; simpl; [auto|].
  intros H Hw. apply andb_prop in H as [Hx Hv]. rewrite Hx. now apply IH.
Qed.

Lemma lstrip_blank_app (w s : string) :
  blank w = true -> Str.lstrip (w ++ s) = Str.lstrip s.
Proof.
  induction w as [|x w IH]; simpl; [reflexivity|].
  intros H. apply andb_prop in H as [Hx Hw]. rewrite Hx. now apply IH.
Qed.

Lemma rstrip_blank (w : string) : blank w = true -> Str.rstrip w = "".
Proof.
  induction w as [|x w IH]; simpl; [reflexivity|].
  intros H. apply andb_prop in H as [Hx Hw]. now rewrite (IH Hw), Hx.
Qed.

Lemma rstrip_app_blank (s w : string) :
  blank w = true -> Str.rstrip (s ++ w) = Str.rstrip s.
Proof.
  intros Hw. induction s as [|c s IH]; simpl.
  - now apply rstrip_blank.
  - now rewrite IH.
Qed.

(** White space around a numeral is stripped. *)
Lemma strip_padded (w1 a w2 : string) :
  numeral a -> blank w1 = true -> blank w2 = true ->
  Str.strip (w1 ++ a ++ w2) = a.
Proof.
  intros [Hne Hd] H1 H2. unfold Str.strip.
  rewrite (lstrip_blank_app w1 (a ++ w2) H1).
  assert (Hl : Str.lstrip (a ++ w2) = a ++ w2).
  { destruct a as [|c a]; [contradiction|]. simpl in Hd.
    apply andb_prop in Hd as [Hc _].
    destruct (@digit_char_facts c Hc) as (_ & Hsp & _). simpl. now rewrite Hsp. }
  rewrite Hl, (rstrip_app_blank a w2 H2). now apply rstrip_digits.
Qed.

Lemma has_char_numeral_padded (c : ascii) (w1 a w2 : string) :
  (c = "+"%char \/ c = "-"%char) ->
  numeral a -> blank w1 = true -> blank w2 = true ->
  has_char c (w1 ++ a ++ w2) = false.
Proof.
  intros Hc [_ Hd] H1 H2. rewrite !has_char_app.
  rewrite (blank_no_char c w1 Hc H1), (blank_no_char c w2 Hc H2).
  destruct Hc as [->| ->];
    [rewrite (@digits_no_plus a Hd)|rewrite (@digits_no_minus a Hd)]; reflexivity.
Qed.

Lemma replace_char_absent (c : ascii) (new s : string) :
  has_char c s = false -> Str.replace_char c new s = s.
Proof.
  induction s as [|x s IH]; simpl; [reflexivity|].
  intros H. apply orb_false_elim in H as [Hx Hs]. now rewrite Hx, (IH Hs).
Qed.

Lemma replace_char_app (c : ascii) (new s t : string) :
  Str.replace_char c new (s ++ t)
  = Str.replace_char c new s ++ Str.replace_char c new t.
Proof.
  induction s as [|x s IH]; simpl; [reflexivity|].
  rewrite IH. destruct (Ascii.eqb x c); [now rewrite append_assoc|reflexivity].
Qed.

Lemma split_char_at (c : ascii) (s t : string) :
  has_char c s = false ->
  Str.split_char c (s ++ String c t) = s :: Str.split_char c t.
Proof.
  intros Hs. induction s as [|x s IH]; simpl.
  - now rewrite Ascii.eqb_refl.
  - simpl in Hs. apply orb_false_elim in Hs as [Hx Hs].
    now rewrite Hx, (IH Hs).
Qed.

Lemma py_int_padded (w1 a w2 : string) :
  numeral a -> blank w1 = true -> blank w2 = true ->
  Str.py_int (Str.strip (w1 ++ a ++ w2)) = Ok (decimal a).
Proof.
  intros Ha H1 H2. rewrite (strip_padded w1 a w2 Ha H1 H2). now apply py_int_numeral.
Qed.

Lemma parse_padded_plus (a w1 w2 w3 : string) :
  numeral a -> blank w1 = true -> blank w2 = true -> blank w3 = true ->
  parse_age_bracket (VStr (w1 ++ a ++ w2 ++ "+" ++ w3)) = Ok (decimal a, 999).
Proof.
  intros Ha H1 H2 H3. unfold parse_age_bracket.
  assert (Hplus : has_char "+" (w1 ++ a ++ w2 ++ "+" ++ w3) = true).
  { rewrite !has_char_app. simpl (has_char "+" "+"). now rewrite !orb_true_r. }
  rewrite contains_char, Hplus.
  assert (Hrep : Str.replace_char "+" "" (w1 ++ a ++ w2 ++ "+" ++ w3)
                 = w1 ++ a ++ (w2 ++ w3)).
  { pose proof Ha as [_ Hd].
    rewrite !replace_char_app.
    rewrite (replace_char_absent "+" "" w1 (blank_no_char "+" w1 (or_introl eq_refl) H1)).
    rewrite (replace_char_absent "+" "" a (@digits_no_plus a Hd)).
    rewrite (replace_char_absent "+" "" w2 (blank_no_char "+" w2 (or_introl eq_refl) H2)).
    rewrite (replace_char_absent "+" "" w3 (blank_no_char "+" w3 (or_introl eq_refl) H3)).
    reflexivity. }
  rewrite Hrep, (py_int_padded w1 a (w2 ++ w3) Ha H1 (blank_app w2 w3 H2 H3)). reflexivity.
Qed.

Lemma parse_padded_range (a b w1 w2 w3 w4 : string) :
  numeral a -> numeral b ->
  blank w1 = true -> blank w2 = true -> blank w3 = true -> blank w4 = true ->
  parse_age_bracket (VStr ((w1 ++ a ++ w2) ++ "-" ++ (w3 ++ b ++ w4)))
  = Ok (decimal a, decimal b).
Proof.
  intros Ha Hb H1 H2 H3 H4. unfold parse_age_bracket.
  rewrite !contains_char.
  rewrite (has_char_app "+" (w1 ++ a ++ w2)), (has_char_app "-" (w1 ++ a ++ w2)).
  change ("-" ++ (w3 ++ b ++ w4)) with (String "-" (w3 ++ b ++ w4)).
  cbn [has_char].
  rewrite (has_char_numeral_padded "+" w1 a w2 (or_introl eq_refl) Ha H1 H2).
  rewrite (has_char_numeral_padded "+" w3 b w4 (or_introl eq_refl) Hb H3 H4).
  rewrite (has_char_numeral_padded "-" w1 a w2 (or_intror eq_refl) Ha H1 H2).
  rewrite Ascii.eqb_refl. cbn [orb].
  assert (Hneq : Ascii.eqb "-" "+" = false) by reflexivity. rewrite Hneq. cbn [orb].
  rewrite (split_char_at "-" (w1 ++ a ++ w2) (w3 ++ b ++ w4)
             (has_char_numeral_padded "-" w1 a w2 (or_intror eq_refl) Ha H1 H2)).
  rewrite (@split_char_none "-" (w3 ++ b ++ w4)
             (has_char_numeral_padded "-" w3 b w4 (or_intror eq_refl) Hb H3 H4)).
  cbn [Py.index nth_error bind].
  rewrite (py_int_padded w1 a w2 Ha H1 H2). cbn [bind].
  rewrite (py_int_padded w3 b w4 Hb H3 H4). reflexivity.
Qed.

Lemma parse_padded_single (a w1 w2 : string) :
  numeral a -> blank w1 = true -> blank w2 = true ->
  parse_age_bracket (VStr (w1 ++ a ++ w2)) = Ok (decimal a, decimal a).
Proof.
  intros Ha H1 H2. unfold parse_age_bracket. rewrite !contains_char.
  rewrite (has_char_numeral_padded "+" w1 a w2 (or_introl eq_refl) Ha H1 H2).
  rewrite (has_char_numeral_padded "-" w1 a w2 (or_intror eq_refl) Ha H1 H2).
  rewrite (py_int_padded w1 a w2 Ha H1 H2). reflexivity.
Qed.

(** X1.  White space around the numbers of a bracket is ignored in all three
    forms: [" 65 +"], ["18 - 35"] and [" 30 "] parse like ["65+"],
    ["18-35"] and ["30"]. *)
Theorem age_bracket_ignores_white_space (a b w1 w2 w3 w4 : string) :
  numeral a -> numeral b ->
  blank w1 = true -> blank w2 = true -> blank w3 = true -> blank w4 = true ->
  parse_age_bracket (VStr (w1 ++ a ++ w2 ++ "+" ++ w3)) = Ok (decimal a, 999) /\
  parse_age_bracket (VStr ((w1 ++ a ++ w2) ++ "-" ++ (w3 ++ b ++ w4)))
  = Ok (decimal a, decimal b) /\
  parse_age_bracket (VStr (w1 ++ a ++ w2)) = Ok (decimal a, decimal a).
Proof.
  intros Ha Hb H1 H2 H3 H4. split; [|split].
  - exact (parse_padded_plus a w1 w2 w3 Ha H1 H2 H3).
  - exact (parse_padded_range a b w1 w2 w3 w4 Ha Hb H1 H2 H3 H4).
  - exact (parse_padded_single a w1 w2 Ha H1 H2).
Qed.

Lemma age_bracket_ignores_white_space_witness :
  parse_age_bracket (VStr " 65 + ") = Ok (65, 999) /\
  parse_age_bracket (VStr " 65 - 70  ") = Ok (65, 70) /\
  parse_age_bracket (VStr " 65 ") = Ok (65, 65).
Proof.
  apply (age_bracket_ignores_white_space "65" "70" " " " " " " "  ");
    try reflexivity; (split; [discriminate|reflexivity]).
Defined.

(** X2.  Only the first two parts of a bracket with several dashes are read:
    whatever follows the second dash is ignored, however malformed. *)
Theorem age_bracket_reads_two_parts (a b rest : string) :
  numeral a -> numeral b -> has_char "+" rest = false ->
  parse_age_bracket (VStr (a ++ "-" ++ b ++ "-" ++ rest)) = Ok (decimal a, decimal b).
Proof.
  intros Ha Hb Hrest. pose proof Ha as [_ Hda]. pose proof Hb as [_ Hdb].
  unfold parse_age_bracket. rewrite !contains_char.
  change ("-" ++ b ++ "-" ++ rest) with (String "-" (b ++ String "-" rest)).
  rewrite (has_char_app "+" a), (has_char_app "-" a). cbn [has_char].
  rewrite (has_char_app "+" b). cbn [has_char].
  rewrite (@digits_no_plus a Hda), (@digits_no_plus b Hdb), Hrest.
  rewrite Ascii.eqb_refl.
  assert (Hneq : Ascii.eqb "-" "+" = false) by reflexivity. rewrite Hneq.
  rewrite orb_true_r. cbn [orb].
  rewrite (split_char_at "-" a (b ++ String "-" rest) (@digits_no_minus a Hda)).
  rewrite (split_char_at "-" b rest (@digits_no_minus b Hdb)).
  cbn [Py.index nth_error bind].
  rewrite (@strip_digits a Hda), (@py_int_numeral a Ha). cbn [bind].
  rewrite (@strip_digits b Hdb), (@py_int_numeral b Hb). reflexivity.
Qed.

Lemma age_bracket_reads_two_parts_witness :
  parse_age_bracket (VStr "18-35-years (adult)") = Ok (18, 35).
Proof.
  apply (age_bracket_reads_two_parts "18" "35" "years (adult)");
    try reflexivity; (split; [discriminate|reflexivity]).
Defined.

Lemma int_digits_stops_at_dash (a rest : string) :
  all_digits a = true ->
  forall acc, Str.int_digits acc (a ++ String "-" rest) = None.
Proof.
  induction a as [|c a IH]; intros Hd acc.
  - reflexivity.
  - simpl in Hd. apply andb_prop in Hd as [Hc Hd].
    destruct (@digit_char_facts c Hc) as (Hdig & _).
    cbn [append Str.int_digits]. rewrite Hdig. now apply IH.
Qed.

(** X3.  A dash is always the range separator and a plus sign always the mark
    of an open bracket: a bracket that starts with a dash does not parse
    (so no lower bound can be written as a negative number), and neither
    does a range followed by a plus sign. *)
Theorem age_bracket_sign_rejections (a b s : string) :
  numeral a -> numeral b -> has_char "+" s = false ->
  parse_age_bracket (VStr ("-" ++ s)) = Raise ValueError /\
  parse_age_bracket (VStr (a ++ "-" ++ b ++ "+")) = Raise ValueError /\
  (forall age, bracket_applies age (VStr ("-" ++ s)) = false) /\
  (forall age, bracket_applies age (VStr (a ++ "-" ++ b ++ "+")) = false).
Proof.
  intros Ha Hb Hs.
  assert (H1 : parse_age_bracket (VStr ("-" ++ s)) = Raise ValueError).
  { unfold parse_age_bracket. rewrite !contains_char.
    change ("-" ++ s) with (String "-" s). cbn [has_char]. rewrite Hs.
    rewrite Ascii.eqb_refl.
    assert (Hneq : Ascii.eqb "-" "+" = false) by reflexivity. rewrite Hneq.
    cbn [orb Str.split_char]. rewrite Ascii.eqb_refl. reflexivity. }
  assert (H2 : parse_age_bracket (VStr (a ++ "-" ++ b ++ "+")) = Raise ValueError).
  { pose proof Ha as [Hne Hda]. pose proof Hb as [_ Hdb].
    unfold parse_age_bracket. rewrite contains_char.
    assert (Hplus : has_char "+" (a ++ "-" ++ b ++ "+") = true).
    { rewrite !has_char_app. simpl (has_char "+" "+"). now rewrite !orb_true_r. }
    rewrite Hplus.
    assert (Hrep : Str.replace_char "+" "" (a ++ "-" ++ b ++ "+") = a ++ String "-" b).
    { rewrite !replace_char_app.
      rewrite (replace_char_absent "+" "" a (@digits_no_plus a Hda)).
      rewrite (replace_char_absent "+" "" b (@digits_no_plus b Hdb)).
      simpl (Str.replace_char "+" "" "-"). simpl (Str.replace_char "+" "" "+").
      now rewrite append_empty_r. }
    rewrite Hrep.
    assert (Hstrip : Str.strip (a ++ String "-" b) = a ++ String "-" b).
    { change (String "-" b) with ("-" ++ b). unfold Str.strip.
      assert (Hl : Str.lstrip (a ++ "-" ++ b) = a ++ "-" ++ b).
      { destruct a as [|c a]; [contradiction|]. simpl in Hda.
        apply andb_prop in Hda as [Hc _].
        destruct (@digit_char_facts c Hc) as (_ & Hsp & _). simpl. now rewrite Hsp. }
      rewrite Hl. rewrite <- append_assoc.
      assert (Hr : forall x y, all_digits y = true -> y <> "" ->
                   Str.rstrip (x ++ y) = x ++ y).
      { intros x y Hy Hyne. induction x as [|c x IH]; simpl.
        - now apply rstrip_digits.
        - rewrite IH. destruct (x ++ y) eqn:E; [|reflexivity].
          destruct x; simpl in E; [contradiction|discriminate E]. }
      destruct Hb as [Hbne _]. now apply Hr. }
    rewrite Hstrip. unfold Str.py_int. rewrite Hstrip.
    destruct a as [|c a]; [contradiction|]. simpl in Hda.
    apply andb_prop in Hda as [Hc Hda].
    destruct (@digit_char_facts c Hc) as (Hdig & _ & Hp & Hm & _).
    cbn [append Str.int_signed]. rewrite Hp, Hm.
    cbn [Str.int_unsigned]. rewrite Hdig.
    now rewrite (int_digits_stops_at_dash a b Hda). }
  repeat split; try assumption; intros age; unfold bracket_applies;
    [rewrite H1|rewrite H2]; reflexivity.
Qed.

Lemma age_bracket_sign_rejections_witness :
  parse_age_bracket (VStr "-5") = Raise ValueError /\
  parse_age_bracket (VStr "18-35+") = Raise ValueError /\
  (forall age, bracket_applies age (VStr "-5") = false) /\
  (forall age, bracket_applies age (VStr "18-35+") = false).
Proof.
  apply (age_bracket_sign_rejections "18" "35" "5");
    try reflexivity; (split; [discriminate|reflexivity]).
Defined.

(** X4.  A range written upside down parses, and applies to no age at all. *)
Theorem age_bracket_inverted_range_is_empty (a b : string) (age : Z) :
  numeral a -> numeral b -> decimal b < decimal a ->
  parse_age_bracket (VStr (a ++ "-" ++ b)) = Ok (decimal a, decimal b) /\
  bracket_applies age (VStr (a ++ "-" ++ b)) = false.
Proof.
  intros Ha Hb Hlt. pose proof (@parse_range a b Ha Hb) as Hp.
  split; [exact Hp|]. unfold bracket_applies. rewrite Hp.
  cbn [bind try_except fst snd]. apply andb_false_iff.
  destruct (Z.leb_spec (decimal a) age); [right|now left].
  apply Z.leb_gt. lia.
Qed.

Lemma age_bracket_inverted_range_is_empty_witness :
  parse_age_bracket (VStr "35-18") = Ok (35, 18) /\
  bracket_applies 20 (VStr "35-18") = false.
Proof.
  apply (age_bracket_inverted_range_is_empty "35" "18" 20);
    try reflexivity; (split; [discriminate|reflexivity]).
Defined.

End AgeBracketEdges.

(* ------------------------------------------------------------------ *)
(** * The resolver: city queries and ties *)

Section ResolverEdges.
Local Open Scope string_scope.
Local Open Scope list_scope.

Variable user_age : Z.
Variable policy_category : string.

Lemma city_found_lower (c1 c2 : string) (cities : list value) :
  Str.lower c1 = Str.lower c2 -> city_found c1 cities = city_found c2 cities.
Proof.
  intros H. induction cities as [|city rest IH]; [reflexivity|].
  cbn [city_found]. unfold city_matches. rewrite H, IH. reflexivity.
Qed.

Lemma scan_zones_lower (c1 c2 : string) (zones : list value) :
  Str.lower c1 = Str.lower c2 ->
  forall best,
    scan_zones user_age c1 policy_category zones best
    = scan_zones user_age c2 policy_category zones best.
Proof.
  intros H. induction zones as [|z rest IH]; intros best; [reflexivity|].
  destruct z as [| | | | |zone_data]; cbn [scan_zones]; try apply IH.
  destruct (Py.iter (Py.get zone_data "cities" (VList []))) as [cities|e];
    cbn [bind]; [|reflexivity].
  rewrite (city_found_lower c1 c2 cities H).
  destruct (city_found c2 cities) as [found|e]; cbn [bind]; [|reflexivity].
  destruct found; cbn [negb]; [|apply IH].
  destruct (Py.iter (Py.get zone_data "premiumChart" (VList []))) as [chart|e];
    cbn [bind]; [|reflexivity].
  destruct (scan_chart user_age policy_category _ chart best) as [best'|e];
    cbn [bind]; [apply IH|reflexivity].
Qed.

(** X5.  The requested city is matched without regard to case: two spellings
    that differ only in case resolve to the same result on every table,
    well formed or not. *)
Theorem resolver_ignores_case_of_city (c1 c2 : string) (premiums : value) :
  Str.lower c1 = Str.lower c2 ->
  find_applicable_premium user_age c1 policy_category premiums
  = find_applicable_premium user_age c2 policy_category premiums.
Proof.
  intros H. unfold find_applicable_premium.
  destruct (negb (Py.truthy premiums) || negb (Py.is_list premiums)); [reflexivity|].
  destruct premiums; try reflexivity.
  now rewrite (scan_zones_lower c1 c2 l H []).
Qed.

Lemma city_match_shorter (u u' : string) (c : value) :
  Str.contains (Str.lower u) (Str.lower u') = true ->
  city_match u' c = true -> city_match u c = true.
Proof.
  intros Hsub. destruct c; simpl; try discriminate.
  intros H. apply orb_true_iff in H as [H|H]; apply orb_true_iff; right.
  - apply String.eqb_eq in H. now rewrite H.
  - now apply contains_trans with (Str.lower u').
Qed.

Lemma applicable_shorter (u u' : string) (premiums : value) (m : premium_info) :
  Str.contains (Str.lower u) (Str.lower u') = true ->
  applicable user_age u' policy_category premiums m ->
  applicable user_age u policy_category premiums m.
Proof.
  intros Hsub (zs & z & t & o & b & Hp & Hz & (c & Hc & Hm) & Hrest).
  exists zs, z, t, o, b. split; [exact Hp|]. split; [exact Hz|].
  split; [|exact Hrest].
  exists c. split; [exact Hc|]. now apply city_match_shorter with u'.
Qed.

(** X6.  A request for a part of a city name reaches every zone the full name
    reaches: on a well-typed table, if the resolver finds a premium for
    [u'] and [u] is a substring of [u'] (in lower case), it finds one for
    [u] too, and not a dearer one.  The empty city is a part of every
    name. *)
Theorem shorter_city_resolves_no_dearer (u u' : string) (premiums : value)
    (m' : premium_info) :
  premiums_ok premiums = true ->
  Str.contains (Str.lower u) (Str.lower u') = true ->
  find_applicable_premium user_age u' policy_category premiums = Ok (Some m') ->
  exists m,
    find_applicable_premium user_age u policy_category premiums = Ok (Some m) /\
    amount m <= amount m'.
Proof.
  intros Hok Hsub Hfind.
  destruct (@find_applicable_premium_spec user_age u' policy_category premiums Hok)
    as (r' & Hr' & Hspec').
  rewrite Hfind in Hr'. injection Hr' as <-. destruct Hspec' as [Happ' _].
  pose proof (applicable_shorter u u' premiums m' Hsub Happ') as Happ.
  destruct (@find_applicable_premium_spec user_age u policy_category premiums Hok)
    as (r & Hr & Hspec).
  destruct r as [m|].
  - exists m. split; [exact Hr|]. destruct Hspec as [_ Hmin]. now apply Hmin.
  - exfalso. exact (Hspec m' Happ).
Qed.

End ResolverEdges.

Lemma resolver_ignores_case_of_city_witness :
  find_applicable_premium 28 "MUMBAI" "Individual" (Sample.premiums [Sample.bracket "18-35" 8000])
  = find_applicable_premium 28 "mumbai" "Individual" (Sample.premiums [Sample.bracket "18-35" 8000]).
Proof.
  apply (resolver_ignores_case_of_city 28 "Individual" "MUMBAI" "mumbai").
  reflexivity.
Defined.

Lemma shorter_city_resolves_no_dearer_witness :
  exists m,
    find_applicable_premium 28 "" "Individual"
      (Sample.premiums [Sample.bracket "18-35" 8000]) = Ok (Some m) /\
    amount m <= 8000.
Proof.
  apply (shorter_city_resolves_no_dearer 28 "Individual" "" "Pune"
           (Sample.premiums [Sample.bracket "18-35" 8000])
           (mk_premium_info (VNum 8000) (VNum 500000) (VStr "Zone 1")
              (VStr "1 Adult") (VStr "18-35")));
    reflexivity.
Defined.

Section ResolverTies.
Local Open Scope list_scope.

Lemma min_by_premium_first (rest : list premium_info) :
  forall pre mid current,
    is_num (premium_amount current) = true ->
    Forall (fun m => is_num (premium_amount m) = true) rest ->
    Forall (fun m => amount current < amount m) pre ->
    Forall (fun m => amount current <= amount m) mid ->
    exists best before after,
      min_by_premium current rest = Ok best /\
      pre ++ current :: mid ++ rest = before ++ best :: after /\
      Forall (fun m => amount best < amount m) before /\
      Forall (fun m => amount best <= amount m) after.
Proof.
  induction rest as [|item rest IH]; intros pre mid current Hc Hrest Hpre Hmid.
  - exists current, pre, mid. rewrite app_nil_r. auto.
  - inversion Hrest as [|? ? Hi Hrest']; subst.
    cbn [min_by_premium]. rewrite (@lt_on_numbers item current Hi Hc). cbn [bind].
    destruct (Qltb (amount item) (amount current)) eqn:Hlt.
    + apply Qltb_true in Hlt.
      destruct (IH (pre ++ current :: mid) [] item Hi Hrest')
        as (best & before & after & Hmin & Heq & Hb & Ha).
      * apply Forall_app. split; [|constructor].
        -- revert Hpre. apply Forall_impl. intros m Hm. lra.
        -- exact Hlt.
        -- revert Hmid. apply Forall_impl. intros m Hm. lra.
      * constructor.
      * exists best, before, after. split; [exact Hmin|]. split; [|auto].
        rewrite <- Heq. cbn [app]. now rewrite <- app_assoc.
    + apply Qltb_false in Hlt.
      destruct (IH pre (mid ++ [item]) current Hc Hrest' Hpre)
        as (best & before & after & Hmin & Heq & Hb & Ha).
      * apply Forall_app. split; [exact Hmid|]. constructor; [exact Hlt|constructor].
      * exists best, before, after. split; [exact Hmin|]. split; [|auto].
        rewrite <- Heq. now rewrite <- app_assoc.
Qed.

(** X7.  Ties go to the entry that comes first in the table: on a well-typed
    table the resolver returns the first applicable entry of lowest amount,
    every applicable entry before it being strictly dearer. *)
Theorem resolver_returns_first_cheapest (user_age : Z) (user_city policy_category : string)
    (zones : list value) (best : premium_info) :
  premiums_ok (VList zones) = true ->
  find_applicable_premium user_age user_city policy_category (VList zones)
  = Ok (Some best) ->
  exists before after,
    candidates user_age user_city policy_category zones = before ++ best :: after /\
    Forall (fun m => amount best < amount m) before /\
    Forall (fun m => amount best <= amount m) after.
Proof.
  intros Hok Hfind. unfold find_applicable_premium in Hfind.
  destruct zones as [|z zs]; [discriminate Hfind|].
  cbn [Py.truthy Py.is_list negb orb] in Hfind.
  simpl in Hok.
  rewrite (@scan_zones_spec user_age user_city policy_category (z :: zs) Hok) in Hfind.
  cbn [bind app] in Hfind.
  destruct (candidates user_age user_city policy_category (z :: zs))
    as [|first rest] eqn:Hc; [discriminate Hfind|].
  assert (Hnum : forall m, In m (first :: rest) -> is_num (premium_amount m) = true).
  { intros m Hm. rewrite <- Hc in Hm. apply in_candidates in Hm.
    exact (@applicable_amount_is_num user_age user_city policy_category
             (VList (z :: zs)) m Hok Hm). }
  destruct (min_by_premium_first rest [] [] first)
    as (b & before & after & Hmin & Heq & Hb & Ha).
  - apply Hnum. now left.
  - apply Forall_forall. intros m Hm. apply Hnum. now right.
  - constructor.
  - constructor.
  - rewrite Hmin in Hfind. cbn [bind] in Hfind. injection Hfind as ->.
    exists before, after. cbn [app] in Heq. auto.
Qed.

End ResolverTies.

Lemma resolver_returns_first_cheapest_witness :
  exists before after,
    candidates 40 "pune" "Individual"
      [VDict [("cities", VList [VStr "Pune"]); ("zoneName", VStr "A");
              ("premiumChart", VList [VDict [("premiumOptions", VList [VDict
                 [("type", VStr "Individual");
                  ("ageBrackets", VList [Sample.bracket "36+" 9000;
                                         Sample.bracket "40" 7000;
                                         Sample.bracket "36-60" 7000])]])]])]]
    = before ++ mk_premium_info (VNum 7000) (VNum 0) (VStr "A") (VStr "") (VStr "40")
                :: after /\
    Forall (fun m => amount (mk_premium_info (VNum 7000) (VNum 0) (VStr "A") (VStr "")
                               (VStr "40")) < amount m) before /\
    Forall (fun m => amount (mk_premium_info (VNum 7000) (VNum 0) (VStr "A") (VStr "")
                               (VStr "40")) <= amount m) after.
Proof.
  apply resolver_returns_first_cheapest; reflexivity.
Defined.

(* ------------------------------------------------------------------ *)
(** * Keyword matching: counts, overlap and growth *)

Section KeywordEdges.
Local Open Scope string_scope.
Local Open Scope list_scope.

Lemma kept_names_distinct (keep : string * list string -> bool)
    (table : list (string * list string)) :
  NoDup (map fst table) -> NoDup (map fst (filter keep table)).
Proof.
  induction table as [|entry table IH]; simpl; intros H; [constructor|].
  inversion H as [|? ? Hx Hl]; subst.
  destruct (keep entry); simpl; [|now apply IH].
  constructor; [|now apply IH].
  intros Hin. apply Hx. apply in_map_iff in Hin as (y & Hy & Hin).
  apply filter_In in Hin as [Hin _]. apply in_map_iff. now exists y.
Qed.

Lemma keyword_map_names_distinct : NoDup (map fst keyword_map).
Proof.
  repeat constructor; simpl; intuition discriminate.
Qed.

(** X8.  The counters of [keyword_matching]: the score is the number of matched
    features, it never exceeds the number of requested categories, and that
    never exceeds the thirteen categories of the table; the matched features
    are category names of the table, each listed once. *)
Theorem keyword_counts_are_consistent (user_requirement : string) (cd : coverage_data) :
  let km := keyword_matching user_requirement cd in
  KeywordMatch.keyword_score km = Z.of_nat (List.length (KeywordMatch.matched_features km)) /\
  (0 <= KeywordMatch.keyword_score km <= KeywordMatch.total_keywords km)%Z /\
  (KeywordMatch.total_keywords km <= 13)%Z /\
  NoDup (KeywordMatch.matched_features km) /\
  incl (KeywordMatch.matched_features km) (map fst keyword_map).
Proof.
  cbv zeta.
  destruct (keyword_matching_counts user_requirement cd) as (Ht & Hs & Hm & _).
  cbv zeta in Ht, Hs, Hm. rewrite Ht, Hs, Hm.
  pose proof (matched_le_requested user_requirement (text cd)) as Hle.
  split; [|split; [exact Hle|split; [|split]]].
  - unfold matched_count. now rewrite length_map.
  - unfold requested_count, requested_categories.
    pose proof (filter_length_le (triggered user_requirement) keyword_map) as H.
    change (List.length keyword_map) with 13%nat in H. lia.
  - unfold matched_categories. apply kept_names_distinct, keyword_map_names_distinct.
  - unfold matched_categories. intros x Hx. apply in_map_iff in Hx as (e & <- & He).
    apply filter_In in He as [He _]. now apply in_map.
Qed.

Lemma any_in_grows (keywords : list string) (t pre post : string) :
  Str.any_in keywords t = true -> Str.any_in keywords (pre ++ t ++ post)%string = true.
Proof.
  unfold Str.any_in. rewrite !existsb_exists. intros (kw & Hin & Hkw).
  exists kw. split; [exact Hin|]. now apply contains_inside.
Qed.

Lemma filter_length_mono {A : Type} (p q : A -> bool) (l : list A) :
  (forall x, p x = true -> q x = true) ->
  (List.length (filter p l) <= List.length (filter q l))%nat.
Proof.
  intros H. induction l as [|x l IH]; simpl; [lia|].
  destruct (p x) eqn:Hp.
  - rewrite (H x Hp). simpl. lia.
  - destruct (q x); simpl; lia.
Qed.

Lemma percentage_mono (s s' t : Z) :
  (0 <= s <= s')%Z -> percentage s t <= percentage s' t.
Proof.
  intros H. unfold percentage. destruct (Z.gtb_spec t 0) as [Hpos|_]; [|apply Qle_refl].
  destruct t as [|t|t]; try lia.
  unfold Qle, Qdiv, Qmult, Qinv, inject_Z; simpl. nia.
Qed.

(** X9.  Text added to a policy never lowers its keyword score: when the text
    blob grows by text before and after, every matched category stays
    matched and the match percentage does not decrease. *)
Theorem keyword_score_grows_with_text (user_requirement : string)
    (cd cd' : coverage_data) (pre post : string) :
  text cd' = (pre ++ text cd ++ post)%string ->
  incl (KeywordMatch.matched_features (keyword_matching user_requirement cd))
       (KeywordMatch.matched_features (keyword_matching user_requirement cd')) /\
  KeywordMatch.match_percentage (keyword_matching user_requirement cd)
  <= KeywordMatch.match_percentage (keyword_matching user_requirement cd').
Proof.
  intros Htext.
  assert (Himp : forall e,
             triggered_by_both user_requirement (text cd) e = true ->
             triggered_by_both user_requirement (text cd') e = true).
  { intros e He. unfold triggered_by_both in *.
    apply andb_prop in He as [Hu Hp]. rewrite Hu. cbn [andb].
    unfold triggered in *. rewrite Htext, !lower_app. now apply any_in_grows. }
  unfold keyword_matching. rewrite !keyword_loop.
  cbn [KeywordMatch.matched_features KeywordMatch.match_percentage app Z.add].
  split.
  - intros x Hx. apply in_map_iff in Hx as (e & <- & He).
    apply filter_In in He as [He Hb]. apply in_map, filter_In. auto.
  - apply percentage_mono. split; [lia|].
    apply inj_le. now apply filter_length_mono.
Qed.

Lemma two_members {A : Type} (x y : A) (l : list A) :
  In x l -> In y l -> x <> y -> (2 <= List.length l)%nat.
Proof.
  intros Hx Hy Hne. destruct l as [|a [|b l]]; simpl in *; [contradiction| |lia].
  destruct Hx as [<-|[]], Hy as [<-|[]]. contradiction.
Qed.

Lemma hospital_inside (t : string) :
  Str.any_in ["pre hospitalization"; "pre-hospitalization";
              "post hospitalization"; "post-hospitalization"] t = true ->
  Str.any_in ["hospitalization"; "inpatient"; "hospital"] t = true /\
  (Str.any_in ["pre hospitalization"; "pre-hospitalization"] t = true \/
   Str.any_in ["post hospitalization"; "post-hospitalization"] t = true).
Proof.
  unfold Str.any_in. intros H. apply existsb_exists in H as (kw & Hin & Hkw).
  split.
  - apply existsb_exists. exists "hospitalization". split; [now left|].
    apply contains_trans with kw; [|exact Hkw].
    destruct Hin as [<-|[<-|[<-|[<-|[]]]]]; reflexivity.
  - destruct Hin as [<-|[<-|[<-|[<-|[]]]]];
      [left|left|right|right]; apply existsb_exists; eexists; (split; [|exact Hkw]);
      simpl; tauto.
Qed.

(** X10.  The categories of the table overlap: every trigger of
    "pre hospitalization" and "post hospitalization" contains the trigger
    "hospitalization".  A request that mentions pre- or post-hospitalization
    is therefore counted as asking for at least two categories, and a policy
    text that mentions one of them as well is matched on "hospitalization". *)
Theorem hospitalization_is_counted_twice (user_requirement : string) (cd : coverage_data) :
  Str.any_in ["pre hospitalization"; "pre-hospitalization";
              "post hospitalization"; "post-hospitalization"]
             (Str.lower user_requirement) = true ->
  (2 <= KeywordMatch.total_keywords (keyword_matching user_requirement cd))%Z /\
  (Str.any_in ["pre hospitalization"; "pre-hospitalization";
               "post hospitalization"; "post-hospitalization"]
              (Str.lower (text cd)) = true ->
   In "hospitalization"
      (KeywordMatch.matched_features (keyword_matching user_requirement cd))).
Proof.
  intros H. apply hospital_inside in H as [Hh Hpp].
  destruct (keyword_matching_counts user_requirement cd) as (Ht & _ & Hm & _).
  cbv zeta in Ht, Hm. rewrite Ht, Hm. split.
  - unfold requested_count, requested_categories.
    change 2%Z with (Z.of_nat 2). apply inj_le.
    destruct Hpp as [Hp|Hp].
    + apply two_members with
        ("hospitalization", ["hospitalization"; "inpatient"; "hospital"])
        ("pre hospitalization", ["pre hospitalization"; "pre-hospitalization"]);
        [apply filter_In; split; [simpl; tauto|exact Hh]
        |apply filter_In; split; [simpl; tauto|exact Hp]
        |discriminate].
    + apply two_members with
        ("hospitalization", ["hospitalization"; "inpatient"; "hospital"])
        ("post hospitalization", ["post hospitalization"; "post-hospitalization"]);
        [apply filter_In; split; [simpl; tauto|exact Hh]
        |apply filter_In; split; [simpl; tauto|exact Hp]
        |discriminate].
  - intros Hp. apply hospital_inside in Hp as [Hph _].
    unfold matched_categories.
    apply in_map_iff.
    exists ("hospitalization", ["hospitalization"; "inpatient"; "hospital"]).
    split; [reflexivity|]. apply filter_In. split; [simpl; tauto|].
    unfold triggered_by_both, triggered. cbn [snd]. now rewrite Hh, Hph.
Qed.

End KeywordEdges.

Lemma keyword_score_grows_with_text_witness :
  incl (KeywordMatch.matched_features
          (keyword_matching "cancer and maternity"
             (mk_coverage_data "cancer care" [] [] [] VNone VNone VNone)))
       (KeywordMatch.matched_features
          (keyword_matching "cancer and maternity"
             (mk_coverage_data "Full cancer care, maternity" [] [] [] VNone VNone VNone))) /\
  KeywordMatch.match_percentage
    (keyword_matching "cancer and maternity"
       (mk_coverage_data "cancer care" [] [] [] VNone VNone VNone))
  <= KeywordMatch.match_percentage
       (keyword_matching "cancer and maternity"
          (mk_coverage_data "Full cancer care, maternity" [] [] [] VNone VNone VNone)).
Proof.
  apply (keyword_score_grows_with_text "cancer and maternity"
           (mk_coverage_data "cancer care" [] [] [] VNone VNone VNone)
           (mk_coverage_data "Full cancer care, maternity" [] [] [] VNone VNone VNone)
           "Full " ", maternity").
  reflexivity.
Defined.

Lemma hospitalization_is_counted_twice_witness :
  (2 <= KeywordMatch.total_keywords
          (keyword_matching "Need pre-hospitalization cover"
             (mk_coverage_data "Post-Hospitalization expenses" [] [] [] VNone VNone VNone)))%Z /\
  (Str.any_in ["pre hospitalization"; "pre-hospitalization";
               "post hospitalization"; "post-hospitalization"]
              (Str.lower "Post-Hospitalization expenses") = true ->
   In "hospitalization"
      (KeywordMatch.matched_features
         (keyword_matching "Need pre-hospitalization cover"
            (mk_coverage_data "Post-Hospitalization expenses" [] [] [] VNone VNone VNone)))).
Proof.
  apply (hospitalization_is_counted_twice "Need pre-hospitalization cover"
           (mk_coverage_data "Post-Hospitalization expenses" [] [] [] VNone VNone VNone)).
  reflexivity.
Defined.

(* ------------------------------------------------------------------ *)
(** * The coverage summary *)

Section SummaryEdges.
Local Open Scope string_scope.
Local Open Scope list_scope.

Variable py_repr : value -> string.

(** No headline category of [coverage_checks] is requested by the text. *)
Local Abbreviation asks_nothing user_req_lower :=
  (forallb (fun check : string * list string =>
              negb (Str.any_in (snd check) user_req_lower)) coverage_checks).

Lemma check_coverages_idle (user_req coverage_text : string) (specials : list dict)
    (checks : list (string * list string)) :
  forallb (fun check => negb (Str.any_in (snd check) user_req)) checks = true ->
  forall responses not_covered,
    check_coverages py_repr user_req coverage_text specials checks responses not_covered
    = Ok (responses, not_covered).
Proof.
  induction checks as [|[coverage_name keywords] rest IH]; intros H responses not_covered;
    [reflexivity|].
  cbn [forallb snd] in H. apply andb_prop in H as [Hk Hrest].
  cbn [check_coverages]. apply negb_true_iff in Hk. rewrite Hk. now apply IH.
Qed.

Lemma get_head_app (s t : string) (c : ascii) :
  String.get 0 s = Some c -> String.get 0 (s ++ t) = Some c.
Proof. destruct s; simpl; [discriminate|trivial]. Qed.

Lemma check_coverages_marks (user_req coverage_text : string) (specials : list dict)
    (checks : list (string * list string)) :
  forall responses not_covered responses' not_covered',
    check_coverages py_repr user_req coverage_text specials checks responses not_covered
    = Ok (responses', not_covered') ->
    Forall (fun r => String.get 0 r = String.get 0 "✓") responses ->
    Forall (fun r => String.get 0 r = String.get 0 "✓") responses' /\
    (responses' = [] -> not_covered' = [] ->
     forallb (fun check => negb (Str.any_in (snd check) user_req)) checks = true).
Proof.
  induction checks as [|[coverage_name keywords] rest IH];
    intros responses not_covered responses' not_covered' H Hr.
  - cbn [check_coverages] in H. injection H as <- <-. split; [exact Hr|reflexivity].
  - cbn [check_coverages] in H. cbn [forallb snd].
    destruct (Str.any_in keywords user_req) eqn:Hu.
    + assert (Hcount : forall r n r0 n0,
                 check_coverages py_repr user_req coverage_text specials rest r n
                 = Ok (r0, n0) ->
                 (List.length r + List.length n <= List.length r0 + List.length n0)%nat).
      { clear. induction rest as [|[name kws] rest IH]; intros r n r0 n0 H.
        - cbn [check_coverages] in H. injection H as <- <-. lia.
        - cbn [check_coverages] in H.
          destruct (Str.any_in kws user_req); [|now apply IH].
          destruct (Str.any_in kws coverage_text).
          + destruct (find_details kws specials) as [d|e]; cbn [bind] in H; [|discriminate].
            apply IH in H. rewrite length_app in H. simpl in H. lia.
          + apply IH in H. rewrite length_app in H. simpl in H. lia. }
      destruct (Str.any_in keywords coverage_text).
      * destruct (find_details keywords specials) as [d|e]; cbn [bind] in H; [|discriminate].
        pose proof (Hcount _ _ _ _ H) as Hlen.
        apply IH in H as [H1 _].
        -- split; [exact H1|]. intros -> ->. rewrite length_app in Hlen. simpl in Hlen. lia.
        -- apply Forall_app. split; [exact Hr|]. constructor; [|constructor].
           destruct d; reflexivity.
      * pose proof (Hcount _ _ _ _ H) as Hlen.
        apply IH in H as [H1 _]; [|exact Hr].
        split; [exact H1|]. intros -> ->. rewrite length_app in Hlen. simpl in Hlen. lia.
    + cbn [negb andb]. now apply IH in H.
Qed.

Lemma covered_sentence_head (responses : list string) :
  responses <> [] ->
  Forall (fun r => String.get 0 r = String.get 0 "✓") responses ->
  forall rest, String.get 0 (covered_sentence responses ++ rest) = String.get 0 "✓".
Proof.
  intros Hne H rest. destruct responses as [|r1 tl]; [contradiction|].
  inversion H as [|? ? H1 _]; subst.
  destruct r1 as [|c r1]; [discriminate H1|].
  destruct tl as [|r2 [|r3 tl]]; exact H1.
Qed.

Lemma not_covered_sentence_head (not_covered : list string) :
  not_covered <> [] ->
  forall rest,
    String.get 0 (not_covered_sentence not_covered ++ rest) = String.get 0 "✓".
Proof.
  intros Hne rest. destruct not_covered as [|n1 [|n2 tl]]; [contradiction|reflexivity|reflexivity].
Qed.

(** X11.  The stock paragraph is returned exactly when the request mentions none
    of the seven headline categories: then the summary is that paragraph
    whatever the policy holds (its add-ons are not named and a malformed
    coverage entry cannot raise), and no other request gets it. *)
Theorem summary_is_stock_text_iff_nothing_asked (user_requirement : string)
    (cd : coverage_data) (keyword_match : KeywordMatch.t) :
  (asks_nothing (Str.lower user_requirement) = true ->
   generate_coverage_summary py_repr user_requirement cd keyword_match
   = Ok boilerplate_summary) /\
  (generate_coverage_summary py_repr user_requirement cd keyword_match
   = Ok boilerplate_summary ->
   asks_nothing (Str.lower user_requirement) = true).
Proof.
  unfold generate_coverage_summary. split.
  - intros H. now rewrite (check_coverages_idle _ _ _ _ H).
  - destruct (check_coverages py_repr (Str.lower user_requirement) (Str.lower (text cd))
                (special_coverages cd) coverage_checks [] []) as [[responses not_covered]|e]
      eqn:Hc; cbn [bind]; [|discriminate].
    apply check_coverages_marks in Hc as [Hmarks Hnone]; [|constructor].
    destruct responses as [|r1 rs].
    + destruct not_covered as [|n1 ns]; [intros _; now apply Hnone|].
      destruct (addons_sentence (addons cd)) as [tail|e]; cbn [bind]; [|discriminate].
      intros H.
      assert (Hx : String.get 0 "✓" = String.get 0 boilerplate_summary).
      { rewrite <- (not_covered_sentence_head (n1 :: ns) ltac:(discriminate) tail).
        injection H as H. exact (f_equal (String.get 0) H). }
      discriminate Hx.
    + destruct (addons_sentence (addons cd)) as [tail|e]; cbn [bind]; [|discriminate].
      intros H.
      assert (Hx : String.get 0 "✓" = String.get 0 boilerplate_summary).
      { rewrite <- (covered_sentence_head (r1 :: rs) ltac:(discriminate) Hmarks
                      (not_covered_sentence not_covered ++ tail)).
        injection H as H. exact (f_equal (String.get 0) H). }
      discriminate Hx.
Qed.

Lemma any_in_incl (keywords keywords' : list string) (t : string) :
  incl keywords keywords' ->
  Str.any_in keywords t = true -> Str.any_in keywords' t = true.
Proof.
  unfold Str.any_in. rewrite !existsb_exists. intros Hincl (kw & Hin & Hkw).
  exists kw. auto.
Qed.

Lemma filter_none {A : Type} (p : A -> bool) (l : list A) (x : A) :
  filter p l = [] -> In x l -> p x = false.
Proof.
  intros H Hin. destruct (p x) eqn:Hp; [|reflexivity].
  assert (Hx : In x (filter p l)) by (apply filter_In; auto).
  rewrite H in Hx. destruct Hx.
Qed.

(** X12.  The two keyword tables agree in one direction: every trigger of the
    summary's headline categories is a trigger of the matching table.  A
    request in which keyword matching recognises no category
    ([total_keywords] is 0) therefore always gets the stock paragraph. *)
Theorem unrecognised_request_gets_stock_text (user_requirement : string)
    (cd : coverage_data) (keyword_match : KeywordMatch.t) :
  KeywordMatch.total_keywords (keyword_matching user_requirement cd) = 0%Z ->
  generate_coverage_summary py_repr user_requirement cd keyword_match
  = Ok boilerplate_summary.
Proof.
  intros H.
  destruct (keyword_matching_counts user_requirement cd) as (Ht & _).
  cbv zeta in Ht. rewrite Ht in H. unfold requested_count in H.
  assert (Hnil : requested_categories user_requirement = []).
  { destruct (requested_categories user_requirement); [reflexivity|simpl in H; lia]. }
  unfold requested_categories in Hnil.
  unfold generate_coverage_summary. rewrite check_coverages_idle; [reflexivity|].
  assert (Hoff : forall category keywords keywords',
             In (category, keywords') keyword_map -> incl keywords keywords' ->
             negb (Str.any_in keywords (Str.lower user_requirement)) = true).
  { intros category keywords keywords' Hin Hincl. apply negb_true_iff.
    destruct (Str.any_in keywords (Str.lower user_requirement)) eqn:Hk; [|reflexivity].
    apply (any_in_incl _ _ _ Hincl) in Hk.
    pose proof (filter_none _ _ _ Hnil Hin) as Hf. unfold triggered in Hf. cbn [snd] in Hf.
    congruence. }
  unfold coverage_checks. cbn [forallb snd].
  rewrite (Hoff "hiv" ["hiv"; "aids"] ["hiv"; "aids"; "hiv/aids"; "std"]),
    (Hoff "cancer" ["cancer"; "oncology"; "chemotherapy"]
       ["cancer"; "oncology"; "chemotherapy"; "malignancy"]),
    (Hoff "mental" ["mental"; "psychiatric"] ["mental"; "psychiatric"; "psychology"]),
    (Hoff "maternity" ["maternity"; "pregnancy"]
       ["maternity"; "pregnancy"; "childbirth"; "delivery"]),
    (Hoff "critical illness" ["critical illness"] ["critical illness"; "critical disease"]),
    (Hoff "accident" ["accident"; "accidental"] ["accident"; "accidental"; "injury"]),
    (Hoff "hospitalization" ["hospitalization"; "inpatient"]
       ["hospitalization"; "inpatient"; "hospital"]);
    try reflexivity;
    try (unfold keyword_map; simpl; tauto);
    try (intros k Hk; simpl in Hk |- *; tauto).
Qed.

End SummaryEdges.

Lemma summary_is_stock_text_iff_nothing_asked_witness :
  generate_coverage_summary Sample.repr "Dental and vision cover"
    (mk_coverage_data "cancer care" [] [] [[("name", VNone)]] VNone VNone VNone)
    (keyword_matching "Dental and vision cover"
       (mk_coverage_data "cancer care" [] [] [[("name", VNone)]] VNone VNone VNone))
  = Ok boilerplate_summary.
Proof.
  apply (summary_is_stock_text_iff_nothing_asked Sample.repr "Dental and vision cover").
  reflexivity.
Defined.

Lemma unrecognised_request_gets_stock_text_witness :
  generate_coverage_summary Sample.repr "Dental and vision cover"
    (mk_coverage_data "cancer care" [] [] [] VNone VNone VNone)
    (keyword_matching "Dental and vision cover"
       (mk_coverage_data "cancer care" [] [] [] VNone VNone VNone))
  = Ok boilerplate_summary.
Proof.
  apply (unrecognised_request_gets_stock_text Sample.repr "Dental and vision cover").
  reflexivity.
Defined.

(* ------------------------------------------------------------------ *)
(** * Dictionaries, flattening and extraction *)

Lemma value_nested_ind (P : value -> Prop) :
  P VNone -> (forall b, P (VBool b)) -> (forall q, P (VNum q)) -> (forall s, P (VStr s)) ->
  (forall l, Forall P l -> P (VList l)) ->
  (forall d, Forall (fun kv => P (snd kv)) d -> P (VDict d)) ->
  forall v, P v.
Proof.
  intros HN HB HQ HS HL HD. fix IH 1. intros [|b|q|s|l|d].
  - exact HN.
  - apply HB.
  - apply HQ.
  - apply HS.
  - apply HL. induction l as [|x l IHl]; constructor; [apply IH|exact IHl].
  - apply HD. induction d as [|[k x] d IHd]; constructor; [apply IH|exact IHd].
Qed.

Section Dictionaries.
Local Open Scope string_scope.
Local Open Scope list_scope.

Lemma lookup_set_same (k : string) (v : value) (d : dict) :
  Py.lookup (Py.set k v d) k = Some v.
Proof.
  induction d as [|[k' v'] d IH]; cbn [Py.set Py.lookup].
  - now rewrite String.eqb_refl.
  - destruct (String.eqb k' k) eqn:E; cbn [Py.lookup]; rewrite E; [reflexivity|exact IH].
Qed.

Lemma lookup_set_other (k k' : string) (v : value) (d : dict) :
  k <> k' -> Py.lookup (Py.set k v d) k' = Py.lookup d k'.
Proof.
  intros Hne. induction d as [|[k0 v0] d IH]; cbn [Py.set Py.lookup].
  - destruct (String.eqb_spec k k'); [contradiction|reflexivity].
  - destruct (String.eqb_spec k0 k) as [->|Hk]; cbn [Py.lookup].
    + destruct (String.eqb_spec k k'); [contradiction|reflexivity].
    + now rewrite IH.
Qed.

Lemma lookup_none (d : dict) (k : string) :
  Py.lookup d k = None <-> ~ In k (map fst d).
Proof.
  induction d as [|[k' v'] d IH]; cbn [Py.lookup map fst In]; [tauto|].
  destruct (String.eqb_spec k' k) as [->|Hk].
  - split; [discriminate|tauto].
  - rewrite IH. tauto.
Qed.

Lemma set_fresh (k : string) (v : value) (d : dict) :
  ~ In k (map fst d) -> Py.set k v d = d ++ [(k, v)].
Proof.
  induction d as [|[k' v'] d IH]; cbn [Py.set map fst In app]; intros H; [reflexivity|].
  destruct (String.eqb_spec k' k) as [->|Hk]; [tauto|].
  rewrite IH; tauto.
Qed.

Lemma set_keys (k : string) (v : value) (d : dict) :
  In k (map fst d) -> map fst (Py.set k v d) = map fst d.
Proof.
  induction d as [|[k' v'] d IH]; cbn [Py.set map fst In]; intros H; [contradiction|].
  destruct (String.eqb_spec k' k) as [->|Hk]; cbn [map fst]; [reflexivity|].
  rewrite IH; [reflexivity|]. destruct H; [contradiction|assumption].
Qed.

Lemma set_keys_distinct (k : string) (v : value) (d : dict) :
  NoDup (map fst d) -> NoDup (map fst (Py.set k v d)).
Proof.
  intros H. destruct (in_dec string_dec k (map fst d)) as [Hin|Hout].
  - now rewrite set_keys.
  - rewrite set_fresh, map_app by exact Hout. cbn [map fst].
    apply NoDup_app; [exact H|repeat constructor; intros []|].
    intros x Hx [<-|[]]. contradiction.
Qed.

Lemma set_values (Q : value -> Prop) (k : string) (v : value) (d : dict) :
  Forall (fun kv => Q (snd kv)) d -> Q v -> Forall (fun kv => Q (snd kv)) (Py.set k v d).
Proof.
  intros Hd Hv. induction Hd as [|[k' v'] d Hx Hd IH]; cbn [Py.set].
  - repeat constructor. exact Hv.
  - destruct (String.eqb k' k); constructor; assumption.
Qed.

Lemma fold_set_keys_distinct (items : list (string * value)) :
  forall acc, NoDup (map fst acc) ->
    NoDup (map fst (fold_left (fun d kv => Py.set (fst kv) (snd kv) d) items acc)).
Proof.
  induction items as [|[k v] items IH]; intros acc H; [exact H|].
  cbn [fold_left fst snd]. apply IH. now apply set_keys_distinct.
Qed.

Lemma fold_set_values (Q : value -> Prop) (items : list (string * value)) :
  Forall (fun kv => Q (snd kv)) items ->
  forall acc, Forall (fun kv => Q (snd kv)) acc ->
    Forall (fun kv => Q (snd kv))
           (fold_left (fun d kv => Py.set (fst kv) (snd kv) d) items acc).
Proof.
  induction 1 as [|[k v] items Hx Hitems IH]; intros acc H; [exact H|].
  cbn [fold_left fst snd]. apply IH. now apply set_values.
Qed.

Lemma fold_set_distinct (items : list (string * value)) :
  forall acc, NoDup (map fst (acc ++ items)) ->
    fold_left (fun d kv => Py.set (fst kv) (snd kv) d) items acc = acc ++ items.
Proof.
  induction items as [|[k v] items IH]; intros acc H; [now rewrite app_nil_r|].
  cbn [fold_left fst snd].
  assert (Hout : ~ In k (map fst acc)).
  { rewrite map_app in H. cbn [map fst] in H. apply NoDup_remove_2 in H.
    intros Hin. apply H. apply in_or_app. now left. }
  rewrite set_fresh by exact Hout. rewrite IH; rewrite <- app_assoc; [reflexivity|exact H].
Qed.

Lemma of_items_keys_distinct (items : list (string * value)) :
  NoDup (map fst (Py.of_items items)).
Proof. apply fold_set_keys_distinct. constructor. Qed.

Lemma of_items_distinct (items : list (string * value)) :
  NoDup (map fst items) -> Py.of_items items = items.
Proof. intros H. unfold Py.of_items. now rewrite fold_set_distinct. Qed.

End Dictionaries.

Section FlattenEdges.
Local Open Scope string_scope.
Local Open Scope list_scope.

Variable py_repr : value -> string.

Lemma flatten_value_dict (new_key sep : string) (d : dict) :
  flatten_value py_repr new_key sep (VDict d)
  = Py.of_items
      (flat_map (fun kv => flatten_value py_repr (child_key new_key sep (fst kv)) sep (snd kv))
                d).
Proof.
  cbn [flatten_value]. f_equal.
  induction d as [|[k v] d IH]; [reflexivity|]. cbn [flat_map fst snd]. now rewrite <- IH.
Qed.

Lemma flatten_value_dicts (new_key sep : string) (l : list value) :
  forallb Py.is_dict l = true ->
  flatten_value py_repr new_key sep (VList l)
  = flat_map (flatten_value py_repr new_key sep) l.
Proof.
  intros H. cbn [flatten_value]. rewrite H. clear H.
  induction l as [|x l IH]; [reflexivity|]. cbn [flat_map]. now rewrite <- IH.
Qed.

Lemma flatten_value_mixed (new_key sep : string) (l : list value) :
  forallb Py.is_dict l = false ->
  flatten_value py_repr new_key sep (VList l)
  = [(new_key, VStr (Str.join ", " (map (str_of py_repr) l)))].
Proof. intros H. cbn [flatten_value]. now rewrite H. Qed.

Lemma flatten_value_scalar (new_key sep : string) (v : value) :
  scalar v = true -> flatten_value py_repr new_key sep v = [(new_key, v)].
Proof. destruct v; try discriminate; reflexivity. Qed.

Lemma Forall_flat_map {A B : Type} (Q : B -> Prop) (f : A -> list B) (l : list A) :
  Forall (fun x => Forall Q (f x)) l -> Forall Q (flat_map f l).
Proof.
  induction 1 as [|x l Hx Hl IH]; cbn [flat_map]; [constructor|].
  apply Forall_app. auto.
Qed.

Lemma flatten_value_flat (sep : string) (v : value) :
  forall new_key,
    Forall (fun kv => scalar (snd kv) = true) (flatten_value py_repr new_key sep v).
Proof.
  induction v as [|b|q|s|l IH|d IH] using value_nested_ind; intros new_key;
    try (repeat constructor).
  - destruct (forallb Py.is_dict l) eqn:Hl.
    + rewrite flatten_value_dicts by exact Hl. apply Forall_flat_map.
      eapply Forall_impl; [|exact IH]. intros x Hx. apply Hx.
    + rewrite flatten_value_mixed by exact Hl. repeat constructor.
  - rewrite flatten_value_dict. apply (fold_set_values (fun v => scalar v = true));
      [|constructor].
    apply Forall_flat_map. eapply Forall_impl; [|exact IH]. intros [k x] Hx. apply Hx.
Qed.

Lemma flatten_dict_shape (d : dict) (parent_key sep : string) :
  NoDup (map fst (flatten_dict py_repr d parent_key sep)) /\
  Forall (fun kv => scalar (snd kv) = true) (flatten_dict py_repr d parent_key sep).
Proof.
  split.
  - unfold flatten_dict. rewrite flatten_value_dict. apply of_items_keys_distinct.
  - apply flatten_value_flat.
Qed.

(** X13.  What [flatten_dict] returns is flat: no key occurs twice and no value
    is a dictionary or a list, however deeply the input is nested. *)
Theorem flatten_dict_is_flat (d : dict) (parent_key sep : string) :
  NoDup (map fst (flatten_dict py_repr d parent_key sep)) /\
  Forall (fun kv => scalar (snd kv) = true) (flatten_dict py_repr d parent_key sep).
Proof. exact (flatten_dict_shape d parent_key sep). Qed.

Lemma flat_map_scalars (sep : string) (d : dict) :
  Forall (fun kv => scalar (snd kv) = true) d ->
  flat_map (fun kv => flatten_value py_repr (child_key "" sep (fst kv)) sep (snd kv)) d = d.
Proof.
  induction 1 as [|[k v] d Hx Hd IH]; [reflexivity|].
  cbn [flat_map fst snd]. rewrite IH, flatten_value_scalar by exact Hx. reflexivity.
Qed.

(** X14.  A dictionary that is flat already comes back unchanged, and
    flattening twice is flattening once. *)
Theorem flatten_dict_is_idempotent (d : dict) (parent_key sep sep' : string) :
  (NoDup (map fst d) -> Forall (fun kv => scalar (snd kv) = true) d ->
   flatten_dict py_repr d "" sep = d) /\
  flatten_dict py_repr (flatten_dict py_repr d parent_key sep) "" sep'
  = flatten_dict py_repr d parent_key sep.
Proof.
  assert (Hid : forall (e : dict) s,
             NoDup (map fst e) -> Forall (fun kv => scalar (snd kv) = true) e ->
             flatten_dict py_repr e "" s = e).
  { intros e s Hk Hv. unfold flatten_dict. rewrite flatten_value_dict.
    rewrite flat_map_scalars by exact Hv. now apply of_items_distinct. }
  split; [apply Hid|].
  destruct (flatten_dict_shape d parent_key sep) as [Hk Hv]. now apply Hid.
Qed.

End FlattenEdges.

Section ExtractEdges.
Local Open Scope string_scope.
Local Open Scope list_scope.

Variable py_repr : value -> string.

Lemma selected_spec (flag : string) (items : list value) (d : dict) :
  In d (selected flag items) <->
  In (VDict d) items /\ Py.truthy (Py.get d flag VNone) = true.
Proof.
  induction items as [|x items IH]; cbn [selected In]; [tauto|].
  destruct x as [| | | | |e]; try (rewrite IH; intuition discriminate).
  destruct (Py.truthy (Py.get e flag VNone)) eqn:He; cbn [In]; rewrite IH.
  - split.
    + intros [->|[H1 H2]]; auto.
    + intros [[H|H] H2]; [left; congruence|auto].
  - split.
    + intros [H1 H2]; auto.
    + intros [[H|H] H2]; [|auto]. injection H as ->. congruence.
Qed.

Lemma join_inside (sep x : string) (l : list string) :
  In x l -> exists pre post, Str.join sep l = (pre ++ x ++ post)%string.
Proof.
  unfold Str.join. induction l as [|y l IH]; intros H; [destruct H|].
  destruct H as [->|H].
  - destruct l as [|z l].
    + exists "", "". cbn [concat append]. now rewrite append_empty_r.
    + exists "", (sep ++ concat sep (z :: l))%string. reflexivity.
  - destruct l as [|z l]; [destruct H|].
    destruct (IH H) as (pre & post & E).
    exists (y ++ sep ++ pre)%string, post.
    change (concat sep (y :: z :: l)) with (y ++ sep ++ concat sep (z :: l))%string.
    rewrite E, !append_assoc. reflexivity.
Qed.

Lemma text_of_special (policy : dict) (sc : dict) :
  In sc (special_coverages (extract_coverage_details py_repr policy)) ->
  exists pre post,
    text (extract_coverage_details py_repr policy)
    = (pre ++ special_text py_repr sc ++ post)%string.
Proof.
  intros H. cbn [extract_coverage_details text special_coverages] in *.
  apply join_inside. apply in_or_app. right. apply in_or_app. left. now apply in_map.
Qed.

(** X15.  A special coverage that is flagged as covered is found by keyword
    matching: when its disease name carries a trigger word of a category
    and the requirement asks for that category, the category is among the
    matched features of the policy. *)
Theorem covered_special_coverage_is_matched (user_requirement : string) (policy : dict)
    (items : list value) (sc : dict) (name category : string) (keywords : list string) :
  Py.lookup policy "specialCoverages" = Some (VList items) ->
  In (VDict sc) items ->
  Py.truthy (Py.get sc "isCovered" VNone) = true ->
  Py.lookup sc "diseaseName" = Some (VStr name) ->
  In (category, keywords) keyword_map ->
  Str.any_in keywords (Str.lower name) = true ->
  Str.any_in keywords (Str.lower user_requirement) = true ->
  In category
     (KeywordMatch.matched_features
        (keyword_matching user_requirement (extract_coverage_details py_repr policy))).
Proof.
  intros Hfield Hitem Hflag Hname Hcat Hkw Hreq.
  set (cd := extract_coverage_details py_repr policy).
  assert (Hsel : In sc (special_coverages cd)).
  { cbn [cd extract_coverage_details special_coverages]. unfold selected_of.
    rewrite Hfield. apply selected_spec. auto. }
  destruct (text_of_special policy sc Hsel) as (pre & post & Htext). fold cd in Htext.
  assert (Hin : Str.any_in keywords (Str.lower (text cd)) = true).
  { rewrite Htext. unfold special_text, Py.get. rewrite Hname. cbn [str_of].
    rewrite !append_assoc, !lower_app. now apply any_in_grows. }
  destruct (keyword_matching_counts user_requirement cd) as (_ & _ & Hm & _).
  cbv zeta in Hm. rewrite Hm. unfold matched_categories.
  apply in_map_iff. exists (category, keywords). split; [reflexivity|].
  apply filter_In. split; [exact Hcat|].
  unfold triggered_by_both, triggered. cbn [snd]. now rewrite Hreq, Hin.
Qed.

Lemma get_set_other (k k' : string) (v default : value) (d : dict) :
  k <> k' -> Py.get (Py.set k v d) k' default = Py.get d k' default.
Proof. intros H. unfold Py.get. now rewrite lookup_set_other. Qed.

(** X16.  Line 344 stores the resolved premium in the policy under
    ['premium_info'] and line 377 reads it back.  The stored value is the
    one read, and nothing else the scoring loop reads from the policy is
    changed by the store: its other keys and what
    [extract_coverage_details] returns are as before. *)
Theorem stored_premium_is_read_back (policy : dict) (info : value) :
  Py.lookup (Py.set "premium_info" info policy) "premium_info" = Some info /\
  (forall k default, k <> "premium_info" ->
     Py.get (Py.set "premium_info" info policy) k default = Py.get policy k default) /\
  extract_coverage_details py_repr (Py.set "premium_info" info policy)
  = extract_coverage_details py_repr policy.
Proof.
  split; [apply lookup_set_same|]. split.
  - intros k default Hk. apply get_set_other. congruence.
  - unfold extract_coverage_details, coverage_features, selected_of.
    rewrite !get_set_other, !lookup_set_other by discriminate. reflexivity.
Qed.

End ExtractEdges.

Lemma flatten_dict_is_idempotent_witness :
  flatten_dict Sample.repr [("room_rent", VStr "1% of sum insured"); ("icu", VNum 2)] "" " "
  = [("room_rent", VStr "1% of sum insured"); ("icu", VNum 2)].
Proof.
  apply (proj1 (flatten_dict_is_idempotent Sample.repr
                  [("room_rent", VStr "1% of sum insured"); ("icu", VNum 2)] "" " " " ")).
  - repeat constructor; simpl; intuition discriminate.
  - repeat constructor.
Defined.

Lemma covered_special_coverage_is_matched_witness :
  In "cancer"
     (KeywordMatch.matched_features
        (keyword_matching "I need chemotherapy cover"
           (extract_coverage_details Sample.repr
              [("policyName", VStr "Care");
               ("specialCoverages",
                VList [VDict [("diseaseName", VStr "Cancer Care");
                              ("isCovered", VBool true)]])]))).
Proof.
  apply (covered_special_coverage_is_matched Sample.repr "I need chemotherapy cover"
           [("policyName", VStr "Care");
            ("specialCoverages",
             VList [VDict [("diseaseName", VStr "Cancer Care");
                           ("isCovered", VBool true)]])]
           [VDict [("diseaseName", VStr "Cancer Care"); ("isCovered", VBool true)]]
           [("diseaseName", VStr "Cancer Care"); ("isCovered", VBool true)]
           "Cancer Care" "cancer" ["cancer"; "oncology"; "chemotherapy"; "malignancy"]).
  - reflexivity.
  - simpl. tauto.
  - reflexivity.
  - reflexivity.
  - simpl. tauto.
  - reflexivity.
  - reflexivity.
Defined.

Lemma stored_premium_is_read_back_witness :
  Py.get (Py.set "premium_info" (VDict [("premium_amount", VNum 7000)])
            [("policyName", VStr "Care"); ("premium_info", VNone)])
         "policyName" (VStr "Unknown")
  = Py.get [("policyName", VStr "Care"); ("premium_info", VNone)]
           "policyName" (VStr "Unknown").
Proof.
  apply (proj1 (proj2 (stored_premium_is_read_back Sample.repr
                         [("policyName", VStr "Care"); ("premium_info", VNone)]
                         (VDict [("premium_amount", VNum 7000)])))).
  discriminate.
Defined.

(* ------------------------------------------------------------------ *)
(** * The whole pass: display, truncation, completeness, failures, budget *)

Section PassEdges.
Local Open Scope string_scope.
Local Open Scope list_scope.

Variable py_repr : value -> string.
Variable embedding : Type.
Variable encode : string -> embedding.
Variable cosine_similarity : embedding -> embedding -> Q.
Variable user_age : Z.
Variable user_city : string.
Variable policy_category : string.
Variable user_coverage_requirement : string.

Local Abbreviation resolve policy :=
  (find_applicable_premium user_age user_city policy_category
     (Py.get policy "premiums" (VList []))).
Local Abbreviation filter_them budget :=
  (filter_policies user_age budget user_city policy_category).
Local Abbreviation score :=
  (score_policy py_repr encode cosine_similarity user_coverage_requirement
     (encode user_coverage_requirement)).
Local Abbreviation score_all :=
  (score_policies py_repr encode cosine_similarity user_coverage_requirement
     (encode user_coverage_requirement)).
Local Abbreviation run budget n :=
  (get_recommendations py_repr encode cosine_similarity user_age budget user_city
     policy_category user_coverage_requirement n).

Lemma format_thousands_ok (v : value) : format_thousands v = Ok tt <-> is_num v = true.
Proof.
  destruct v as [|[|]| | | |]; cbn; split; intros H; try discriminate H; reflexivity.
Qed.

Lemma display_ok (recs : list Recommendation.t) :
  _display_recommendations recs = Ok tt <-> Forall printable recs.
Proof.
  split.
  - induction recs as [|r recs IH]; intros H; [constructor|].
    cbn [_display_recommendations] in H.
    destruct (format_thousands (Recommendation.premium r)) as [[]|e] eqn:Hp;
      cbn [bind] in H; [|discriminate H].
    destruct (format_thousands (Recommendation.sum_insured r)) as [[]|e] eqn:Hs;
      cbn [bind] in H; [|discriminate H].
    constructor; [|now apply IH].
    split; now apply format_thousands_ok.
  - induction 1 as [|r recs [Hp Hs] _ IH]; [reflexivity|].
    cbn [_display_recommendations].
    apply format_thousands_ok in Hp, Hs. rewrite Hp, Hs. exact IH.
Qed.

(** X17.  The display returns exactly when every record it is given has a
    numeric premium and a numeric sum insured; one record with a textual or
    missing amount makes it raise. *)
Theorem display_returns_iff_printable (recs : list Recommendation.t) :
  _display_recommendations recs = Ok tt <-> Forall printable recs.
Proof. exact (display_ok recs). Qed.

Lemma get_recommendations_returns_iff (budget : Q) (n : Z) (store : list dict)
    (recs : list Recommendation.t) :
  run budget n store = Ok recs <->
  exists filtered scored,
    filter_them budget (find_active store) = Ok filtered /\
    score_all filtered = Ok scored /\
    recs = slice_to (sort_recommendations scored) n /\
    Forall printable recs.
Proof.
  rewrite get_recommendations_unfold. unfold rank_policies. split.
  - intros H.
    destruct (filter_them budget (find_active store)) as [filtered|e] eqn:Hf;
      cbn [bind] in H; [|discriminate H].
    destruct (score_all filtered) as [scored|e] eqn:Hs; cbn [bind] in H; [|discriminate H].
    destruct (_display_recommendations (slice_to (sort_recommendations scored) n))
      as [[]|e] eqn:Hd; cbn [bind] in H; [|discriminate H].
    injection H as <-. exists filtered, scored.
    split; [reflexivity|]. split; [exact Hs|]. split; [reflexivity|].
    now apply display_ok.
  - intros (filtered & scored & Hf & Hs & -> & Hp). rewrite Hf. cbn [bind].
    rewrite Hs. cbn [bind]. apply display_ok in Hp. rewrite Hp. reflexivity.
Qed.

Lemma Forall_firstn {A : Type} (P : A -> Prop) (n : nat) (l : list A) :
  Forall P l -> Forall P (firstn n l).
Proof.
  rewrite !Forall_forall. intros H x Hx. apply H. revert Hx. apply firstn_In.
Qed.

Lemma Forall_slice_to {A : Type} (P : A -> Prop) (n : Z) (l : list A) :
  Forall P l -> Forall P (slice_to l n).
Proof. unfold slice_to. destruct (0 <=? n)%Z; apply Forall_firstn. Qed.

Lemma untruncated {A : Type} (l : list A) (n : Z) :
  (Z.of_nat (List.length (slice_to l n)) < n)%Z -> slice_to l n = l.
Proof.
  intros H. assert (Hn : (0 <= n)%Z) by lia.
  rewrite slice_to_firstn in * by exact Hn.
  rewrite length_firstn in H. apply firstn_all2. lia.
Qed.

(** X18.  Asking for fewer results gives a prefix of what more results would
    have been: when the pass returns for [top_n = big], it returns the
    first [n] of the same list for every [0 <= n <= big]; and when [big]
    was not reached, it returns Python's slice [full[:n]] for every [n],
    a negative one included (which drops the last [-n] entries). *)
Theorem fewer_results_are_a_prefix (budget : Q) (big : Z) (store : list dict)
    (full : list Recommendation.t) :
  run budget big store = Ok full ->
  (forall n, (0 <= n <= big)%Z -> run budget n store = Ok (firstn (Z.to_nat n) full)) /\
  ((Z.of_nat (List.length full) < big)%Z ->
   forall n, run budget n store = Ok (slice_to full n)).
Proof.
  intros H. apply get_recommendations_returns_iff in H
    as (filtered & scored & Hf & Hs & -> & Hp).
  split.
  - intros n Hn. apply get_recommendations_returns_iff. exists filtered, scored.
    assert (E : firstn (Z.to_nat n) (slice_to (sort_recommendations scored) big)
                = slice_to (sort_recommendations scored) n).
    { rewrite !slice_to_firstn by lia. rewrite firstn_firstn. f_equal. lia. }
    repeat split; try assumption. now apply Forall_firstn.
  - intros Hlen n. rewrite (untruncated _ _ Hlen) in *.
    apply get_recommendations_returns_iff. exists filtered, scored.
    repeat split; try assumption; try reflexivity. now apply Forall_slice_to.
Qed.

Lemma Forall2_In_l {A B : Type} (R : A -> B -> Prop) (l : list A) (l' : list B) (x : A) :
  Forall2 R l l' -> In x l -> exists y, In y l' /\ R x y.
Proof.
  induction 1 as [|a b l l' Hab _ IH]; intros Hin; [contradiction|].
  destruct Hin as [<-|Hin].
  - exists b. split; [now left|exact Hab].
  - destruct (IH Hin) as (y & Hy & Hr). exists y. split; [now right|exact Hr].
Qed.

(** X19.  Nothing eligible is dropped: when the pass returns fewer than [top_n]
    records, every active policy of the store whose premium resolves and
    is within the budget has its scored record in the result. *)
Theorem every_eligible_policy_is_returned (budget : Q) (n : Z) (store : list dict)
    (recs : list Recommendation.t) (policy : dict) (info : premium_info) :
  run budget n store = Ok recs ->
  (Z.of_nat (List.length recs) < n)%Z ->
  In policy store ->
  is_active policy = true ->
  resolve policy = Ok (Some info) ->
  Py.le_num (premium_amount info) budget = Ok true ->
  exists r, In r recs /\ score (policy, info) = Ok r.
Proof.
  intros H Hlen Hin Hact Hres Hle.
  apply get_recommendations_returns_iff in H as (filtered & scored & Hf & Hs & -> & _).
  rewrite (untruncated _ _ Hlen).
  assert (Hentry : In (policy, info) filtered).
  { apply (@filter_policies_complete user_age budget user_city policy_category
             (find_active store) filtered Hf policy info); try assumption.
    apply filter_In. auto. }
  apply score_policies_sound in Hs.
  destruct (Forall2_In_l _ _ _ _ Hs Hentry) as (r & Hr & Hscore).
  exists r. split; [|exact Hscore].
  apply (Permutation_in r (Permutation_sym (sort_recommendations_perm scored))). exact Hr.
Qed.

Lemma filter_policies_raises (budget : Q) (active : list dict) (policy : dict) (e : exn) :
  In policy active ->
  resolve policy = Raise e \/
  (exists info, resolve policy = Ok (Some info) /\
                Py.le_num (premium_amount info) budget = Raise e) ->
  exists e', filter_them budget active = Raise e'.
Proof.
  induction active as [|p active IH]; intros Hin Hbad; [contradiction|].
  cbn [filter_policies]. destruct Hin as [->|Hin].
  - destruct Hbad as [->|(info & -> & Hle)]; cbn [bind]; [now exists e|].
    rewrite Hle. cbn [bind]. now exists e.
  - destruct (IH Hin Hbad) as (e' & ->).
    destruct (resolve p) as [[info|]|e0]; cbn [bind]; [| |now exists e0].
    + destruct (Py.le_num (premium_amount info) budget) as [w|e0]; cbn [bind];
        [now exists e'|now exists e0].
    + now exists e'.
Qed.

(** X20.  One broken record spoils the call: if the premium table of any active
    policy makes the resolver raise, or its resolved premium cannot be
    compared with the budget, the whole pass raises and no policy is
    recommended, whatever [top_n] is and wherever the record stands. *)
Theorem one_failing_policy_fails_the_pass (budget : Q) (n : Z) (store : list dict)
    (policy : dict) (e : exn) :
  In policy store ->
  is_active policy = true ->
  resolve policy = Raise e \/
  (exists info, resolve policy = Ok (Some info) /\
                Py.le_num (premium_amount info) budget = Raise e) ->
  exists e', run budget n store = Raise e'.
Proof.
  intros Hin Hact Hbad. rewrite get_recommendations_unfold.
  destruct (filter_policies_raises budget (find_active store) policy e) as (e' & ->);
    [apply filter_In; auto|exact Hbad|].
  now exists e'.
Qed.

End PassEdges.

Lemma fewer_results_are_a_prefix_witness :
  exists full,
    Sample.run [Sample.care; Sample.premium_plan; Sample.shield] = Ok full /\
    get_recommendations Sample.repr Sample.encode Sample.cosine 28 15000 "mumbai"
      "Individual" "I need cancer coverage" (-1)
      [Sample.care; Sample.premium_plan; Sample.shield]
    = Ok (slice_to full (-1)).
Proof.
  eexists. split; [vm_compute; reflexivity|].
  eapply (fun full H =>
            proj2 (@fewer_results_are_a_prefix Sample.repr string Sample.encode
                     Sample.cosine 28 "mumbai" "Individual" "I need cancer coverage"
                     15000 5 [Sample.care; Sample.premium_plan; Sample.shield] full H)).
  - vm_compute. reflexivity.
  - vm_compute. reflexivity.
Defined.

Lemma every_eligible_policy_is_returned_witness :
  exists recs info,
    Sample.run [Sample.care; Sample.premium_plan; Sample.shield] = Ok recs /\
    find_applicable_premium 28 "mumbai" "Individual"
      (Py.get Sample.shield "premiums" (VList [])) = Ok (Some info) /\
    exists r,
      In r recs /\
      score_policy Sample.repr Sample.encode Sample.cosine "I need cancer coverage"
        (Sample.encode "I need cancer coverage") (Sample.shield, info) = Ok r.
Proof.
  eexists. eexists. split; [vm_compute; reflexivity|]. split; [vm_compute; reflexivity|].
  apply (@every_eligible_policy_is_returned Sample.repr string Sample.encode
           Sample.cosine 28 "mumbai" "Individual" "I need cancer coverage"
           15000 5 [Sample.care; Sample.premium_plan; Sample.shield]).
  - vm_compute. reflexivity.
  - vm_compute. reflexivity.
  - simpl. tauto.
  - reflexivity.
  - vm_compute. reflexivity.
  - vm_compute. reflexivity.
Defined.

Lemma one_failing_policy_fails_the_pass_witness :
  exists e',
    get_recommendations Sample.repr Sample.encode Sample.cosine 28 15000 "mumbai"
      "Individual" "I need cancer coverage" 5
      [Sample.care;
       [("isActive", VBool true);
        ("premiums", VList [VDict [("cities", VList [VNum 400001])]])];
       Sample.shield]
    = Raise e'.
Proof.
  apply (@one_failing_policy_fails_the_pass Sample.repr string Sample.encode
           Sample.cosine 28 "mumbai" "Individual" "I need cancer coverage" 15000 5
           [Sample.care;
            [("isActive", VBool true);
             ("premiums", VList [VDict [("cities", VList [VNum 400001])]])];
            Sample.shield]
           [("isActive", VBool true);
            ("premiums", VList [VDict [("cities", VList [VNum 400001])]])]
           AttributeError).
  - simpl. tauto.
  - reflexivity.
  - left. reflexivity.
Defined.

(* ------------------------------------------------------------------ *)
(** * The budget *)

Section BudgetEdges.
Local Open Scope string_scope.
Local Open Scope list_scope.

Variable py_repr : value -> string.
Variable embedding : Type.
Variable encode : string -> embedding.
Variable cosine_similarity : embedding -> embedding -> Q.
Variable user_age : Z.
Variable user_city : string.
Variable policy_category : string.
Variable user_coverage_requirement : string.

Local Abbreviation resolve policy :=
  (find_applicable_premium user_age user_city policy_category
     (Py.get policy "premiums" (VList []))).
Local Abbreviation filter_them budget :=
  (filter_policies user_age budget user_city policy_category).
Local Abbreviation score :=
  (score_policy py_repr encode cosine_similarity user_coverage_requirement
     (encode user_coverage_requirement)).
Local Abbreviation score_all :=
  (score_policies py_repr encode cosine_similarity user_coverage_requirement
     (encode user_coverage_requirement)).
Local Abbreviation run budget n :=
  (get_recommendations py_repr encode cosine_similarity user_age budget user_city
     policy_category user_coverage_requirement n).
Local Abbreviation affordable budget :=
  (fun r : Recommendation.t => within_budget budget (Recommendation.premium r)).

Lemma ranked_before_not_lt (a b : Recommendation.t) :
  ranked_before a b -> key_lt b a = false.
Proof.
  unfold ranked_before, key_lt. intros H.
  destruct (Qeq_bool (- Recommendation.combined_score b)
                     (- Recommendation.combined_score a)) eqn:E.
  - apply Qeq_bool_iff in E.
    destruct (Qltb (premium_num b) (premium_num a)) eqn:L; [|reflexivity].
    apply Qltb_iff in L. destruct H as [H|[_ H]]; lra.
  - destruct (Qltb (- Recommendation.combined_score b)
                   (- Recommendation.combined_score a)) eqn:L; [|reflexivity].
    apply Qltb_iff in L. destruct H as [H|[H _]]; lra.
Qed.

Lemma insert_dropped (keep : Recommendation.t -> bool) (x : Recommendation.t)
    (l : list Recommendation.t) :
  keep x = false -> filter keep (insert_by_key x l) = filter keep l.
Proof.
  intros Hx. induction l as [|y l IH]; cbn [insert_by_key filter]; [now rewrite Hx|].
  destruct (key_lt y x); cbn [filter]; [now rewrite IH|now rewrite Hx].
Qed.

Lemma insert_in_front (x : Recommendation.t) (l : list Recommendation.t) :
  Forall (fun z => key_lt z x = false) l -> insert_by_key x l = x :: l.
Proof.
  intros H. destruct H as [|z l Hz _]; cbn [insert_by_key]; [reflexivity|now rewrite Hz].
Qed.

Lemma insert_kept (keep : Recommendation.t -> bool) (x : Recommendation.t)
    (l : list Recommendation.t) :
  StronglySorted ranked_before l -> keep x = true ->
  filter keep (insert_by_key x l) = insert_by_key x (filter keep l).
Proof.
  intros Hs Hx. induction Hs as [|y l Hs IH Hy]; cbn [insert_by_key filter];
    [now rewrite Hx|].
  destruct (key_lt y x) eqn:E.
  - cbn [filter]. rewrite IH. destruct (keep y); cbn [insert_by_key]; [now rewrite E|reflexivity].
  - cbn [filter]. rewrite Hx.
    change (if keep y then y :: filter keep l else filter keep l)
      with (filter keep (y :: l)).
    rewrite insert_in_front; [reflexivity|].
    apply Forall_forall. intros z Hz. apply filter_In in Hz as [Hz _].
    apply ranked_before_not_lt.
    apply (@key_not_lt_ranked y x) in E.
    destruct Hz as [<-|Hz]; [exact E|].
    rewrite Forall_forall in Hy. exact (@ranked_before_trans x y z E (Hy z Hz)).
Qed.

Lemma sort_of_kept (keep : Recommendation.t -> bool) (l : list Recommendation.t) :
  sort_recommendations (filter keep l) = filter keep (sort_recommendations l).
Proof.
  induction l as [|x l IH]; [reflexivity|]. cbn [filter sort_recommendations].
  destruct (keep x) eqn:Hx.
  - cbn [sort_recommendations]. rewrite IH. symmetry.
    apply insert_kept; [apply sort_recommendations_strongly_sorted|exact Hx].
  - rewrite IH. symmetry. now apply insert_dropped.
Qed.

Lemma within_lower_budget (b b' : Q) (v : value) :
  b <= b' -> within_budget b v = true -> within_budget b' v = true.
Proof.
  unfold within_budget. destruct (Py.num v) as [x|]; [|discriminate].
  rewrite !Qle_bool_iff. intros. lra.
Qed.

Lemma filter_policies_lower (b b' : Q) (active : list dict) :
  b <= b' ->
  forall filtered',
    filter_them b' active = Ok filtered' ->
    filter_them b active
    = Ok (filter (fun entry => within_budget b (premium_amount (snd entry))) filtered').
Proof.
  intros Hb. induction active as [|p active IH]; intros filtered' H.
  - injection H as <-. reflexivity.
  - cbn [filter_policies] in *.
    destruct (resolve p) as [[info|]|e]; cbn [bind] in *; [| |discriminate H].
    + unfold Py.le_num in *.
      pose proof (within_lower_budget b b' (premium_amount info) Hb) as Hw.
      unfold within_budget in Hw.
      destruct (Py.num (premium_amount info)) as [x|] eqn:Hx; cbn [bind] in *;
        [|discriminate H].
      destruct (filter_them b' active) as [rest'|e]; cbn [bind] in *; [|discriminate H].
      rewrite (IH rest' eq_refl). cbn [bind]. injection H as <-.
      destruct (Qle_bool x b') eqn:E'; cbn [filter snd]; unfold within_budget; rewrite ?Hx.
      * reflexivity.
      * destruct (Qle_bool x b); [|reflexivity]. discriminate (Hw eq_refl).
    + now apply IH.
Qed.

Lemma score_policies_kept (b : Q) (filtered : list (dict * premium_info)) :
  forall scored,
    score_all filtered = Ok scored ->
    score_all (filter (fun entry => within_budget b (premium_amount (snd entry))) filtered)
    = Ok (filter (affordable b) scored).
Proof.
  induction filtered as [|entry filtered IH]; intros scored H.
  - injection H as <-. reflexivity.
  - cbn [score_policies] in H.
    destruct (score entry) as [r|e] eqn:Hr; cbn [bind] in H; [|discriminate H].
    destruct (score_all filtered) as [rs|e]; cbn [bind] in H; [|discriminate H].
    injection H as <-. cbn [filter].
    rewrite (@score_policy_premium py_repr embedding encode cosine_similarity
               user_coverage_requirement entry r Hr).
    destruct (within_budget b (premium_amount (snd entry))).
    + cbn [score_policies]. rewrite Hr. cbn [bind]. rewrite (IH rs eq_refl). reflexivity.
    + now apply IH.
Qed.

Lemma Forall_filter {A : Type} (P : A -> Prop) (keep : A -> bool) (l : list A) :
  Forall P l -> Forall P (filter keep l).
Proof.
  rewrite !Forall_forall. intros H x Hx. apply H. now apply filter_In in Hx.
Qed.

(** X21.  Lowering the budget only removes what has become too dear.  When the
    pass returns fewer than [top_n] records for a budget, it returns for
    every lower budget the same records without those whose premium is
    above the lower budget, in the same order. *)
Theorem lower_budget_drops_only_dearer (b b' : Q) (n : Z) (store : list dict)
    (recs' : list Recommendation.t) :
  b <= b' ->
  run b' n store = Ok recs' ->
  (Z.of_nat (List.length recs') < n)%Z ->
  run b n store = Ok (filter (affordable b) recs').
Proof.
  intros Hb H Hlen.
  apply get_recommendations_returns_iff in H as (filtered' & scored' & Hf & Hs & -> & Hp).
  pose proof (untruncated _ _ Hlen) as Hall. rewrite Hall in Hlen, Hp |- *.
  apply get_recommendations_returns_iff.
  exists (filter (fun entry => within_budget b (premium_amount (snd entry))) filtered'),
         (filter (affordable b) scored').
  split; [now apply filter_policies_lower with b'|].
  split; [now apply score_policies_kept|].
  split; [|now apply Forall_filter].
  rewrite sort_of_kept. unfold slice_to.
  destruct (Z.leb_spec 0 n) as [_|Hneg]; [|lia].
  symmetry. apply firstn_all2.
  pose proof (filter_length_le (affordable b) (sort_recommendations scored')). lia.
Qed.

End BudgetEdges.

Lemma lower_budget_drops_only_dearer_witness :
  exists recs',
    Sample.run [Sample.care; Sample.premium_plan; Sample.shield] = Ok recs' /\
    get_recommendations Sample.repr Sample.encode Sample.cosine 28 5000 "mumbai"
      "Individual" "I need cancer coverage" 5
      [Sample.care; Sample.premium_plan; Sample.shield]
    = Ok (filter (fun r => within_budget 5000 (Recommendation.premium r)) recs').
Proof.
  eexists. split; [vm_compute; reflexivity|].
  apply (@lower_budget_drops_only_dearer Sample.repr string Sample.encode
           Sample.cosine 28 "mumbai" "Individual" "I need cancer coverage"
           5000 15000 5 [Sample.care; Sample.premium_plan; Sample.shield]).
  - vm_compute. discriminate.
  - vm_compute. reflexivity.
  - vm_compute. reflexivity.
Defined.

(* ------------------------------------------------------------------ *)
(** * The route's conversion of numpy values *)

Section RouteEdges.
Local Open Scope string_scope.
Local Open Scope list_scope.

Lemma ndarray_nested_ind (P : ndarray -> Prop) :
  (forall x, P (Item x)) ->
  (forall rows, Forall P rows -> P (Axis rows)) ->
  forall a, P a.
Proof.
  intros HI HA. fix IH 1. intros [x|rows]; [apply HI|].
  apply HA. induction rows as [|r rows IHrows]; constructor; [apply IH|exact IHrows].
Qed.

Lemma obj_nested_ind (P : obj -> Prop) :
  P ONone -> (forall b, P (OBool b)) -> (forall q, P (ONum q)) -> (forall s, P (OStr s)) ->
  (forall l, Forall P l -> P (OList l)) ->
  (forall d, Forall (fun kv => P (snd kv)) d -> P (ODict d)) ->
  (forall l, Forall P l -> P (OTuple l)) ->
  (forall x, P (OScalar x)) -> (forall a, P (OArray a)) ->
  forall o, P o.
Proof.
  intros HN HB HQ HS HL HD HT HX HA. fix IH 1. intros [|b|q|s|l|d|l|x|a].
  - exact HN.
  - apply HB.
  - apply HQ.
  - apply HS.
  - apply HL. induction l as [|y l IHl]; constructor; [apply IH|exact IHl].
  - apply HD. induction d as [|[k y] d IHd]; constructor; [apply IH|exact IHd].
  - apply HT. induction l as [|y l IHl]; constructor; [apply IH|exact IHl].
  - apply HX.
  - apply HA.
Qed.

Lemma tolist_is_plain (a : ndarray) : numpy_free (tolist a) = true.
Proof.
  induction a as [x|rows IH] using ndarray_nested_ind; [reflexivity|].
  cbn [tolist numpy_free]. induction IH as [|r rows Hr _ IHrows]; [reflexivity|].
  cbn [map forallb]. now rewrite Hr.
Qed.

Lemma item_is_plain (x : native) : numpy_free (item x) = true.
Proof. destruct x; reflexivity. Qed.

(** X22.  The conversion does what it is there for, as far as it looks: when
    every numpy value of an object is reached through dictionaries and
    lists only, the converted object holds no numpy value at all. *)
Theorem convert_numpy_types_removes_numpy (o : obj) :
  numpy_in_reach o = true -> numpy_free (convert_numpy_types o) = true.
Proof.
  induction o as [|b|q|s|l IH|d IH|l IH|x|a] using obj_nested_ind;
    cbn [numpy_in_reach convert_numpy_types numpy_free]; intros H; try reflexivity.
  - induction IH as [|y l Hy _ IHl]; [reflexivity|].
    cbn [forallb map] in *. apply andb_prop in H as [H1 H2].
    now rewrite (Hy H1), (IHl H2).
  - induction IH as [|[k y] d Hy _ IHd]; [reflexivity|].
    cbn [forallb map fst snd] in *. apply andb_prop in H as [H1 H2].
    now rewrite (Hy H1), (IHd H2).
  - exact H.
  - apply item_is_plain.
  - apply tolist_is_plain.
Qed.

Lemma convert_plain (o : obj) : numpy_free o = true -> convert_numpy_types o = o.
Proof.
  induction o as [|b|q|s|l IH|d IH|l IH|x|a] using obj_nested_ind;
    cbn [numpy_free convert_numpy_types]; intros H; try reflexivity; try discriminate H.
  - f_equal. induction IH as [|y l Hy _ IHl]; [reflexivity|].
    cbn [forallb map] in *. apply andb_prop in H as [H1 H2].
    now rewrite (Hy H1), (IHl H2).
  - f_equal. induction IH as [|[k y] d Hy _ IHd]; [reflexivity|].
    cbn [forallb map fst snd] in *. apply andb_prop in H as [H1 H2].
    now rewrite (Hy H1), (IHd H2).
Qed.

(** X23.  An object without numpy values passes through unchanged, and
    converting twice is converting once, whatever the object holds. *)
Theorem convert_numpy_types_keeps_plain_objects (o : obj) :
  (numpy_free o = true -> convert_numpy_types o = o) /\
  convert_numpy_types (convert_numpy_types o) = convert_numpy_types o.
Proof.
  split; [apply convert_plain|].
  induction o as [|b|q|s|l IH|d IH|l IH|x|a] using obj_nested_ind;
    cbn [convert_numpy_types]; try reflexivity.
  - f_equal. induction IH as [|y l Hy _ IHl]; [reflexivity|].
    cbn [map]. now rewrite Hy, IHl.
  - f_equal. induction IH as [|[k y] d Hy _ IHd]; [reflexivity|].
    cbn [map fst snd] in *. now rewrite Hy, IHd.
  - apply convert_plain, item_is_plain.
  - apply convert_plain, tolist_is_plain.
Qed.

(** A tuple is returned as it is, numpy values included. *)
Example numpy_inside_a_tuple_survives :
  convert_numpy_types (OList [OTuple [OScalar (NNum (1 # 2))]])
  = OList [OTuple [OScalar (NNum (1 # 2))]].
Proof. reflexivity. Qed.

End RouteEdges.

Lemma convert_numpy_types_removes_numpy_witness :
  numpy_free
    (convert_numpy_types
       (OList [ODict [("policy_name", OStr "Care");
                      ("nlp_score", OScalar (NNum (4321 # 10000)));
                      ("matched_features", OList [OStr "cancer"]);
                      ("embedding", OArray (Axis [Axis [Item 1; Item 0]]))]]))
  = true.
Proof.
  apply (convert_numpy_types_removes_numpy
           (OList [ODict [("policy_name", OStr "Care");
                          ("nlp_score", OScalar (NNum (4321 # 10000)));
                          ("matched_features", OList [OStr "cancer"]);
                          ("embedding", OArray (Axis [Axis [Item 1; Item 0]]))]])).
  reflexivity.
Defined.

Lemma convert_numpy_types_keeps_plain_objects_witness :
  convert_numpy_types
    (OList [ODict [("policy_name", OStr "Care"); ("premium", ONum 8000)]])
  = OList [ODict [("policy_name", OStr "Care"); ("premium", ONum 8000)]].
Proof.
  apply (proj1 (convert_numpy_types_keeps_plain_objects
                  (OList [ODict [("policy_name", OStr "Care"); ("premium", ONum 8000)]]))).
  reflexivity.
Defined.

(* ------------------------------------------------------------------ *)
(** * The weights of the combined score *)

Section WeightEdges.
Local Open Scope string_scope.
Local Open Scope list_scope.

Variable py_repr : value -> string.
Variable embedding : Type.
Variable encode : string -> embedding.
Variable cosine_similarity : embedding -> embedding -> Q.
Variable user_age : Z.
Variable user_budget : Q.
Variable user_city : string.
Variable policy_category : string.
Variable user_coverage_requirement : string.
Variable top_n : Z.

(** A cosine lies between -1 and 1. *)
Hypothesis cosine_range : forall u p, -1 <= cosine_similarity u p <= 1.

Local Abbreviation run :=
  (get_recommendations py_repr encode cosine_similarity user_age user_budget user_city
     policy_category user_coverage_requirement top_n).

Lemma combined_score_bounds (store : list dict) (recs : list Recommendation.t)
    (r : Recommendation.t) :
  run store = Ok recs -> In r recs ->
  Recommendation.keyword_score r * (7 # 1000) - (3 # 10) - (1 # 20000)
  <= Recommendation.combined_score r /\
  Recommendation.combined_score r
  <= Recommendation.keyword_score r * (7 # 1000) + (3 # 10) + (1 # 20000).
Proof.
  intros H Hr.
  destruct (@get_recommendations_provenance py_repr embedding encode cosine_similarity
              user_age user_budget user_city policy_category user_coverage_requirement
              top_n store recs H r Hr) as (policy & info & _ & _ & _ & _ & Hs).
  destruct (@score_policy_fields py_repr embedding encode cosine_similarity
              user_coverage_requirement policy info r Hs) as (Hk & _ & Hc).
  rewrite Hc, Hk.
  set (share := keyword_share py_repr user_coverage_requirement policy).
  pose proof (cosine_range (encode user_coverage_requirement)
                (encode (blob py_repr policy))) as Hcos.
  fold (semantic_score py_repr encode cosine_similarity user_coverage_requirement policy)
    in Hcos.
  set (sem := semantic_score py_repr encode cosine_similarity
                user_coverage_requirement policy) in *.
  destruct (round4_close (share * (7 # 1000) + sem * (3 # 10))) as [H1 H2].
  split; lra.
Qed.

(** X24.  The keyword share carries 0.7 of the score and the similarity 0.3, so
    the similarity cannot overturn a full keyword match: a returned policy
    that matches every requested category (keyword score 100) has a
    strictly higher combined score than one that matches none (keyword
    score 0), and stands before it in the result. *)
Theorem full_match_outranks_no_match (store : list dict) (recs : list Recommendation.t)
    (i j : nat) (r1 r2 : Recommendation.t) :
  run store = Ok recs ->
  nth_error recs i = Some r1 ->
  nth_error recs j = Some r2 ->
  Recommendation.keyword_score r1 == 100 ->
  Recommendation.keyword_score r2 == 0 ->
  Recommendation.combined_score r2 < Recommendation.combined_score r1 /\ (i < j)%nat.
Proof.
  intros H Hi Hj Hfull Hnone.
  destruct (combined_score_bounds store recs r1 H (nth_error_In _ _ Hi)) as [Hlow _].
  destruct (combined_score_bounds store recs r2 H (nth_error_In _ _ Hj)) as [_ Hhigh].
  assert (Hlt : Recommendation.combined_score r2 < Recommendation.combined_score r1)
    by lra.
  split; [exact Hlt|].
  destruct (@get_recommendations_inv py_repr embedding encode cosine_similarity
              user_age user_budget user_city policy_category user_coverage_requirement
              top_n store recs H) as (filtered & scored & _ & _ & ->).
  pose proof (@slice_to_sorted _ ranked_before (sort_recommendations scored) top_n
                (sort_recommendations_strongly_sorted scored)) as Hsorted.
  destruct (lt_eq_lt_dec i j) as [[Hij|Hij]|Hij]; [exact Hij| |].
  - subst j. rewrite Hi in Hj. injection Hj as ->. lra.
  - pose proof (@StronglySorted_nth _ _ _ Hsorted j i r2 r1 Hij Hj Hi) as Hrank.
    unfold ranked_before in Hrank. destruct Hrank as [Hr|[Hr _]]; lra.
Qed.

End WeightEdges.

Lemma full_match_outranks_no_match_witness :
  exists recs r1 r2,
    Sample.run [Sample.policy "Basic" true "room rent" [Sample.bracket "18-35" 3000];
                Sample.care] = Ok recs /\
    nth_error recs 0 = Some r1 /\
    nth_error recs 1 = Some r2 /\
    Recommendation.combined_score r2 < Recommendation.combined_score r1 /\ (0 < 1)%nat.
Proof.
  eexists. eexists. eexists.
  split; [vm_compute; reflexivity|]. split; [reflexivity|]. split; [reflexivity|].
  assert (Hcos : forall u p : string, -1 <= Sample.cosine u p <= 1)
    by (intros u p; split; vm_compute; discriminate).
  eapply (@full_match_outranks_no_match Sample.repr string Sample.encode Sample.cosine
            28 15000 "mumbai" "Individual" "I need cancer coverage" 5 Hcos
           [Sample.policy "Basic" true "room rent" [Sample.bracket "18-35" 3000];
            Sample.care]).
  - vm_compute. reflexivity.
  - reflexivity.
  - reflexivity.
  - vm_compute. reflexivity.
  - vm_compute. reflexivity.
Defined.
